(** * NYCU award-announcement bot: the message bus and its coordinators

    A shallow embedding of the Python sources
      - [models.py]              (data classes, [generate_id]),
      - [base_agent.py]          ([MessageBus], [BaseAgent]),
      - [coordinator_agents.py]  ([FatherAgent], [MotherAgent]),
      - [content_agent.py]       ([ContentAgent]),
      - [social_agents_part1.py], [social_agents_part2.py]
                                 (the platform agents' [_handle_post_request],
                                  [TwitterAgent._format_tweet]),
      - [config.py]              ([ProcessedTracker]),
      - [information_agent.py]   ([InformationAgent]),
    followed by the properties of the design document that concern them and
    by further properties of the code.

    Conventions.
    - A Python [str] is a Rocq [string] holding its UTF-8 encoding.  [in] on
      two valid UTF-8 strings is the same on bytes and on code points; slices
      count code points ([PyStr.slice_to]).
    - A [dict] whose iteration order is observed is a [PyDict] (insertion
      ordered association list); a [dict] only looked up, measured or deleted
      from is a [gmap].
    - A handler is a computation in the monad [Act]: it threads the agent's
      own attributes, may raise, and appends to a log of effects.  The
      effects are the calls that leave the agent: logger calls,
      [send_message] and [asyncio.sleep]. *)

From Stdlib Require Import ZArith String Ascii List Bool Lia.
From stdpp Require Import base option list gmap strings fin_maps fin_sets pretty.

Open Scope string_scope.
Open Scope Z_scope.
Open Scope list_scope.

#[global] Set Warnings "-clear-no-such-hyp".

(* ===================================================================== *)
(** ** Python strings *)
(* ===================================================================== *)

Module PyStr.

(** [bool(s)]: a string is falsy exactly when it is empty. *)
Definition truthy (s : string) : bool := negb (String.eqb s "").

(** [needle in hay]. *)
Fixpoint contains (needle hay : string) : bool :=
  String.prefix needle hay ||
  match hay with
  | EmptyString => false
  | String _ rest => contains needle rest
  end.

(** A byte [10xxxxxx] continues the code point begun before it. *)
Definition is_continuation (a : ascii) : bool :=
  let n := N_of_ascii a in ((128 <=? n) && (n <? 192))%N.

(** [s[:n]]: the first [n] code points of [s]. *)
Fixpoint slice_to (n : nat) (s : string) {struct s} : string :=
  match s with
  | EmptyString => EmptyString
  | String a rest =>
      if is_continuation a then String a (slice_to n rest)
      else match n with
           | O => EmptyString
           | S n' => String a (slice_to n' rest)
           end
  end.

(** [s.split('\n')]. *)
Fixpoint split_lines_aux (cur : string) (s : string) : list string :=
  match s with
  | EmptyString => [String.rev cur]
  | String a rest =>
      if Ascii.eqb a "010"%char
      then String.rev cur :: split_lines_aux EmptyString rest
      else split_lines_aux (String a cur) rest
  end.
Definition split_lines (s : string) : list string :=
  split_lines_aux EmptyString s.

(** ['\n'.join(l)]. *)
Definition join_lines (l : list string) : string :=
  String.concat (String "010"%char EmptyString) l.

(** [str(n).zfill(w)] for a natural number, least significant digit last. *)
Definition digit (d : N) : ascii := ascii_of_N (48 + d mod 10).
Fixpoint zfill (w : nat) (n : N) : string :=
  match w with
  | O => EmptyString
  | S w' => zfill w' (n / 10) +:+ String (digit n) EmptyString
  end.

End PyStr.

(* ===================================================================== *)
(** ** Insertion-ordered dictionaries *)
(* ===================================================================== *)

Module PyDict.
Section Dict.
Context {K V : Type} `{EqDecision K}.

(** [d.get(k)]. *)
Fixpoint get (k : K) (d : list (K * V)) : option V :=
  match d with
  | [] => None
  | (k', v) :: rest => if decide (k = k') then Some v else get k rest
  end.

(** [k in d]. *)
Definition contains (k : K) (d : list (K * V)) : bool :=
  match get k d with Some _ => true | None => false end.

(** [d[k] = v]: an existing key keeps its position, a new key goes
    last. *)
Fixpoint set (k : K) (v : V) (d : list (K * V)) : list (K * V) :=
  match d with
  | [] => [(k, v)]
  | (k', v') :: rest =>
      if decide (k = k') then (k, v) :: rest else (k', v') :: set k v rest
  end.

(** [del d[k]], used by the source only after [k in d] was tested. *)
Fixpoint del (k : K) (d : list (K * V)) : list (K * V) :=
  match d with
  | [] => []
  | (k', v') :: rest =>
      if decide (k = k') then rest else (k', v') :: del k rest
  end.

(** [list(d)], [d.items()], [len(d)]. *)
Definition keys (d : list (K * V)) : list K := map fst d.
Definition items (d : list (K * V)) : list (K * V) := d.
Definition len (d : list (K * V)) : nat := length d.
End Dict.
End PyDict.

(* ===================================================================== *)
(** ** models.py *)
(* ===================================================================== *)

Inductive MessageType :=
| NEW_ANNOUNCEMENT
| TASK_ASSIGNMENT
| CONTENT_GENERATED
| POST_REQUEST
| POST_RESULT
| STATUS_UPDATE.

#[global] Instance MessageType_eq_dec : EqDecision MessageType.
Proof. solve_decision. Defined.

(** [MessageType.value]. *)
Definition MessageType_value (t : MessageType) : string :=
  match t with
  | NEW_ANNOUNCEMENT => "new_announcement"
  | TASK_ASSIGNMENT => "task_assignment"
  | CONTENT_GENERATED => "content_generated"
  | POST_REQUEST => "post_request"
  | POST_RESULT => "post_result"
  | STATUS_UPDATE => "status_update"
  end.

(** [datetime.datetime]. *)
Module datetime.
Record t := mk {
  year : N; month : N; day : N;
  hour : N; minute : N; second : N; microsecond : N
}.

(** [strftime('%Y%m%d')]; the year is printed on four digits. *)
Definition strftime_Ymd (d : t) : string :=
  PyStr.zfill 4 (year d) +:+ PyStr.zfill 2 (month d) +:+ PyStr.zfill 2 (day d).

(** [isoformat()]. *)
Definition isoformat (d : t) : string :=
  PyStr.zfill 4 (year d) +:+ "-" +:+ PyStr.zfill 2 (month d) +:+ "-" +:+
  PyStr.zfill 2 (day d) +:+ "T" +:+ PyStr.zfill 2 (hour d) +:+ ":" +:+
  PyStr.zfill 2 (minute d) +:+ ":" +:+ PyStr.zfill 2 (second d) +:+
  (if (microsecond d =? 0)%N then "" else "." +:+ PyStr.zfill 6 (microsecond d)).
End datetime.

Module AwardAnnouncement.
Record t := mk {
  id : string;
  title : string;
  content : string;
  url : string;
  date : datetime.t;
  image_url : option string
}.

Section GenerateId.
(** [hashlib.md5(s.encode()).hexdigest()], a library function. *)
Variable md5_hexdigest : string -> string.

Definition generate_id (self : t) : string :=
  let content_hash :=
    PyStr.slice_to 8 (md5_hexdigest (title self +:+ content self)) in
  "award_" +:+ datetime.strftime_Ymd (date self) +:+ "_" +:+ content_hash.
End GenerateId.
End AwardAnnouncement.

Module GeneratedContent.
Record t := mk {
  title_zh : string;
  title_en : string;
  content_zh : string;
  content_en : string;
  hashtags_zh : list string;
  hashtags_en : list string;
  platform_specific : gmap string string
}.
End GeneratedContent.

Module SocialPost.
Record t := mk {
  title : string;
  content : string;
  hashtags : list string;
  platform : string;
  image_url : option string;
  url : option string;
  generated_content : option GeneratedContent.t
}.
End SocialPost.

Module PostResult.
Record t := mk {
  success : bool;
  platform : string;
  post_id : option string;
  url : option string;
  error : option string
}.
End PostResult.

(** The per-platform entry of the completion report built by
    [_finalize_task]: [{'success': .., 'url': .., 'error': ..}]. *)
Module ResultSummary.
Record t := mk {
  success : bool;
  url : option string;
  error : option string
}.
End ResultSummary.

(** A message payload is a [dict] read only through [payload.get(key)]: one
    optional field per key that some sender of the repository writes.  A
    missing key and a key bound to [None] both read as [None]. *)
Module Payload.
Record t := mk {
  announcement : option AwardAnnouncement.t;
  priority : option Z;
  timestamp : option string;
  task_id : option string;
  generated_content : option GeneratedContent.t;
  post : option SocialPost.t;
  image_url : option string;
  subreddit : option string;
  platform : option string;
  result : option PostResult.t;
  status : option string;
  announcement_id : option string;
  results : option (gmap string ResultSummary.t)
}.

Definition empty : t :=
  mk None None None None None None None None None None None None None.
End Payload.

Module AgentMessage.
Record t := mk {
  msg_type : MessageType;
  sender : string;
  receiver : string;
  payload : Payload.t;
  timestamp : datetime.t;
  message_id : string
}.
End AgentMessage.

(* ===================================================================== *)
(** ** Handlers as computations *)
(* ===================================================================== *)

Inductive Level := INFO | WARNING | ERROR.

(** What a handler does to the world outside its agent, in program order. *)
Inductive Effect :=
| Log (level : Level) (text : string)
| Send (receiver : string) (msg_type : MessageType) (payload : Payload.t)
| Sleep (seconds : Z).

(** The exceptions of the program, all of them subclasses of [Exception]:
    [TimeoutError] is [asyncio.TimeoutError], [Exception] any other one. *)
Inductive Exn :=
| KeyError (key : string)
| AttributeError (text : string)
| TimeoutError (text : string)
| Exception (text : string).

Inductive Result (A : Type) :=
| Ok (a : A)
| Raised (e : Exn).
Arguments Ok {A} a.
Arguments Raised {A} e.

(** A computation over the attributes [S] of an agent.  When it raises,
    the attributes written and the effects performed so far remain. *)
Definition Act (S A : Type) : Type := S -> Result A * S * list Effect.

Definition ret {S A} (a : A) : Act S A := fun s => (Ok a, s, []).

Definition bind {S A B} (c : Act S A) (k : A -> Act S B) : Act S B :=
  fun s =>
    match c s with
    | (Ok a, s1, e1) =>
        match k a s1 with
        | (r, s2, e2) => (r, s2, e1 ++ e2)
        end
    | (Raised e, s1, e1) => (Raised e, s1, e1)
    end.

#[global] Instance Act_ret {S} : MRet (Act S) := @ret S.
#[global] Instance Act_bind {S} : MBind (Act S) :=
  fun A B k c => bind c k.

Definition get_self {S} : Act S S := fun s => (Ok s, s, []).
Definition modify {S} (f : S -> S) : Act S unit := fun s => (Ok tt, f s, []).
Definition raise {S A} (e : Exn) : Act S A := fun s => (Raised e, s, []).
Definition emit {S} (e : Effect) : Act S unit := fun s => (Ok tt, s, [e]).

(** [try: c except Exception as e: h(e)]. *)
Definition try_except {S A} (c : Act S A) (h : Exn -> Act S A) : Act S A :=
  fun s =>
    match c s with
    | (Ok a, s1, e1) => (Ok a, s1, e1)
    | (Raised e, s1, e1) =>
        match h e s1 with
        | (r, s2, e2) => (r, s2, e1 ++ e2)
        end
    end.

(** [for x in l: body(x)]. *)
Fixpoint for_each {S A} (l : list A) (body : A -> Act S unit) : Act S unit :=
  match l with
  | [] => ret tt
  | x :: rest => bind (body x) (fun _ => for_each rest body)
  end.

(** [BaseAgent.log_info], [log_error], [log_warning] prefix the agent's
    name; [BaseAgent.send_message] builds the envelope and hands it to
    [MessageBus.send_direct]. *)
Section BaseAgentMethods.
Context {S : Type}.
Variable name : string.

Definition log_info (msg : string) : Act S unit :=
  emit (Log INFO ("[" +:+ name +:+ "] " +:+ msg)).
Definition log_error (msg : string) : Act S unit :=
  emit (Log ERROR ("[" +:+ name +:+ "] " +:+ msg)).
Definition log_warning (msg : string) : Act S unit :=
  emit (Log WARNING ("[" +:+ name +:+ "] " +:+ msg)).
Definition send_message (receiver : string) (msg_type : MessageType)
    (payload : Payload.t) : Act S unit :=
  emit (Send receiver msg_type payload).
End BaseAgentMethods.

(** The envelope [send_message] constructs for a [Send] effect of agent
    [sender]; [now] and [mid] are the defaults the data class computes. *)
Definition envelope (sender : string) (now : datetime.t) (mid : string)
    (receiver : string) (msg_type : MessageType) (payload : Payload.t)
    : AgentMessage.t :=
  AgentMessage.mk msg_type sender receiver payload now mid.

(** [str(e)] inside an f-string. *)
Definition Exn_str (e : Exn) : string :=
  match e with
  | KeyError key => "'" +:+ key +:+ "'"
  | AttributeError text => text
  | TimeoutError text => text
  | Exception text => text
  end.

(** [f"{x}"] for an optional string: [None] prints as ["None"]. *)
Definition fmt_opt (x : option string) : string := default "None" x.

(* ===================================================================== *)
(** ** base_agent.py: MessageBus *)
(* ===================================================================== *)

Module MessageBus.
Section Bus.
(** The part of the process that agents and subscriber callbacks read
    and write; the registry of the bus itself is not part of it. *)
Context {W : Type}.

(** An awaited coroutine function of one message:
    [agent.receive_message] or a subscriber callback. *)
Definition Coroutine : Type := AgentMessage.t -> W -> Result unit * W.

Record t := mk {
  subscribers : gmap string (list Coroutine);
  message_queue : list AgentMessage.t;
  agents : gmap string Coroutine;
  _running : bool
}.

(** What the bus does while it handles one message, in program order. *)
Inductive Event :=
| Delivered (agent : Coroutine) (r : Result unit)
| Called (callback : Coroutine) (r : Result unit)
| Logged (level : Level) (text : string).

Definition __init__ : t := mk ∅ [] ∅ false.

Definition register_agent (self : t) (name : string) (agent : Coroutine) : t :=
  mk (subscribers self) (message_queue self) (<[name := agent]> (agents self))
     (_running self).

(** [self.subscribers[agent_name].append(callback)] on a
    [defaultdict(list)]. *)
Definition subscribe (self : t) (agent_name : string) (callback : Coroutine) : t :=
  mk (<[agent_name := default [] (subscribers self !! agent_name) ++ [callback]]>
        (subscribers self))
     (message_queue self) (agents self) (_running self).

Definition publish (self : t) (message : AgentMessage.t) : t :=
  mk (subscribers self) (message_queue self ++ [message]) (agents self)
     (_running self).

(** [send_direct]: synchronous delivery to the registered agent, whose
    exceptions propagate to the sender; an unknown receiver is logged and
    the message dropped. *)
Definition send_direct (self : t) (message : AgentMessage.t) (w : W)
    : Result unit * W * list Event :=
  match agents self !! AgentMessage.receiver message with
  | Some agent =>
      match agent message w with
      | (Ok _, w1) =>
          (Ok tt, w1,
           [Delivered agent (Ok tt);
            Logged INFO ("📬 直接傳送: " +:+ AgentMessage.sender message +:+ " -> " +:+
                         AgentMessage.receiver message +:+ " [" +:+
                         MessageType_value (AgentMessage.msg_type message) +:+ "]")])
      | (Raised e, w1) => (Raised e, w1, [Delivered agent (Raised e)])
      end
  | None =>
      (Ok tt, w,
       [Logged WARNING ("⚠️ 找不到目標代理: " +:+ AgentMessage.receiver message)])
  end.

(** The [for callback in ...: try: await callback(message) except
    Exception as e: self.logger.error(...)] loop. *)
Fixpoint run_callbacks (callbacks : list Coroutine) (message : AgentMessage.t)
    (w : W) : W * list Event :=
  match callbacks with
  | [] => (w, [])
  | callback :: rest =>
      match callback message w with
      | (Ok _, w1) =>
          let '(w2, evs) := run_callbacks rest message w1 in
          (w2, Called callback (Ok tt) :: evs)
      | (Raised e, w1) =>
          let '(w2, evs) := run_callbacks rest message w1 in
          (w2, Called callback (Raised e)
               :: Logged ERROR ("回調執行錯誤: " +:+ Exn_str e) :: evs)
      end
  end.

Definition _process_message (self : t) (message : AgentMessage.t) (w : W)
    : Result unit * W * list Event :=
  let callbacks :=
    default [] (subscribers self !! AgentMessage.receiver message) in
  match agents self !! AgentMessage.receiver message with
  | Some agent =>
      match agent message w with
      | (Ok _, w1) =>
          let '(w2, evs) := run_callbacks callbacks message w1 in
          (Ok tt, w2, Delivered agent (Ok tt) :: evs)
      | (Raised e, w1) => (Raised e, w1, [Delivered agent (Raised e)])
      end
  | None =>
      let '(w2, evs) := run_callbacks callbacks message w in
      (Ok tt, w2, evs)
  end.

(** One turn of the [while self._running] loop of [start].  The wait
    for a message and [_process_message] are in the same [try]: an empty
    queue times out and the loop continues, and so does it, without a log,
    when an [asyncio.TimeoutError] leaves [_process_message]; any other
    exception that leaves [_process_message] is logged. *)
Definition start_iteration (self : t) (w : W) : t * W * list Event :=
  match message_queue self with
  | [] => (self, w, [])
  | message :: rest =>
      let self' := mk (subscribers self) rest (agents self) (_running self) in
      match _process_message self' message w with
      | (Ok _, w1, evs) => (self', w1, evs)
      | (Raised (TimeoutError _), w1, evs) => (self', w1, evs)
      | (Raised e, w1, evs) =>
          (self', w1, evs ++ [Logged ERROR ("❌ 訊息處理錯誤: " +:+ Exn_str e)])
      end
  end.

(** The callbacks a run of the bus invoked, in order, and the errors it
    logged. *)
Definition called (evs : list Event) : list Coroutine :=
  flat_map (fun ev => match ev with Called cb _ => [cb] | _ => [] end) evs.
Definition logged_errors (evs : list Event) : list string :=
  flat_map (fun ev => match ev with Logged ERROR text => [text] | _ => [] end) evs.
Definition callback_errors (evs : list Event) : list string :=
  flat_map (fun ev => match ev with
                      | Called _ (Raised e) => ["回調執行錯誤: " +:+ Exn_str e]
                      | _ => []
                      end) evs.
End Bus.
Arguments t W : clear implicits.
Arguments Coroutine W : clear implicits.
Arguments Event W : clear implicits.
End MessageBus.

(** [BaseAgent.receive_message]: log, then the handler registered for the
    message type, else [handle_message]. *)
Definition receive_message {S} (handlers : MessageType -> option (AgentMessage.t -> Act S unit))
    (handle_message : AgentMessage.t -> Act S unit)
    (message : AgentMessage.t) : Act S unit :=
  emit (Log INFO ("📩 收到訊息: 來自 " +:+ AgentMessage.sender message +:+ " [" +:+
                  MessageType_value (AgentMessage.msg_type message) +:+ "]"));;
  match handlers (AgentMessage.msg_type message) with
  | Some handler => handler message
  | None => handle_message message
  end.

(* ===================================================================== *)
(** ** coordinator_agents.py: FatherAgent *)
(* ===================================================================== *)

Module FatherAgent.

Definition name : string := "FatherAgent".

(** The [processing_stats] dict has four fixed keys. *)
Record Stats := mkStats {
  received : Z;
  forwarded : Z;
  completed : Z;
  failed : Z
}.

Record t := mk {
  pending_announcements : gmap string AwardAnnouncement.t;
  processing_stats : Stats
}.

Definition __init__ : t := mk ∅ (mkStats 0 0 0 0).

Definition set_pending (f : gmap string AwardAnnouncement.t -> gmap string AwardAnnouncement.t)
    (self : t) : t :=
  mk (f (pending_announcements self)) (processing_stats self).
Definition set_stats (f : Stats -> Stats) (self : t) : t :=
  mk (pending_announcements self) (f (processing_stats self)).

Definition high_priority_keywords : list string :=
  ["國際"; "世界"; "冠軍"; "第一"; "最佳"; "傑出"].

Definition _calculate_priority (announcement : AwardAnnouncement.t) : Z :=
  fold_left
    (fun priority keyword =>
       if PyStr.contains keyword (AwardAnnouncement.title announcement)
       then Z.min (priority + 1) 10
       else priority)
    high_priority_keywords 5.

Definition _print_stats : Act t unit :=
  self ← get_self;
  let stats := processing_stats self in
  log_info name
    ("📊 統計: 收到 " +:+ pretty (received stats) +:+ " | " +:+
     "轉交 " +:+ pretty (forwarded stats) +:+ " | " +:+
     "完成 " +:+ pretty (completed stats) +:+ " | " +:+
     "失敗 " +:+ pretty (failed stats)).

Definition _handle_new_announcement (now : datetime.t) (message : AgentMessage.t)
    : Act t unit :=
  let payload := AgentMessage.payload message in
  match Payload.announcement payload with
  | None => log_error name "收到無效的公告訊息"
  | Some announcement =>
      modify (set_stats (fun st =>
        mkStats (received st + 1) (forwarded st) (completed st) (failed st)));;
      log_info name ("📥 收到新公告: " +:+
                     PyStr.slice_to 50 (AwardAnnouncement.title announcement) +:+ "...");;
      modify (set_pending (<[AwardAnnouncement.id announcement := announcement]>));;
      log_info name "📤 轉交任務給 MotherAgent...";;
      send_message "MotherAgent" TASK_ASSIGNMENT
        (Payload.mk (Some announcement) (Some (_calculate_priority announcement))
           (Some (datetime.isoformat now))
           None None None None None None None None None None);;
      modify (set_stats (fun st =>
        mkStats (received st) (forwarded st + 1) (completed st) (failed st)))
  end.

Definition _handle_status_update (message : AgentMessage.t) : Act t unit :=
  let payload := AgentMessage.payload message in
  let status := Payload.status payload in
  let announcement_id := Payload.announcement_id payload in
  (if decide (status = Some "completed") then
     modify (set_stats (fun st =>
       mkStats (received st) (forwarded st) (completed st + 1) (failed st)));;
     match announcement_id with
     | Some aid => modify (set_pending (delete aid))
     | None => ret tt
     end;;
     log_info name ("✅ 公告處理完成: " +:+ fmt_opt announcement_id)
   else if decide (status = Some "failed") then
     modify (set_stats (fun st =>
       mkStats (received st) (forwarded st) (completed st) (failed st + 1)));;
     log_error name ("❌ 公告處理失敗: " +:+ fmt_opt announcement_id)
   else ret tt);;
  _print_stats.

Definition handle_message (message : AgentMessage.t) : Act t unit :=
  log_info name ("收到訊息: " +:+ MessageType_value (AgentMessage.msg_type message) +:+
                 " 來自 " +:+ AgentMessage.sender message).

(** [_setup_handlers]. *)
Definition _message_handlers (now : datetime.t) (msg_type : MessageType)
    : option (AgentMessage.t -> Act t unit) :=
  match msg_type with
  | NEW_ANNOUNCEMENT => Some (_handle_new_announcement now)
  | STATUS_UPDATE => Some _handle_status_update
  | _ => None
  end.

Definition receive (now : datetime.t) (message : AgentMessage.t) : Act t unit :=
  receive_message (_message_handlers now) handle_message message.

End FatherAgent.

(* ===================================================================== *)
(** ** coordinator_agents.py: MotherAgent *)
(* ===================================================================== *)

Module Task.
(** The per-task dict stored in [active_tasks]. *)
Record t := mk {
  announcement : AwardAnnouncement.t;
  status : string;
  started_at : datetime.t;
  generated_content : option GeneratedContent.t;
  post_results : gmap string PostResult.t
}.
End Task.

Module MotherAgent.

Definition name : string := "MotherAgent".

Record t := mk {
  active_tasks : list (string * Task.t);
  results_buffer : gmap string (gmap string PostResult.t)
}.

(** [self.platform_agents], assigned once in [__init__]. *)
Definition platform_agents : list string :=
  ["TwitterAgent"; "FacebookAgent"; "InstagramAgent"; "LinkedInAgent"; "RedditAgent"].

Definition __init__ : t := mk [] ∅.

Definition set_active_tasks (f : list (string * Task.t) -> list (string * Task.t))
    (self : t) : t :=
  mk (f (active_tasks self)) (results_buffer self).
Definition set_results_buffer
    (f : gmap string (gmap string PostResult.t) -> gmap string (gmap string PostResult.t))
    (self : t) : t :=
  mk (active_tasks self) (f (results_buffer self)).

Definition _handle_task_assignment (now : datetime.t) (message : AgentMessage.t)
    : Act t unit :=
  let payload := AgentMessage.payload message in
  match Payload.announcement payload with
  | None => log_error name "收到無效的任務"
  | Some announcement =>
      log_info name ("📋 收到任務: " +:+
                     PyStr.slice_to 40 (AwardAnnouncement.title announcement) +:+ "...");;
      let task_id := AwardAnnouncement.id announcement in
      modify (set_active_tasks
                (PyDict.set task_id
                   (Task.mk announcement "generating_content" now None ∅)));;
      modify (set_results_buffer (<[task_id := ∅]>));;
      log_info name "📝 分配給 ContentAgent 生成內容...";;
      send_message "ContentAgent" TASK_ASSIGNMENT
        (Payload.mk (Some announcement) None None (Some task_id)
           None None None None None None None None None)
  end.

(** [list(set(hashtags_zh + hashtags_en))]: the distinct tags, in an
    order Python leaves unspecified. *)
Definition _create_social_post (announcement : AwardAnnouncement.t)
    (generated_content : GeneratedContent.t) : SocialPost.t :=
  let all_hashtags :=
    remove_dups (GeneratedContent.hashtags_zh generated_content ++
                 GeneratedContent.hashtags_en generated_content) in
  SocialPost.mk (AwardAnnouncement.title announcement)
                (AwardAnnouncement.content announcement)
                all_hashtags "all"
                (AwardAnnouncement.image_url announcement)
                (Some (AwardAnnouncement.url announcement))
                (Some generated_content).

Definition _handle_content_generated (message : AgentMessage.t) : Act t unit :=
  let payload := AgentMessage.payload message in
  match Payload.announcement payload, Payload.generated_content payload with
  | Some announcement, Some generated_content =>
      let task_id := AwardAnnouncement.id announcement in
      self ← get_self;
      match PyDict.get task_id (active_tasks self) with
      | None => log_warning name ("找不到任務: " +:+ task_id)
      | Some task =>
          log_info name "✅ 內容生成完成，開始分配發布任務...";;
          modify (set_active_tasks
                    (PyDict.set task_id
                       (Task.mk (Task.announcement task) "posting"
                                (Task.started_at task) (Some generated_content)
                                (Task.post_results task))));;
          let post := _create_social_post announcement generated_content in
          for_each platform_agents (fun agent_name =>
            log_info name ("   📤 分配給 " +:+ agent_name +:+ "...");;
            send_message agent_name POST_REQUEST
              (Payload.mk None None None (Some task_id) None (Some post)
                 (AwardAnnouncement.image_url announcement)
                 (if decide (agent_name = "RedditAgent") then Some "nycu" else None)
                 None None None None None);;
            emit (Sleep 1))
      end
  | _, _ => log_error name "收到無效的內容生成結果"
  end.

Definition rule : string := String.concat "" (replicate 50 "=").
Definition nl : string := String "010"%char EmptyString.

(** [sum(1 for r in results.values() if r.success)]. *)
Definition success_count (results : gmap string PostResult.t) : Z :=
  Z.of_nat (length (filter (fun kr => PostResult.success kr.2 = true)
                           (map_to_list results))).

Definition summary (r : PostResult.t) : ResultSummary.t :=
  ResultSummary.mk (PostResult.success r) (PostResult.url r) (PostResult.error r).

Definition _finalize_task (task_id : string) : Act t unit :=
  self ← get_self;
  match PyDict.get task_id (active_tasks self) with
  | None => ret tt
  | Some task =>
      let results := default ∅ (results_buffer self !! task_id) in
      let total_count := Z.of_nat (size results) in
      log_info name (nl +:+ rule);;
      log_info name ("📊 任務完成: " +:+
                     PyStr.slice_to 40 (AwardAnnouncement.title (Task.announcement task)) +:+
                     "...");;
      log_info name ("   成功: " +:+ pretty (success_count results) +:+ "/" +:+
                     pretty total_count +:+ " 個平台");;
      log_info name (rule +:+ nl);;
      let status := if 0 <? success_count results then "completed" else "failed" in
      send_message "FatherAgent" STATUS_UPDATE
        (Payload.mk None None None None None None None None None None
           (Some status) (Some task_id) (Some (summary <$> results)));;
      modify (set_active_tasks (PyDict.del task_id));;
      modify (set_results_buffer (delete task_id))
  end.

(** The [for tid, task in self.active_tasks.items()] search: the first
    task, in insertion order, whose status is ['posting']. *)
Fixpoint first_posting (items : list (string * Task.t)) : option string :=
  match items with
  | [] => None
  | (tid, task) :: rest =>
      if decide (Task.status task = "posting") then Some tid
      else first_posting rest
  end.

Definition _handle_post_result (message : AgentMessage.t) : Act t unit :=
  let payload := AgentMessage.payload message in
  match Payload.platform payload, Payload.result payload with
  | Some platform, Some result =>
      if negb (PyStr.truthy platform) then ret tt else
      self ← get_self;
      let task_id := first_posting (PyDict.items (active_tasks self)) in
      match task_id with
      | None =>
          log_warning name ("找不到對應的任務 (platform: " +:+ platform +:+ ")")
      | Some task_id =>
          if negb (PyStr.truthy task_id)
          then log_warning name ("找不到對應的任務 (platform: " +:+ platform +:+ ")")
          else
            match results_buffer self !! task_id with
            | None => raise (KeyError task_id)
            | Some results =>
                let results := <[platform := result]> results in
                modify (set_results_buffer (<[task_id := results]>));;
                (if PostResult.success result
                 then log_info name ("   ✅ " +:+ platform +:+ ": " +:+
                                     fmt_opt (PostResult.url result))
                 else log_warning name ("   ⚠️ " +:+ platform +:+ ": " +:+
                                        fmt_opt (PostResult.error result)));;
                let expected_count := length platform_agents in
                let received_count := size results in
                if bool_decide (expected_count ≤ received_count)%nat
                then _finalize_task task_id
                else ret tt
            end
      end
  | _, _ => ret tt
  end.

Definition handle_message (message : AgentMessage.t) : Act t unit :=
  log_info name ("收到訊息: " +:+ MessageType_value (AgentMessage.msg_type message) +:+
                 " 來自 " +:+ AgentMessage.sender message).

(** [_setup_handlers]. *)
Definition _message_handlers (now : datetime.t) (msg_type : MessageType)
    : option (AgentMessage.t -> Act t unit) :=
  match msg_type with
  | TASK_ASSIGNMENT => Some (_handle_task_assignment now)
  | CONTENT_GENERATED => Some _handle_content_generated
  | POST_RESULT => Some _handle_post_result
  | _ => None
  end.

Definition receive (now : datetime.t) (message : AgentMessage.t) : Act t unit :=
  receive_message (_message_handlers now) handle_message message.

(** The agent over a sequence of deliveries.  Each delivery is the clock
    reading and the envelope; a handler that raises leaves the attributes
    as they were when it raised.  In every handler the writes to
    [active_tasks] and [results_buffer] precede the sends, except the two
    deletions of [_finalize_task], which follow a send to [FatherAgent],
    whose handlers send nothing: the nested calls that direct delivery
    makes into this agent see the attributes as a sequence of complete
    handler runs. *)
Definition step (self : t) (d : datetime.t * AgentMessage.t) : t * list Effect :=
  let '(_, self', effs) := receive d.1 d.2 self in (self', effs).

Fixpoint run (self : t) (ds : list (datetime.t * AgentMessage.t))
    : t * list Effect :=
  match ds with
  | [] => (self, [])
  | d :: rest =>
      let '(self1, e1) := step self d in
      let '(self2, e2) := run self1 rest in
      (self2, e1 ++ e2)
  end.

(** The task ids of the completion reports among some effects. *)
Definition finalized (effs : list Effect) : list string :=
  flat_map (fun eff =>
    match eff with
    | Send receiver msg_type p =>
        if decide (receiver = "FatherAgent" ∧ msg_type = STATUS_UPDATE)
        then match Payload.announcement_id p with Some tid => [tid] | None => [] end
        else []
    | _ => []
    end) effs.

End MotherAgent.

(* ===================================================================== *)
(** ** content_agent.py: ContentAgent *)
(* ===================================================================== *)

Module ContentAgent.

Definition name : string := "ContentAgent".

(** The four prompts the agent pipes into the model. *)
Inductive Prompt := ChinesePrompt | EnglishPrompt | HashtagPrompt | TweetPrompt.

(** What [asyncio.wait_for(asyncio.to_thread(chain.invoke, ..), timeout)]
    does: it returns the reply, raises [asyncio.TimeoutError], or raises
    another [Exception]. *)
Inductive Invocation :=
| Replied (text : string)
| TimedOut
| Failed (e : string).

(** The model object.  [chain_build p] is the exception, if any, raised
    while [ChatPromptTemplate.from_messages(..) | self.llm |
    StrOutputParser()] is evaluated; [chain_invoke p title content] is
    the behaviour of the invocation. *)
Record ChatOllama := mkLLM {
  chain_build : Prompt -> option string;
  chain_invoke : Prompt -> string -> string -> Invocation
}.

(** [self.llm] is [None] when [_init_llm] failed. *)
Record t := mk { llm : option ChatOllama }.

Definition default_zh : list string :=
  ["#陽明交大"; "#AI學院"; "#獲獎"; "#人工智慧"; "#研究"].
Definition default_en : list string :=
  ["#NYCU"; "#AI"; "#Award"; "#Research"; "#Achievement"].

(** The [GeneratedContent(..)] that [_fallback_generate] returns. *)
Definition fallback (announcement : AwardAnnouncement.t) : GeneratedContent.t :=
  GeneratedContent.mk
    (AwardAnnouncement.title announcement)
    ("Congratulations! " +:+ AwardAnnouncement.title announcement)
    ("🎉 恭喜！" +:+ AwardAnnouncement.content announcement)
    "🎉 Congratulations! We are proud to announce this achievement."
    default_zh default_en
    {[ "twitter" := "🎉 " +:+
         PyStr.slice_to 200 (AwardAnnouncement.title announcement) +:+
         " #NYCU #AI #Award" ]}.

Definition _fallback_generate (announcement : AwardAnnouncement.t)
    : Act t GeneratedContent.t :=
  log_info name "使用備用內容生成方式";;
  ret (fallback announcement).

Section TextProcessing.
(** Library functions applied to a reply of the model: [re.sub] (with
    the [DOTALL] and [IGNORECASE] flags), [re.findall], [str.strip],
    [str.replace]. *)
Variable re_sub : string -> string -> bool -> bool -> string -> string.
Variable re_findall : string -> string -> list string.
Variable str_strip : string -> string.
Variable str_replace : string -> string -> string -> string.

Definition _clean_output (text : string) : string :=
  let text := re_sub "<think>.*?</think>" "" true false text in
  let text := re_sub "\[思考\].*?\[/思考\]" "" true false text in
  let text := re_sub "\[thinking\].*?\[/thinking\]" "" true true text in
  str_strip text.

(** Runs chain [p]; an exception while the chain is built is outside
    the [try] of every caller and propagates. *)
Definition build_chain (model : ChatOllama) (p : Prompt) : Act t unit :=
  match chain_build model p with
  | Some e => raise (Exception e)
  | None => ret tt
  end.

Definition _generate_chinese_content (model : ChatOllama)
    (announcement : AwardAnnouncement.t) : Act t string :=
  build_chain model ChinesePrompt;;
  match chain_invoke model ChinesePrompt (AwardAnnouncement.title announcement)
                     (AwardAnnouncement.content announcement) with
  | Replied result => ret (_clean_output result)
  | TimedOut =>
      log_warning name "中文內容生成超時";;
      ret (AwardAnnouncement.content announcement)
  | Failed e =>
      log_error name ("中文內容生成錯誤: " +:+ e);;
      ret (AwardAnnouncement.content announcement)
  end.

(** The [for i, line in enumerate(lines)] loop over the English reply;
    [line :: rest] is [lines[i:]]. *)
Fixpoint parse_english (lines : list string) (title_en : string)
    : string * string :=
  match lines with
  | [] => (title_en, "")
  | line :: rest =>
      if String.prefix "TITLE:" line
      then parse_english rest (str_strip (str_replace "TITLE:" "" line))
      else if String.prefix "CONTENT:" line
      then (title_en,
            str_strip (str_replace "CONTENT:" "" (PyStr.join_lines (line :: rest))))
      else parse_english rest title_en
  end.

(** The returned dict has the two keys ['title'] and ['content']. *)
Definition _generate_english_content (model : ChatOllama)
    (announcement : AwardAnnouncement.t) : Act t (string * string) :=
  build_chain model EnglishPrompt;;
  match chain_invoke model EnglishPrompt (AwardAnnouncement.title announcement)
                     (AwardAnnouncement.content announcement) with
  | Replied result =>
      let result := _clean_output result in
      let '(title_en, content_en) :=
        parse_english (PyStr.split_lines result) "" in
      let title_en :=
        if PyStr.truthy title_en then title_en
        else "Congratulations! " +:+ AwardAnnouncement.title announcement in
      let content_en := if PyStr.truthy content_en then content_en else result in
      ret (title_en, content_en)
  | TimedOut =>
      log_warning name "英文內容生成超時";;
      ret (AwardAnnouncement.title announcement, AwardAnnouncement.content announcement)
  | Failed e =>
      log_error name ("英文內容生成錯誤: " +:+ e);;
      ret (AwardAnnouncement.title announcement, AwardAnnouncement.content announcement)
  end.

Fixpoint parse_hashtags (lines : list string) (hashtags_zh hashtags_en : list string)
    : list string * list string :=
  match lines with
  | [] => (hashtags_zh, hashtags_en)
  | line :: rest =>
      if String.prefix "ZH:" line then
        match re_findall "#[\w\u4e00-\u9fff]+" line with
        | [] => parse_hashtags rest hashtags_zh hashtags_en
        | tags => parse_hashtags rest (take 5 tags) hashtags_en
        end
      else if String.prefix "EN:" line then
        match re_findall "#\w+" line with
        | [] => parse_hashtags rest hashtags_zh hashtags_en
        | tags => parse_hashtags rest hashtags_zh (take 5 tags)
        end
      else parse_hashtags rest hashtags_zh hashtags_en
  end.

Definition _generate_hashtags (model : ChatOllama)
    (announcement : AwardAnnouncement.t) : Act t (list string * list string) :=
  build_chain model HashtagPrompt;;
  match chain_invoke model HashtagPrompt (AwardAnnouncement.title announcement)
                     (AwardAnnouncement.content announcement) with
  | Replied result =>
      let result := _clean_output result in
      ret (parse_hashtags (PyStr.split_lines result) default_zh default_en)
  | TimedOut =>
      log_warning name "Hashtag 生成使用預設值: ";;
      ret (default_zh, default_en)
  | Failed e =>
      log_warning name ("Hashtag 生成使用預設值: " +:+ e);;
      ret (default_zh, default_en)
  end.

Definition _generate_platform_specific (model : ChatOllama)
    (announcement : AwardAnnouncement.t) (content_zh : string)
    (content_en : string * string) : Act t (gmap string string) :=
  build_chain model TweetPrompt;;
  match chain_invoke model TweetPrompt (AwardAnnouncement.title announcement)
                     content_en.2 with
  | Replied twitter_content =>
      let twitter_content := _clean_output twitter_content in
      ret {[ "twitter" := PyStr.slice_to 280 twitter_content ]}
  | TimedOut =>
      log_warning name "Twitter 內容生成失敗: ";;
      ret {[ "twitter" := "🎉 " +:+ PyStr.slice_to 200 content_en.1 ]}
  | Failed e =>
      log_warning name ("Twitter 內容生成失敗: " +:+ e);;
      ret {[ "twitter" := "🎉 " +:+ PyStr.slice_to 200 content_en.1 ]}
  end.

Definition generate_content (announcement : AwardAnnouncement.t)
    : Act t (option GeneratedContent.t) :=
  self ← get_self;
  match llm self with
  | None =>
      log_error name "LLM 未初始化，使用備用生成方式";;
      c ← _fallback_generate announcement;
      ret (Some c)
  | Some model =>
      try_except
        (content_zh ← _generate_chinese_content model announcement;
         content_en ← _generate_english_content model announcement;
         hashtags ← _generate_hashtags model announcement;
         platform_content ←
           _generate_platform_specific model announcement content_zh content_en;
         let result :=
           GeneratedContent.mk (AwardAnnouncement.title announcement)
             content_en.1 content_zh content_en.2
             hashtags.1 hashtags.2 platform_content in
         log_info name "✅ 內容生成完成";;
         ret (Some result))
        (fun e =>
           log_error name ("內容生成失敗: " +:+ Exn_str e);;
           c ← _fallback_generate announcement;
           ret (Some c))
  end.

Definition _handle_task_assignment (message : AgentMessage.t) : Act t unit :=
  let payload := AgentMessage.payload message in
  match Payload.announcement payload with
  | Some announcement =>
      log_info name ("📝 開始生成內容: " +:+
                     PyStr.slice_to 40 (AwardAnnouncement.title announcement) +:+ "...");;
      content ← generate_content announcement;
      match content with
      | Some content =>
          send_message "MotherAgent" CONTENT_GENERATED
            (Payload.mk (Some announcement) None None None (Some content)
               None None None None None None None None)
      | None => ret tt
      end
  | None => ret tt
  end.

Definition handle_message (message : AgentMessage.t) : Act t unit :=
  log_info name ("收到訊息: " +:+ MessageType_value (AgentMessage.msg_type message)).

Definition _message_handlers (msg_type : MessageType)
    : option (AgentMessage.t -> Act t unit) :=
  match msg_type with
  | TASK_ASSIGNMENT => Some _handle_task_assignment
  | _ => None
  end.

Definition receive (message : AgentMessage.t) : Act t unit :=
  receive_message _message_handlers handle_message message.
End TextProcessing.

End ContentAgent.

(* ===================================================================== *)
(** ** social_agents_part1.py, social_agents_part2.py *)
(* ===================================================================== *)

Module PlatformAgent.
Section Platform.
(** The agent's name (["TwitterAgent"], ...), the platform string it
    reports (['twitter'], ...), and its [post] collaborator applied to
    the fields of the request it reads; [post] returns a [PostResult]
    on every path. *)
Variable name : string.
Variable platform : string.
Variable post : Payload.t -> PostResult.t.

Definition _handle_post_request (message : AgentMessage.t) : Act unit unit :=
  let payload := AgentMessage.payload message in
  let result := post payload in
  send_message "MotherAgent" POST_RESULT
    (Payload.mk None None None None None None None None
       (Some platform) (Some result) None None None).
End Platform.
End PlatformAgent.

(** [InstagramAgent], whose [post] reads [post.image_url] before its [try]. *)
Module InstagramAgent.

Definition name : string := "InstagramAgent".

(** [has_credentials] is what [_has_credentials] computes from the
    configuration. *)
Record t := mk { has_credentials : bool }.

Section Instagram.
(** The body of the [try] of [post]: the calls to the Graph API, every
    failure of which, an exception included, becomes a [PostResult]. *)
Variable graph_api : option SocialPost.t -> string -> PostResult.t.

Definition post (post : option SocialPost.t) (image_url : option string)
    : Act t PostResult.t :=
  self ← get_self;
  if negb (has_credentials self)
  then ret (PostResult.mk false "instagram" None None (Some "憑證不完整"))
  else
    final_image_url ←
      match image_url with
      | Some u =>
          if PyStr.truthy u then ret (Some u)
          else match post with
               | Some p => ret (SocialPost.image_url p)
               | None => raise (AttributeError
                                  "'NoneType' object has no attribute 'image_url'")
               end
      | None =>
          match post with
          | Some p => ret (SocialPost.image_url p)
          | None => raise (AttributeError
                             "'NoneType' object has no attribute 'image_url'")
          end
      end;
    match final_image_url with
    | Some u =>
        if PyStr.truthy u then ret (graph_api post u)
        else ret (PostResult.mk false "instagram" None None (Some "Instagram 需要圖片"))
    | None => ret (PostResult.mk false "instagram" None None (Some "Instagram 需要圖片"))
    end.

Definition _handle_post_request (message : AgentMessage.t) : Act t unit :=
  let payload := AgentMessage.payload message in
  result ← post (Payload.post payload) (Payload.image_url payload);
  send_message "MotherAgent" POST_RESULT
    (Payload.mk None None None None None None None None
       (Some "instagram") (Some result) None None None).

Definition handle_message (message : AgentMessage.t) : Act t unit := ret tt.

Definition _message_handlers (msg_type : MessageType)
    : option (AgentMessage.t -> Act t unit) :=
  match msg_type with
  | POST_REQUEST => Some _handle_post_request
  | _ => None
  end.

Definition receive (message : AgentMessage.t) : Act t unit :=
  receive_message _message_handlers handle_message message.
End Instagram.
End InstagramAgent.


(* ===================================================================== *)
(** ** Python strings: length *)
(* ===================================================================== *)

(** [len(s)]: the number of code points of [s], one per byte that does not
    continue a code point. *)
Fixpoint str_len (s : string) : nat :=
  match s with
  | EmptyString => 0
  | String a rest =>
      if PyStr.is_continuation a then str_len rest else S (str_len rest)
  end.

(* ===================================================================== *)
(** ** social_agents_part1.py: TwitterAgent *)
(* ===================================================================== *)

Module TwitterAgent.

Definition nl : string := String "010"%char EmptyString.

(** [_format_tweet]. *)
Definition _format_tweet (post : SocialPost.t) : string :=
  let content := SocialPost.generated_content post in
  match (c ← content;
         tw ← GeneratedContent.platform_specific c !! "twitter";
         if PyStr.truthy tw then Some tw else None) with
  | Some tw => PyStr.slice_to 280 tw
  | None =>
      let hashtags := String.concat " " (take 3 (SocialPost.hashtags post)) in
      let text :=
        match (c ← content;
               if PyStr.truthy (GeneratedContent.title_en c) then Some c else None) with
        | Some c =>
            let text := "🎉 " +:+ GeneratedContent.title_en c in
            if PyStr.truthy (GeneratedContent.content_en c) then
              let available :=
                280 - Z.of_nat (str_len hashtags) - Z.of_nat (str_len text) - 10 in
              if 50 <? available
              then text +:+ nl +:+ nl +:+
                   PyStr.slice_to (Z.to_nat available) (GeneratedContent.content_en c)
              else text
            else text
        | None => "🎉 " +:+ SocialPost.title post
        end in
      PyStr.slice_to 280 (text +:+ nl +:+ nl +:+ hashtags)
  end.

End TwitterAgent.

(* ===================================================================== *)
(** ** config.py: ProcessedTracker *)
(* ===================================================================== *)

Module ProcessedTracker.

(** [processed_ids] is a [set] of ids. *)
Record t := mk { processed_ids : gset string }.

(** The file [processed_awards.json]: [None] when it does not exist,
    otherwise the JSON list of ids it holds. *)
Definition File : Type := option (list string).

Definition _load (file : File) : gset string :=
  match file with
  | Some ids => list_to_set ids
  | None => ∅
  end.

Definition __init__ (file : File) : t := mk (_load file).

(** [_save] writes [list(self.processed_ids)]; the result is the new
    content of the file. *)
Definition _save (self : t) : File := Some (elements (processed_ids self)).

Definition is_processed (self : t) (announcement_id : string) : bool :=
  bool_decide (announcement_id ∈ processed_ids self).

Definition mark_processed (self : t) (announcement_id : string) : t * File :=
  let self := mk ({[announcement_id]} ∪ processed_ids self) in
  (self, _save self).

Definition clear (self : t) : t * File :=
  let self := mk ∅ in
  (self, _save self).

End ProcessedTracker.

(* ===================================================================== *)
(** ** information_agent.py: InformationAgent *)
(* ===================================================================== *)

Module InformationAgent.

Definition name : string := "InformationAgent".

(** The agent's tracker, and the file the tracker persists to. *)
Record t := mk {
  tracker : ProcessedTracker.t;
  processed_awards_json : ProcessedTracker.File
}.

(** The agent as constructed when the file holds [file]. *)
Definition __init__ (file : ProcessedTracker.File) : t :=
  mk (ProcessedTracker.__init__ file) file.

Definition award_keywords : list string :=
  ["賀"; "恭賀"; "恭喜"; "獲獎"; "獲得"; "榮獲"; "榮膺";
   "當選"; "獲選"; "入選"; "得獎"; "第一"; "冠軍"; "亞軍";
   "優等"; "特優"; "佳作"; "優勝"; "表揚"; "殊榮"; "榮譽";
   "最佳"; "傑出"; "優秀"].

Definition _is_award_announcement (title content : string) : bool :=
  let text_to_check := title +:+ " " +:+ content in
  existsb (fun keyword => PyStr.contains keyword text_to_check) award_keywords.

(** What the parser finds in one [article] element of the listing:
    the text and the unquoted [href] of the link in its [h2.entry-title]
    ([None] when the heading or the link is missing), the text of its
    [entry-summary] or else [entry-content] division (empty when it has
    neither), and the date its [time.entry-date] element parses to, if
    any. *)
Record Article := mkArticle {
  entry_title : option (string * string);
  summary : string;
  published : option datetime.t
}.

(** The answer to the request for the listing: the status and, read in
    order, the articles of the page, each with the reading of the clock when
    the loop reaches it; or the exception the request raised. *)
Inductive Response :=
| Page (status : Z) (articles : list (datetime.t * Article))
| Unreachable (e : string).

Section Scan.
(** [hashlib.md5(..).hexdigest()], and the two page fetchers of the agent,
    which return the empty string, respectively [None], on every failure. *)
Variable md5_hexdigest : string -> string.
Variable _fetch_full_content : string -> string.
Variable _fetch_image_from_page : string -> option string.

(** The body of the loop over the articles: [None] stands for
    [continue], [Some announcement] for [announcements.append]. *)
Definition scan_article (d : datetime.t * Article) : Act t (option AwardAnnouncement.t) :=
  let '(now, article) := d in
  match entry_title article with
  | None => ret None
  | Some (title, url) =>
      let content := summary article in
      if negb (_is_award_announcement title content) then
        log_info name ("跳過非獲獎公告: " +:+ PyStr.slice_to 30 title +:+ "...");;
        ret None
      else
        log_info name ("🎉 發現獲獎公告: " +:+ title);;
        let content :=
          if negb (PyStr.truthy content) || (str_len content <? 50)%nat then
            let full_content := _fetch_full_content url in
            if PyStr.truthy full_content then full_content else title
          else content in
        let date_published := default now (published article) in
        let image_url := _fetch_image_from_page url in
        match image_url with
        | Some u =>
            if PyStr.truthy u
            then log_info name ("   找到圖片: " +:+ PyStr.slice_to 60 u +:+ "...")
            else ret tt
        | None => ret tt
        end;;
        let announcement :=
          AwardAnnouncement.mk "" title content url date_published image_url in
        let announcement :=
          AwardAnnouncement.mk
            (AwardAnnouncement.generate_id md5_hexdigest announcement)
            title content url date_published image_url in
        self ← get_self;
        if ProcessedTracker.is_processed (tracker self) (AwardAnnouncement.id announcement)
        then log_info name "   已處理過，跳過";; ret None
        else ret (Some announcement)
  end.

(** [for article in articles[:10]: ...] with its accumulator. *)
Fixpoint scan_articles (articles : list (datetime.t * Article))
    : Act t (list AwardAnnouncement.t) :=
  match articles with
  | [] => ret []
  | article :: rest =>
      found ← scan_article article;
      announcements ← scan_articles rest;
      ret (match found with
           | Some announcement => announcement :: announcements
           | None => announcements
           end)
  end.

Definition scan_for_announcements (response : Response)
    : Act t (list AwardAnnouncement.t) :=
  log_info name "🔍 開始掃描獲獎公告...";;
  match response with
  | Page status articles =>
      if negb (status =? 200) then
        log_error name ("無法訪問網站: " +:+ pretty status);;
        ret []
      else
        log_info name ("找到 " +:+ pretty (length articles) +:+ " 篇文章");;
        announcements ← scan_articles (take 10 articles);
        log_info name ("✅ 找到 " +:+ pretty (length announcements) +:+ " 個新獲獎公告");;
        ret announcements
  | Unreachable e =>
      log_error name ("掃描公告失敗: " +:+ e);;
      ret []
  end.

(** [timestamps i] is the reading of the clock when the [i]-th
    notification is built. *)
Definition check_and_notify (response : Response) (timestamps : nat -> datetime.t)
    : Act t unit :=
  announcements ← scan_for_announcements response;
  match announcements with
  | [] => log_info name "沒有發現新的獲獎公告"
  | _ =>
      for_each (imap (fun i announcement => (i, announcement)) announcements)
        (fun '(i, announcement) =>
           log_info name ("📤 通知 FatherAgent: " +:+
                          PyStr.slice_to 40 (AwardAnnouncement.title announcement) +:+
                          "...");;
           send_message "FatherAgent" NEW_ANNOUNCEMENT
             (Payload.mk (Some announcement) None
                (Some (datetime.isoformat (timestamps i)))
                None None None None None None None None None None);;
           modify (fun self =>
             let '(tracker, file) :=
               ProcessedTracker.mark_processed (tracker self)
                 (AwardAnnouncement.id announcement) in
             mk tracker file);;
           emit (Sleep 1))
  end.
End Scan.

End InformationAgent.

(* ===================================================================== *)
(** ** base_agent.py: the loop of the MessageBus *)
(* ===================================================================== *)

(** [MessageBus.start] and [MessageBus.stop]. *)
Module MessageBusLoop.
Section Loop.
Context {W : Type}.

(** At most [turns] turns of [while self._running: ...]. *)
Fixpoint loop (turns : nat) (self : MessageBus.t W) (w : W)
    : MessageBus.t W * W * list (MessageBus.Event W) :=
  match turns with
  | O => (self, w, [])
  | S turns =>
      if MessageBus._running self then
        let '(self1, w1, evs1) := MessageBus.start_iteration self w in
        let '(self2, w2, evs2) := loop turns self1 w1 in
        (self2, w2, evs1 ++ evs2)
      else (self, w, [])
  end.

Definition start (turns : nat) (self : MessageBus.t W) (w : W)
    : MessageBus.t W * W * list (MessageBus.Event W) :=
  let self := MessageBus.mk (MessageBus.subscribers self) (MessageBus.message_queue self)
                (MessageBus.agents self) true in
  let '(self, w, evs) := loop turns self w in
  (self, w, MessageBus.Logged INFO "🚀 訊息匯流排已啟動" :: evs).

Definition stop (self : MessageBus.t W) : MessageBus.t W * list (MessageBus.Event W) :=
  (MessageBus.mk (MessageBus.subscribers self) (MessageBus.message_queue self)
     (MessageBus.agents self) false,
   [MessageBus.Logged INFO "🛑 訊息匯流排已停止"]).
End Loop.
End MessageBusLoop.

(* ===================================================================== *)
(** ** Vocabulary of the properties *)
(* ===================================================================== *)

(** The three components of a handler run. *)
Definition outcome {S A} (x : Result A * S * list Effect) : Result A := x.1.1.
Definition after {S A} (x : Result A * S * list Effect) : S := x.1.2.
Definition effects {S A} (x : Result A * S * list Effect) : list Effect := x.2.

(** The messages among some effects, in the order they were sent. *)
Definition sends (effs : list Effect) : list (string * MessageType * Payload.t) :=
  flat_map (fun eff =>
    match eff with
    | Send receiver msg_type payload => [(receiver, msg_type, payload)]
    | _ => []
    end) effs.

(** The warnings among some effects. *)
Definition warnings (effs : list Effect) : list string :=
  flat_map (fun eff =>
    match eff with
    | Log WARNING text => [text]
    | _ => []
    end) effs.

(** How many of the fixed keywords occur in a title. *)
Definition matched_keywords (title : string) : nat :=
  length (filter (fun keyword => PyStr.contains keyword title = true)
                 FatherAgent.high_priority_keywords).

(** The number of deliveries of a [TASK_ASSIGNMENT] for [tid]. *)
Definition assigns (tid : string) (d : datetime.t * AgentMessage.t) : bool :=
  bool_decide (AgentMessage.msg_type d.2 = TASK_ASSIGNMENT ∧
               (AwardAnnouncement.id <$> Payload.announcement (AgentMessage.payload d.2))
               = Some tid).
Definition assignments (tid : string) (ds : list (datetime.t * AgentMessage.t)) : nat :=
  length (filter (fun d => assigns tid d = true) ds).

(** The number of completion reports for [tid] among some effects. *)
Definition finalizations (tid : string) (effs : list Effect) : nat :=
  length (filter (fun t => t = tid) (MotherAgent.finalized effs)).

(** The handler [BaseAgent.receive_message] selects for a message. *)
Definition mother_handler (now : datetime.t) (m : AgentMessage.t) : Act MotherAgent.t unit :=
  match MotherAgent._message_handlers now (AgentMessage.msg_type m) with
  | Some handler => handler m
  | None => MotherAgent.handle_message m
  end.

(** The task, platform and result [_handle_post_result] records for a
    message: the first task in insertion order whose status is ['posting'],
    when the payload has a truthy platform and a result.  The [task_id] of
    the payload is not consulted. *)
Definition attributed (m : AgentMessage.t) (s : MotherAgent.t)
    : option (string * string * PostResult.t) :=
  match Payload.platform (AgentMessage.payload m), Payload.result (AgentMessage.payload m) with
  | Some platform, Some result =>
      if PyStr.truthy platform then
        match MotherAgent.first_posting (MotherAgent.active_tasks s) with
        | Some tid => if PyStr.truthy tid then Some (tid, platform, result) else None
        | None => None
        end
      else None
  | _, _ => None
  end.

(** The payload of the POST_REQUEST sent to one platform agent. *)
Definition post_request_payload (a : AwardAnnouncement.t) (c : GeneratedContent.t)
    (agent_name : string) : Payload.t :=
  Payload.mk None None None (Some (AwardAnnouncement.id a)) None
    (Some (MotherAgent._create_social_post a c))
    (AwardAnnouncement.image_url a)
    (if decide (agent_name = "RedditAgent") then Some "nycu" else None)
    None None None None None.

(** The payload of the completion report. *)
Definition report_payload (tid : string) (results : gmap string PostResult.t) : Payload.t :=
  Payload.mk None None None None None None None None None None
    (Some (if 0 <? MotherAgent.success_count results then "completed" else "failed"))
    (Some tid) (Some (MotherAgent.summary <$> results)).

(** 1 when [tid] has a task record, else 0. *)
Definition is_open (tid : string) (s : MotherAgent.t) : nat :=
  if decide (tid ∈ PyDict.keys (MotherAgent.active_tasks s)) then 1 else 0.

(** The states the task coordinator can be in after complete handler runs:
    the keys of [active_tasks] are distinct and are the keys of
    [results_buffer], and every open task has fewer results than there are
    platform agents. *)
Record coordinator_inv (self : MotherAgent.t) : Prop := {
  inv_nodup : NoDup (PyDict.keys (MotherAgent.active_tasks self));
  inv_keys : ∀ tid, is_Some (MotherAgent.results_buffer self !! tid) ↔
                    tid ∈ PyDict.keys (MotherAgent.active_tasks self);
  inv_open : ∀ tid results,
    MotherAgent.results_buffer self !! tid = Some results →
    (size results < length MotherAgent.platform_agents)%nat
}.



(** A computation that leaves the attributes as they are and sends
    nothing: it returns [v], or it raises. *)
Definition returns {S A} (c : Act S A) (s : S) (v : A) : Prop :=
  ∃ effs, c s = (Ok v, s, effs) ∧ sends effs = [].
Definition raises {S A} (c : Act S A) (s : S) : Prop :=
  ∃ e effs, c s = (Raised e, s, effs) ∧ sends effs = [].

(* ===================================================================== *)
(** ** Concrete deliveries *)
(* ===================================================================== *)

Module Scenario.
Definition clock : datetime.t := datetime.mk 2024 5 17 9 30 0 0.
Definition later : datetime.t := datetime.mk 2024 5 17 9 45 0 0.

Definition work_item (id : string) : AwardAnnouncement.t :=
  AwardAnnouncement.mk id "賀 獲獎" "內文" "https://ai.nycu.edu.tw/news" clock None.

Definition content (a : AwardAnnouncement.t) : GeneratedContent.t :=
  ContentAgent.fallback a.

Definition to_mother (msg_type : MessageType) (sender : string) (payload : Payload.t)
    : datetime.t * AgentMessage.t :=
  (clock, envelope sender clock "0123456789ab" "MotherAgent" msg_type payload).

Definition assignment (id : string) : datetime.t * AgentMessage.t :=
  to_mother TASK_ASSIGNMENT "FatherAgent"
    (Payload.mk (Some (work_item id)) (Some 5) (Some (datetime.isoformat clock))
       None None None None None None None None None None).

Definition generated (id : string) : datetime.t * AgentMessage.t :=
  to_mother CONTENT_GENERATED "ContentAgent"
    (Payload.mk (Some (work_item id)) None None None (Some (content (work_item id)))
       None None None None None None None None).

Definition posted (platform : string) : PostResult.t :=
  PostResult.mk true platform (Some "1") (Some ("https://example.org/" +:+ platform)) None.

Definition post_result (sender : string) (task_id : option string) (platform : string)
    : datetime.t * AgentMessage.t :=
  to_mother POST_RESULT sender
    (Payload.mk None None None task_id None None None None
       (Some platform) (Some (posted platform)) None None None).

(** Two tasks, "A" then "B", both dispatched to the platform agents. *)
Definition two_posting : MotherAgent.t :=
  (MotherAgent.run MotherAgent.__init__
     [assignment "A"; generated "A"; assignment "B"; generated "B"]).1.

(** One task, "a1", dispatched, with the result of one platform recorded. *)
Definition in_flight : MotherAgent.t :=
  (MotherAgent.run MotherAgent.__init__
     [assignment "a1"; generated "a1"; post_result "TwitterAgent" None "twitter"]).1.

(** One task, "a1", dispatched, with the results of four platforms
    recorded. *)
Definition four_results : list (datetime.t * AgentMessage.t) :=
  [assignment "a1"; generated "a1"; post_result "TwitterAgent" None "twitter";
   post_result "FacebookAgent" None "facebook"; post_result "InstagramAgent" None "instagram";
   post_result "LinkedInAgent" None "linkedin"].
End Scenario.

Module BusScenario.
(** The world is the log of what agents and callbacks did. *)
Definition graph_api (post : option SocialPost.t) (image_url : string) : PostResult.t :=
  PostResult.mk false "instagram" None None (Some "offline").

(** An [InstagramAgent] with credentials, as the bus sees it. *)
Definition instagram_agent : MessageBus.Coroutine (list Effect) :=
  fun message w =>
    let x := InstagramAgent.receive graph_api message (InstagramAgent.mk true) in
    (outcome x, w ++ effects x).

Definition callback : MessageBus.Coroutine (list Effect) :=
  fun message w => (Ok tt, w ++ [Log INFO "callback"]).

Definition bus : MessageBus.t (list Effect) :=
  MessageBus.subscribe
    (MessageBus.register_agent MessageBus.__init__ "InstagramAgent" instagram_agent)
    "InstagramAgent" callback.

(** A POST_REQUEST whose payload has neither ['post'] nor ['image_url']. *)
Definition message : AgentMessage.t :=
  envelope "MotherAgent" Scenario.clock "0123456789ab" "InstagramAgent" POST_REQUEST
    Payload.empty.

(** A POST_REQUEST as the task coordinator sends it. *)
Definition request : AgentMessage.t :=
  envelope "MotherAgent" Scenario.clock "0123456789ab" "InstagramAgent" POST_REQUEST
    (post_request_payload (Scenario.work_item "a1")
       (Scenario.content (Scenario.work_item "a1")) "InstagramAgent").
End BusScenario.

(* ===================================================================== *)
(** ** Vocabulary of the further properties *)
(* ===================================================================== *)

(** The life cycle of the task records: a record is in one of the two
    states the handlers write; before its content arrives it has no content
    and no results, afterwards it has content. *)
Definition lifecycle_inv (self : MotherAgent.t) : Prop :=
  ∀ tid task,
    PyDict.get tid (MotherAgent.active_tasks self) = Some task →
    (Task.status task = "generating_content" ∧
     Task.generated_content task = None ∧
     MotherAgent.results_buffer self !! tid = Some ∅) ∨
    (Task.status task = "posting" ∧ is_Some (Task.generated_content task)).

(** The seconds slept among some effects. *)
Definition slept (effs : list Effect) : Z :=
  foldr (fun eff acc => match eff with Sleep n => n + acc | _ => acc end) 0 effs.

(** Deliveries to the task coordinator as the other agents build them. *)
Definition assignment_of (now : datetime.t) (mid : string) (a : AwardAnnouncement.t)
    (priority : Z) : datetime.t * AgentMessage.t :=
  (now, envelope "FatherAgent" now mid "MotherAgent" TASK_ASSIGNMENT
          (Payload.mk (Some a) (Some priority) (Some (datetime.isoformat now))
             None None None None None None None None None None)).

Definition content_of (now : datetime.t) (mid : string) (a : AwardAnnouncement.t)
    (c : GeneratedContent.t) : datetime.t * AgentMessage.t :=
  (now, envelope "ContentAgent" now mid "MotherAgent" CONTENT_GENERATED
          (Payload.mk (Some a) None None None (Some c)
             None None None None None None None None)).

Definition result_of (now : datetime.t) (mid : string) (sender : string)
    (pr : string * PostResult.t) : datetime.t * AgentMessage.t :=
  (now, envelope sender now mid "MotherAgent" POST_RESULT
          (Payload.mk None None None None None None None None
             (Some pr.1) (Some pr.2) None None None)).

(** [d[k] = v] for each pair, in order. *)
Definition record_all (rs : list (string * PostResult.t))
    (results : gmap string PostResult.t) : gmap string PostResult.t :=
  foldl (fun acc pr => <[pr.1 := pr.2]> acc) results rs.

(** The intake coordinator over a sequence of deliveries. *)
Definition father_step (self : FatherAgent.t) (d : datetime.t * AgentMessage.t)
    : FatherAgent.t * list Effect :=
  let x := FatherAgent.receive d.1 d.2 self in (after x, effects x).

Fixpoint father_run (self : FatherAgent.t) (ds : list (datetime.t * AgentMessage.t))
    : FatherAgent.t * list Effect :=
  match ds with
  | [] => (self, [])
  | d :: rest =>
      let '(self1, e1) := father_step self d in
      let '(self2, e2) := father_run self1 rest in
      (self2, e1 ++ e2)
  end.

(** The deliveries of a NEW_ANNOUNCEMENT that carries an announcement, and
    of a STATUS_UPDATE with a given status. *)
Definition announces (d : datetime.t * AgentMessage.t) : bool :=
  bool_decide (AgentMessage.msg_type d.2 = NEW_ANNOUNCEMENT ∧
               is_Some (Payload.announcement (AgentMessage.payload d.2))).

Definition reports (status : string) (d : datetime.t * AgentMessage.t) : bool :=
  bool_decide (AgentMessage.msg_type d.2 = STATUS_UPDATE ∧
               Payload.status (AgentMessage.payload d.2) = Some status).

Definition count_of (f : datetime.t * AgentMessage.t → bool)
    (ds : list (datetime.t * AgentMessage.t)) : Z :=
  Z.of_nat (length (filter (fun d => f d = true) ds)).

(** The figures of the intake coordinator, relative to a starting state. *)
Definition ledger_from (base self : FatherAgent.t) (effs : list Effect)
    (ds : list (datetime.t * AgentMessage.t)) : Prop :=
  let st := FatherAgent.processing_stats self in
  let st0 := FatherAgent.processing_stats base in
  FatherAgent.received st = FatherAgent.received st0 + count_of announces ds ∧
  FatherAgent.forwarded st = FatherAgent.forwarded st0 + count_of announces ds ∧
  FatherAgent.completed st = FatherAgent.completed st0 + count_of (reports "completed") ds ∧
  FatherAgent.failed st = FatherAgent.failed st0 + count_of (reports "failed") ds ∧
  Z.of_nat (length (sends effs)) = count_of announces ds ∧
  Z.of_nat (size (FatherAgent.pending_announcements self))
  ≤ Z.of_nat (size (FatherAgent.pending_announcements base)) + count_of announces ds.

(** Every pending announcement is stored under its own id. *)
Definition pending_keyed (self : FatherAgent.t) : Prop :=
  ∀ k a, FatherAgent.pending_announcements self !! k = Some a → AwardAnnouncement.id a = k.

(** The TASK_ASSIGNMENT that a delivery makes the intake coordinator send. *)
Definition forwarding (d : datetime.t * AgentMessage.t)
    : option (string * MessageType * Payload.t) :=
  if decide (AgentMessage.msg_type d.2 = NEW_ANNOUNCEMENT) then
    a ← Payload.announcement (AgentMessage.payload d.2);
    Some ("MotherAgent", TASK_ASSIGNMENT,
          Payload.mk (Some a) (Some (FatherAgent._calculate_priority a))
            (Some (datetime.isoformat d.1))
            None None None None None None None None None None)
  else None.

(** A generator either raises what building its chain raised, or returns
    a value that satisfies [Q]. *)
Definition generator_post {A} (p : ContentAgent.Prompt) (gen : Act ContentAgent.t A)
    (Q : A → Prop) (model : ContentAgent.ChatOllama) : Prop :=
  ∀ s,
    match ContentAgent.chain_build model p with
    | Some e => raises gen s
    | None => ∃ v, returns gen s v ∧ Q v
    end.

(** The shape of every content the agent hands out: the Chinese title is
    the title of the announcement, each language has between one and five
    hashtags, and the only platform-specific text is a tweet of at most 280
    code points. *)
Definition well_formed (a : AwardAnnouncement.t) (c : GeneratedContent.t) : Prop :=
  GeneratedContent.title_zh c = AwardAnnouncement.title a ∧
  (1 ≤ length (GeneratedContent.hashtags_zh c) ≤ 5)%nat ∧
  (1 ≤ length (GeneratedContent.hashtags_en c) ≤ 5)%nat ∧
  ∃ tw, GeneratedContent.platform_specific c = {[ "twitter" := tw ]} ∧
        (str_len tw ≤ 280)%nat.

(** No byte of [s] is a space. *)
Fixpoint no_space (s : string) : bool :=
  match s with
  | EmptyString => true
  | String a rest => negb (Ascii.eqb a " "%char) && no_space rest
  end.

(** The notification of the [i]-th announcement of a scan. *)
Definition notification (timestamps : nat → datetime.t) (i : nat)
    (a : AwardAnnouncement.t) : string * MessageType * Payload.t :=
  ("FatherAgent", NEW_ANNOUNCEMENT,
   Payload.mk (Some a) None (Some (datetime.isoformat (timestamps i)))
     None None None None None None None None None None).

Section ScanVocabulary.
Variable md5_hexdigest : string → string.
Variable _fetch_full_content : string → string.
Variable _fetch_image_from_page : string → option string.

(** The announcement an article yields while nothing has been processed. *)
Definition candidate (d : datetime.t * InformationAgent.Article)
    : option AwardAnnouncement.t :=
  match outcome (InformationAgent.scan_article md5_hexdigest _fetch_full_content
                   _fetch_image_from_page d (InformationAgent.__init__ None)) with
  | Ok found => found
  | Raised _ => None
  end.

(** The candidates of some articles that a tracker has not seen. *)
Definition unseen (self : InformationAgent.t)
    (ds : list (datetime.t * InformationAgent.Article)) : list AwardAnnouncement.t :=
  omap (fun d =>
          c ← candidate d;
          if ProcessedTracker.is_processed (InformationAgent.tracker self)
               (AwardAnnouncement.id c)
          then None else Some c) ds.

(** What a scan of a response returns to a tracker state. *)
Definition listed (self : InformationAgent.t) (response : InformationAgent.Response)
    : list AwardAnnouncement.t :=
  match response with
  | InformationAgent.Page status articles =>
      if status =? 200 then unseen self (take 10 articles) else []
  | InformationAgent.Unreachable _ => []
  end.
End ScanVocabulary.

(** What the loop of the bus logs when the handling of a message ends
    with [r]: nothing when it returned, nothing when an
    [asyncio.TimeoutError] left it, one error for any other exception. *)
Definition loop_log {W} (r : Result unit) : list (MessageBus.Event W) :=
  match r with
  | Ok _ => []
  | Raised (TimeoutError _) => []
  | Raised e => [MessageBus.Logged ERROR ("❌ 訊息處理錯誤: " +:+ Exn_str e)]
  end.

(** Handling some messages one after the other with the registry of a bus:
    the world they leave and what the bus did, followed for each message by
    what the loop logs for it before the next message is taken. *)
Fixpoint handled_in_turn {W} (self : MessageBus.t W) (messages : list AgentMessage.t)
    (w : W) : W * list (MessageBus.Event W) :=
  match messages with
  | [] => (w, [])
  | message :: rest =>
      let '(r, w1, evs1) := MessageBus._process_message self message w in
      let '(w2, evs2) := handled_in_turn self rest w1 in
      (w2, evs1 ++ loop_log r ++ evs2)
  end.

(** [bool(x)] for an optional string: [None] and [""] are falsy. *)
Definition given (x : option string) : bool :=
  match x with
  | Some u => PyStr.truthy u
  | None => false
  end.

(** The POST_RESULT an Instagram agent sends for a result. *)
Definition instagram_report (r : PostResult.t) : string * MessageType * Payload.t :=
  ("MotherAgent", POST_RESULT,
   Payload.mk None None None None None None None None
     (Some "instagram") (Some r) None None None).

(** The dates [datetime] can hold, on which [strftime('%Y%m%d')] prints
    eight digits. *)
Definition calendar_date (d : datetime.t) : Prop :=
  (1000 ≤ datetime.year d < 10000 ∧ 1 ≤ datetime.month d ≤ 12 ∧
   1 ≤ datetime.day d ≤ 31)%N.

(** Two dates fall on the same day. *)
Definition same_day (d1 d2 : datetime.t) : Prop :=
  datetime.year d1 = datetime.year d2 ∧ datetime.month d1 = datetime.month d2 ∧
  datetime.day d1 = datetime.day d2.

(** Unfolds the monad of handlers. *)
Ltac act_run :=
  cbv [mbind mret Act_bind Act_ret bind ret get_self modify emit raise try_except
       for_each log_info log_error log_warning send_message receive_message
       outcome after effects fst snd MotherAgent.platform_agents].

(** Reduces the projections of a task coordinator state. *)
Ltac mother_proj :=
  unfold lifecycle_inv, after, outcome, effects, MotherAgent.set_active_tasks,
    MotherAgent.set_results_buffer;
  cbn [fst snd MotherAgent.active_tasks MotherAgent.results_buffer
       Task.status Task.generated_content Task.announcement Task.started_at
       Task.post_results].

(** Reduces the projections of an intake coordinator state. *)
Ltac father_proj :=
  unfold after, outcome, effects, FatherAgent.set_stats, FatherAgent.set_pending;
  cbn [fst snd FatherAgent.processing_stats FatherAgent.pending_announcements
       FatherAgent.received FatherAgent.forwarded FatherAgent.completed FatherAgent.failed].

(** Reduces the projections of an information agent state. *)
Ltac info_proj :=
  unfold ProcessedTracker.mark_processed, ProcessedTracker._save;
  cbn [InformationAgent.tracker InformationAgent.processed_awards_json
       ProcessedTracker.processed_ids ProcessedTracker.mark_processed
       ProcessedTracker._save fst snd].

(* ===================================================================== *)
(** ** Dictionaries *)
(* ===================================================================== *)

Section PyDictFacts.
Context {K V : Type} `{EqDecision K}.
Implicit Types (k : K) (v : V) (d : list (K * V)).

Lemma PyDict_get_None k d : PyDict.get k d = None ↔ k ∉ PyDict.keys d.
Proof.
  induction d as [|[k' v'] d IH]; simpl.
  - split; [intros _; apply not_elem_of_nil | done].
  - rewrite not_elem_of_cons. destruct (decide (k = k')); naive_solver.
Qed.

Lemma PyDict_get_Some k d : is_Some (PyDict.get k d) ↔ k ∈ PyDict.keys d.
Proof.
  rewrite <- not_eq_None_Some, PyDict_get_None.
  destruct (decide (k ∈ PyDict.keys d)); naive_solver.
Qed.

Lemma PyDict_get_set_eq k v d : PyDict.get k (PyDict.set k v d) = Some v.
Proof.
  induction d as [|[k' v'] d IH]; simpl.
  - by rewrite decide_True.
  - destruct (decide (k = k')); simpl; [by rewrite decide_True | by rewrite decide_False].
Qed.

Lemma PyDict_get_set_ne k k' v d :
  k ≠ k' → PyDict.get k' (PyDict.set k v d) = PyDict.get k' d.
Proof.
  intros Hne. induction d as [|[k1 v1] d IH]; simpl.
  - by rewrite decide_False.
  - destruct (decide (k = k1)) as [->|]; simpl.
    + by rewrite !decide_False.
    + by rewrite IH.
Qed.

Lemma PyDict_keys_set_in k v d :
  k ∈ PyDict.keys d → PyDict.keys (PyDict.set k v d) = PyDict.keys d.
Proof.
  induction d as [|[k' v'] d IH]; simpl.
  - by intros ?%elem_of_nil.
  - intros Hin. destruct (decide (k = k')) as [->|Hne]; simpl; [done|].
    f_equal. apply IH. apply elem_of_cons in Hin. naive_solver.
Qed.

Lemma PyDict_keys_set_notin k v d :
  k ∉ PyDict.keys d → PyDict.keys (PyDict.set k v d) = PyDict.keys d ++ [k].
Proof.
  induction d as [|[k' v'] d IH]; simpl; [done|].
  rewrite not_elem_of_cons. intros [Hne Hnin].
  rewrite decide_False by done. simpl. by rewrite IH.
Qed.

Lemma PyDict_elem_of_keys_set k k' v d :
  k' ∈ PyDict.keys (PyDict.set k v d) ↔ k' = k ∨ k' ∈ PyDict.keys d.
Proof.
  destruct (decide (k ∈ PyDict.keys d)) as [Hin|Hnin].
  - rewrite PyDict_keys_set_in by done. naive_solver.
  - rewrite PyDict_keys_set_notin by done. rewrite elem_of_app, list_elem_of_singleton.
    naive_solver.
Qed.

Lemma PyDict_NoDup_set k v d :
  NoDup (PyDict.keys d) → NoDup (PyDict.keys (PyDict.set k v d)).
Proof.
  intros Hnd. destruct (decide (k ∈ PyDict.keys d)) as [Hin|Hnin].
  - by rewrite PyDict_keys_set_in.
  - rewrite PyDict_keys_set_notin by done. apply NoDup_app.
    split_and!; [done | | apply NoDup_singleton].
    intros x Hx ->%list_elem_of_singleton. done.
Qed.

Lemma PyDict_elem_of_keys_del k k' d :
  NoDup (PyDict.keys d) →
  k' ∈ PyDict.keys (PyDict.del k d) ↔ k' ≠ k ∧ k' ∈ PyDict.keys d.
Proof.
  induction d as [|[k1 v1] d IH]; simpl.
  - intros _. rewrite elem_of_nil. naive_solver.
  - intros [Hnin Hnd]%NoDup_cons. destruct (decide (k = k1)) as [->|Hne]; simpl.
    + rewrite elem_of_cons. split; [|naive_solver].
      intros Hin. split; [|by right]. by intros ->.
    + rewrite !elem_of_cons, IH by done. naive_solver.
Qed.

Lemma PyDict_NoDup_del k d :
  NoDup (PyDict.keys d) → NoDup (PyDict.keys (PyDict.del k d)).
Proof.
  induction d as [|[k1 v1] d IH]; simpl; [done|].
  intros [Hnin Hnd]%NoDup_cons. destruct (decide (k = k1)) as [->|Hne]; simpl; [done|].
  apply NoDup_cons. split; [|by apply IH].
  rewrite PyDict_elem_of_keys_del by done. naive_solver.
Qed.

Lemma PyDict_get_del_ne k k' d :
  k ≠ k' → PyDict.get k' (PyDict.del k d) = PyDict.get k' d.
Proof.
  intros Hne. induction d as [|[k1 v1] d IH]; simpl; [done|].
  destruct (decide (k = k1)) as [->|]; simpl.
  - by rewrite decide_False.
  - by rewrite IH.
Qed.

Lemma PyDict_length_set_in k v d :
  k ∈ PyDict.keys d → length (PyDict.set k v d) = length d.
Proof.
  intros Hin. rewrite <- !(length_map fst). fold (PyDict.keys (PyDict.set k v d)).
  fold (PyDict.keys d). by rewrite PyDict_keys_set_in.
Qed.
End PyDictFacts.

(* ===================================================================== *)
(** ** Intake coordinator: priority *)
(* ===================================================================== *)

Lemma fold_priority title (keywords : list string) (p : Z) :
  p ≤ 10 →
  fold_left
    (fun priority keyword =>
       if PyStr.contains keyword title then Z.min (priority + 1) 10 else priority)
    keywords p
  = Z.min (p + Z.of_nat (length (filter (fun keyword => PyStr.contains keyword title = true)
                                        keywords))) 10.
Proof.
  revert p. induction keywords as [|keyword keywords IH]; intros p Hp; simpl.
  - lia.
  - rewrite filter_cons. destruct (PyStr.contains keyword title) eqn:Hc.
    + rewrite decide_True by done. rewrite IH by lia. simpl length. lia.
    + rewrite decide_False by done. rewrite IH by lia. done.
Qed.

Lemma calculate_priority_count announcement :
  FatherAgent._calculate_priority announcement
  = Z.min (5 + Z.of_nat (matched_keywords (AwardAnnouncement.title announcement))) 10.
Proof. unfold FatherAgent._calculate_priority. by rewrite fold_priority. Qed.

(** C4. The priority of an announcement is 5 plus the number of keywords of
    the fixed set that occur in its title, capped at 10; it is determined by
    the title, it does not decrease when more keywords match, and the title
    "國際冠軍", which matches two keywords, has priority 7. *)
Theorem calculate_priority_rule :
  (∀ a, FatherAgent._calculate_priority a
        = Z.min (5 + Z.of_nat (matched_keywords (AwardAnnouncement.title a))) 10) ∧
  (∀ a, 5 ≤ FatherAgent._calculate_priority a ≤ 10) ∧
  (∀ a b, AwardAnnouncement.title a = AwardAnnouncement.title b →
          FatherAgent._calculate_priority a = FatherAgent._calculate_priority b) ∧
  (∀ a b, (matched_keywords (AwardAnnouncement.title a)
           ≤ matched_keywords (AwardAnnouncement.title b))%nat →
          FatherAgent._calculate_priority a ≤ FatherAgent._calculate_priority b) ∧
  (∀ i c u d img,
     matched_keywords "國際冠軍" = 2%nat ∧
     FatherAgent._calculate_priority (AwardAnnouncement.mk i "國際冠軍" c u d img) = 7).
Proof.
  split_and!.
  - apply calculate_priority_count.
  - intros a. rewrite calculate_priority_count. lia.
  - intros a b Heq. by rewrite !calculate_priority_count, Heq.
  - intros a b Hle. rewrite !calculate_priority_count. lia.
  - intros. split; reflexivity.
Qed.

Lemma calculate_priority_rule_witness :
  let d := datetime.mk 2024 5 17 9 30 0 0 in
  let a := AwardAnnouncement.mk "a1" "賀 本院學生榮獲冠軍" "內文" "https://ai.nycu.edu.tw/1" d None in
  let b := AwardAnnouncement.mk "b2" "國際冠軍" "內文" "https://ai.nycu.edu.tw/2" d None in
  (matched_keywords (AwardAnnouncement.title a)
   ≤ matched_keywords (AwardAnnouncement.title b))%nat ∧
  FatherAgent._calculate_priority a ≤ FatherAgent._calculate_priority b.
Proof.
  intros d a b.
  assert (Hle : (matched_keywords (AwardAnnouncement.title a)
                 ≤ matched_keywords (AwardAnnouncement.title b))%nat)
    by (vm_compute; lia).
  split; [exact Hle|].
  exact (proj1 (proj2 (proj2 (proj2 calculate_priority_rule))) a b Hle).
Defined.

(* ===================================================================== *)
(** ** Work item ids *)
(* ===================================================================== *)



(* ===================================================================== *)
(** ** Intake coordinator: the pending set *)
(* ===================================================================== *)

(** C9. The intake coordinator drops an announcement from its pending set
    only while it handles a STATUS_UPDATE whose status is "completed" for
    that announcement; a STATUS_UPDATE whose status is "failed" adds one to
    the failed counter and leaves the pending set and the other counters as
    they were. *)
Theorem pending_dropped_only_on_completed now m (self : FatherAgent.t) :
  let self' := after (FatherAgent.receive now m self) in
  (∀ k, is_Some (FatherAgent.pending_announcements self !! k) →
        FatherAgent.pending_announcements self' !! k = None →
        AgentMessage.msg_type m = STATUS_UPDATE ∧
        Payload.status (AgentMessage.payload m) = Some "completed" ∧
        Payload.announcement_id (AgentMessage.payload m) = Some k) ∧
  (AgentMessage.msg_type m = STATUS_UPDATE →
   Payload.status (AgentMessage.payload m) = Some "failed" →
   FatherAgent.pending_announcements self' = FatherAgent.pending_announcements self ∧
   FatherAgent.failed (FatherAgent.processing_stats self')
     = FatherAgent.failed (FatherAgent.processing_stats self) + 1 ∧
   FatherAgent.completed (FatherAgent.processing_stats self')
     = FatherAgent.completed (FatherAgent.processing_stats self) ∧
   FatherAgent.received (FatherAgent.processing_stats self')
     = FatherAgent.received (FatherAgent.processing_stats self) ∧
   FatherAgent.forwarded (FatherAgent.processing_stats self')
     = FatherAgent.forwarded (FatherAgent.processing_stats self)).
Proof.
  destruct m as [ty sender receiver payload ts mid]. simpl. split.
  - intros k [a Ha] Hnone. revert Hnone.
    unfold FatherAgent.receive, FatherAgent._message_handlers.
    destruct ty; act_run; simpl; try congruence.
    + unfold FatherAgent._handle_new_announcement. simpl.
      destruct (Payload.announcement payload) as [ann|]; act_run; simpl; [|congruence].
      destruct (decide (AwardAnnouncement.id ann = k)) as [->|Hne].
      * by rewrite lookup_insert_eq.
      * rewrite lookup_insert_ne by done. congruence.
    + unfold FatherAgent._handle_status_update, FatherAgent._print_stats. simpl.
      destruct (decide (Payload.status payload = Some "completed")) as [Hc|Hc].
      * destruct (Payload.announcement_id payload) as [aid|]; act_run; simpl;
          [|congruence].
        destruct (decide (aid = k)) as [->|Hne]; [done|].
        rewrite lookup_delete_ne by done. congruence.
      * destruct (decide (Payload.status payload = Some "failed"));
          act_run; simpl; congruence.
  - intros -> Hfailed. simpl in Hfailed.
    unfold FatherAgent.receive, FatherAgent._message_handlers,
      FatherAgent._handle_status_update, FatherAgent._print_stats.
    act_run. simpl. rewrite Hfailed.
    rewrite decide_False by done. rewrite decide_True by done. done.
Qed.

Lemma pending_dropped_only_on_completed_witness :
  let d := datetime.mk 2024 5 17 9 30 0 0 in
  let a := AwardAnnouncement.mk "a1" "賀 獲獎" "內文" "https://ai.nycu.edu.tw/1" d None in
  let self := FatherAgent.mk {[ "a1" := a ]} (FatherAgent.mkStats 1 1 0 0) in
  let m := AgentMessage.mk STATUS_UPDATE "MotherAgent" "FatherAgent"
             (Payload.mk None None None None None None None None None None
                (Some "failed") (Some "a1") (Some ∅)) d "0123456789ab" in
  let self' := after (FatherAgent.receive d m self) in
  FatherAgent.pending_announcements self' !! "a1" = Some a ∧
  FatherAgent.failed (FatherAgent.processing_stats self') = 1.
Proof.
  intros d a self m self'.
  destruct (proj2 (pending_dropped_only_on_completed d m self) eq_refl eq_refl)
    as (Hp & Hf & _).
  split.
  - fold self' in Hp. rewrite Hp. reflexivity.
  - exact Hf.
Defined.

(* ===================================================================== *)
(** ** Task coordinator: the handlers *)
(* ===================================================================== *)

Lemma first_posting_elem items tid :
  MotherAgent.first_posting items = Some tid → tid ∈ PyDict.keys items.
Proof.
  induction items as [|[k task] items IH]; simpl; [done|].
  destruct (decide (Task.status task = "posting")).
  - intros [= ->]. apply elem_of_cons. by left.
  - intros H. apply elem_of_cons. right. by apply IH.
Qed.

Lemma finalized_app e1 e2 :
  MotherAgent.finalized (e1 ++ e2) = MotherAgent.finalized e1 ++ MotherAgent.finalized e2.
Proof. unfold MotherAgent.finalized. by rewrite flat_map_app. Qed.

Lemma finalize_task_run tid task (s : MotherAgent.t) :
  PyDict.get tid (MotherAgent.active_tasks s) = Some task →
  let x := MotherAgent._finalize_task tid s in
  let results := default ∅ (MotherAgent.results_buffer s !! tid) in
  outcome x = Ok tt ∧
  after x = MotherAgent.mk (PyDict.del tid (MotherAgent.active_tasks s))
                           (delete tid (MotherAgent.results_buffer s)) ∧
  sends (effects x) =
    [("FatherAgent", STATUS_UPDATE,
      Payload.mk None None None None None None None None None None
        (Some (if 0 <? MotherAgent.success_count results then "completed" else "failed"))
        (Some tid) (Some (MotherAgent.summary <$> results)))] ∧
  MotherAgent.finalized (effects x) = [tid] ∧
  warnings (effects x) = [].
Proof.
  intros Hget. unfold MotherAgent._finalize_task. act_run. rewrite Hget.
  split_and!; try reflexivity.
Qed.

Lemma finalize_task_absent tid (s : MotherAgent.t) :
  PyDict.get tid (MotherAgent.active_tasks s) = None →
  MotherAgent._finalize_task tid s = (Ok tt, s, []).
Proof.
  intros Hget. unfold MotherAgent._finalize_task. act_run. by rewrite Hget.
Qed.


Lemma post_result_recorded m s platform result tid results :
  Payload.platform (AgentMessage.payload m) = Some platform →
  Payload.result (AgentMessage.payload m) = Some result →
  PyStr.truthy platform = true ->
  MotherAgent.first_posting (MotherAgent.active_tasks s) = Some tid ->
  PyStr.truthy tid = true ->
  MotherAgent.results_buffer s !! tid = Some results ->
  let x := MotherAgent._handle_post_result m s in
  let recorded := MotherAgent.set_results_buffer (<[tid := <[platform := result]> results]>) s in
  if bool_decide (length MotherAgent.platform_agents ≤ size (<[platform := result]> results))%nat
  then outcome x = outcome (MotherAgent._finalize_task tid recorded) ∧
       after x = after (MotherAgent._finalize_task tid recorded) ∧
       sends (effects x) = sends (effects (MotherAgent._finalize_task tid recorded)) ∧
       MotherAgent.finalized (effects x)
       = MotherAgent.finalized (effects (MotherAgent._finalize_task tid recorded))
  else outcome x = Ok tt ∧ after x = recorded ∧ sends (effects x) = [] ∧
       MotherAgent.finalized (effects x) = [].
Proof.
  intros Hp Hr Ht Hf Htt Hrb.
  unfold MotherAgent._handle_post_result. rewrite Hp, Hr, Ht. cbn [negb].
  cbv zeta. act_run. unfold PyDict.items. rewrite Hf, Htt. cbn [negb]. rewrite Hrb.
  destruct (PostResult.success result); cbv beta iota;
    (destruct (bool_decide _) eqn:Hfull;
     [ destruct (MotherAgent._finalize_task tid _) as [[r s'] effs] eqn:Hfin;
       destruct r; simpl; done
     | simpl; done ]).
Qed.

Lemma truthy_true s : PyStr.truthy s = true ↔ s ≠ "".
Proof.
  unfold PyStr.truthy. rewrite negb_true_iff. apply String.eqb_neq.
Qed.

Lemma receive_handler now m (s : MotherAgent.t) :
  outcome (MotherAgent.receive now m s) = outcome (mother_handler now m s) ∧
  after (MotherAgent.receive now m s) = after (mother_handler now m s) ∧
  sends (effects (MotherAgent.receive now m s)) = sends (effects (mother_handler now m s)) ∧
  MotherAgent.finalized (effects (MotherAgent.receive now m s))
  = MotherAgent.finalized (effects (mother_handler now m s)) ∧
  warnings (effects (MotherAgent.receive now m s))
  = warnings (effects (mother_handler now m s)).
Proof.
  unfold MotherAgent.receive, receive_message, mother_handler. act_run.
  destruct (MotherAgent._message_handlers now (AgentMessage.msg_type m)) as [h|];
    [destruct (h m s) as [[r s'] effs] | destruct (MotherAgent.handle_message m s) as [[r s'] effs]];
    done.
Qed.

Lemma task_assignment_run now m (s : MotherAgent.t) a :
  Payload.announcement (AgentMessage.payload m) = Some a →
  MotherAgent._handle_task_assignment now m s =
  (Ok tt,
   MotherAgent.mk
     (PyDict.set (AwardAnnouncement.id a) (Task.mk a "generating_content" now None ∅)
        (MotherAgent.active_tasks s))
     (<[AwardAnnouncement.id a := ∅]> (MotherAgent.results_buffer s)),
   [Log INFO ("[MotherAgent] 📋 收到任務: " +:+
              PyStr.slice_to 40 (AwardAnnouncement.title a) +:+ "...");
    Log INFO "[MotherAgent] 📝 分配給 ContentAgent 生成內容...";
    Send "ContentAgent" TASK_ASSIGNMENT
      (Payload.mk (Some a) None None (Some (AwardAnnouncement.id a))
         None None None None None None None None None)]).
Proof.
  intros Ha. unfold MotherAgent._handle_task_assignment. rewrite Ha. reflexivity.
Qed.

Lemma task_assignment_invalid now m (s : MotherAgent.t) :
  Payload.announcement (AgentMessage.payload m) = None →
  MotherAgent._handle_task_assignment now m s
  = (Ok tt, s, [Log ERROR "[MotherAgent] 收到無效的任務"]).
Proof.
  intros Ha. unfold MotherAgent._handle_task_assignment. rewrite Ha. reflexivity.
Qed.

Lemma content_generated_run m (s : MotherAgent.t) a c task :
  Payload.announcement (AgentMessage.payload m) = Some a →
  Payload.generated_content (AgentMessage.payload m) = Some c →
  PyDict.get (AwardAnnouncement.id a) (MotherAgent.active_tasks s) = Some task →
  let x := MotherAgent._handle_content_generated m s in
  outcome x = Ok tt ∧
  after x = MotherAgent.set_active_tasks
              (PyDict.set (AwardAnnouncement.id a)
                 (Task.mk (Task.announcement task) "posting" (Task.started_at task)
                    (Some c) (Task.post_results task))) s ∧
  sends (effects x)
  = map (fun agent_name => (agent_name, POST_REQUEST, post_request_payload a c agent_name))
        MotherAgent.platform_agents ∧
  MotherAgent.finalized (effects x) = [] ∧
  warnings (effects x) = [].
Proof.
  intros Ha Hc Hget. unfold MotherAgent._handle_content_generated.
  rewrite Ha, Hc. cbv zeta. act_run. rewrite Hget. split_and!; reflexivity.
Qed.

Lemma content_generated_dropped m (s : MotherAgent.t) :
  (∀ a c task,
     Payload.announcement (AgentMessage.payload m) = Some a →
     Payload.generated_content (AgentMessage.payload m) = Some c →
     PyDict.get (AwardAnnouncement.id a) (MotherAgent.active_tasks s) = Some task → False) →
  let x := MotherAgent._handle_content_generated m s in
  outcome x = Ok tt ∧ after x = s ∧ sends (effects x) = [] ∧
  MotherAgent.finalized (effects x) = [].
Proof.
  intros Hno. unfold MotherAgent._handle_content_generated. cbv zeta.
  destruct (Payload.announcement _) as [a|]; [|by act_run].
  destruct (Payload.generated_content _) as [c|]; [|by act_run].
  act_run.
  destruct (PyDict.get _ _) as [task|] eqn:Hget; [|done].
  by destruct (Hno a c task).
Qed.

Lemma post_result_dropped m (s : MotherAgent.t) :
  attributed m s = None →
  let x := MotherAgent._handle_post_result m s in
  outcome x = Ok tt ∧ after x = s ∧ sends (effects x) = [] ∧
  MotherAgent.finalized (effects x) = [].
Proof.
  unfold attributed, MotherAgent._handle_post_result. cbv zeta.
  destruct (Payload.platform _) as [platform|]; [|by act_run].
  destruct (Payload.result _) as [result|]; [|by act_run].
  destruct (PyStr.truthy platform); cbn [negb]; [|by act_run].
  act_run. unfold PyDict.items.
  destruct (MotherAgent.first_posting _) as [tid|]; [|done].
  destruct (PyStr.truthy tid); cbn [negb]; done.
Qed.

Lemma attributed_Some m (s : MotherAgent.t) tid platform result :
  attributed m s = Some (tid, platform, result) ↔
  Payload.platform (AgentMessage.payload m) = Some platform ∧ platform ≠ "" ∧
  Payload.result (AgentMessage.payload m) = Some result ∧
  MotherAgent.first_posting (MotherAgent.active_tasks s) = Some tid ∧ tid ≠ "".
Proof.
  unfold attributed. rewrite <- !truthy_true. split.
  - destruct (Payload.platform _) as [p|]; [|done].
    destruct (Payload.result _) as [r|]; [|done].
    destruct (PyStr.truthy p) eqn:Hp; [|done].
    destruct (MotherAgent.first_posting _) as [t|]; [|done].
    destruct (PyStr.truthy t) eqn:Ht; [|done].
    by intros [= <- <- <-].
  - intros (-> & Hp & -> & -> & Ht). by rewrite Hp, Ht.
Qed.

Lemma post_result_step m (s : MotherAgent.t) :
  coordinator_inv s →
  let x := MotherAgent._handle_post_result m s in
  match attributed m s with
  | None =>
      outcome x = Ok tt ∧ after x = s ∧ sends (effects x) = [] ∧
      MotherAgent.finalized (effects x) = []
  | Some (tid, platform, result) =>
      ∃ results task,
        MotherAgent.results_buffer s !! tid = Some results ∧
        PyDict.get tid (MotherAgent.active_tasks s) = Some task ∧
        (size (<[platform := result]> results) ≤ length MotherAgent.platform_agents)%nat ∧
        outcome x = Ok tt ∧
        if bool_decide (length MotherAgent.platform_agents
                        ≤ size (<[platform := result]> results))%nat
        then after x = MotherAgent.mk (PyDict.del tid (MotherAgent.active_tasks s))
                                      (delete tid (MotherAgent.results_buffer s)) ∧
             sends (effects x)
             = [("FatherAgent", STATUS_UPDATE,
                 report_payload tid (<[platform := result]> results))] ∧
             MotherAgent.finalized (effects x) = [tid]
        else after x = MotherAgent.set_results_buffer
                         (<[tid := <[platform := result]> results]>) s ∧
             sends (effects x) = [] ∧
             MotherAgent.finalized (effects x) = []
  end.
Proof.
  intros Hinv x. subst x.
  destruct (attributed m s) as [[[tid platform] result]|] eqn:Hattr;
    [|by apply post_result_dropped].
  apply attributed_Some in Hattr as (Hp & Hpne & Hr & Hfirst & Htne).
  pose proof (first_posting_elem _ _ Hfirst) as Hin.
  destruct (proj2 (inv_keys _ Hinv tid) Hin) as [results Hres].
  destruct (proj2 (PyDict_get_Some tid (MotherAgent.active_tasks s)) Hin) as [task Htask].
  exists results, task. split; [done|]. split; [done|]. split.
  { pose proof (inv_open _ Hinv tid results Hres) as Hlt.
    change (length MotherAgent.platform_agents) with 5%nat in *.
    rewrite map_size_insert. destruct (results !! platform); unfold id; lia. }
  pose proof (post_result_recorded m s platform result tid results Hp Hr
                (proj2 (truthy_true _) Hpne) Hfirst (proj2 (truthy_true _) Htne) Hres)
    as Hrec.
  cbv zeta in Hrec.
  destruct (bool_decide _) eqn:Hfull.
  - destruct Hrec as (Ho & Ha & Hs & Hf).
    pose proof (finalize_task_run tid task
                  (MotherAgent.set_results_buffer
                     (<[tid := <[platform := result]> results]>) s) Htask)
      as (Ho' & Ha' & Hs' & Hf' & _).
    rewrite Ho, Ha, Hs, Hf, Ho', Ha', Hs', Hf'. simpl.
    rewrite lookup_insert_eq, delete_insert_eq. done.
  - destruct Hrec as (Ho & Ha & Hs & Hf). by rewrite Ho, Ha, Hs, Hf.
Qed.

Lemma content_generated_step m (s : MotherAgent.t) :
  let x := MotherAgent._handle_content_generated m s in
  outcome x = Ok tt ∧ MotherAgent.finalized (effects x) = [] ∧
  PyDict.keys (MotherAgent.active_tasks (after x)) = PyDict.keys (MotherAgent.active_tasks s) ∧
  MotherAgent.results_buffer (after x) = MotherAgent.results_buffer s.
Proof.
  destruct (Payload.announcement (AgentMessage.payload m)) as [a|] eqn:Ha;
    [destruct (Payload.generated_content (AgentMessage.payload m)) as [c|] eqn:Hc;
     [destruct (PyDict.get (AwardAnnouncement.id a) (MotherAgent.active_tasks s))
        as [task|] eqn:Hget|]|].
  - destruct (content_generated_run m s a c task Ha Hc Hget) as (Ho & Hs & _ & Hf & _).
    cbv zeta. rewrite Ho, Hs, Hf. simpl. split_and!; try done.
    apply PyDict_keys_set_in, PyDict_get_Some. by rewrite Hget.
  - destruct (content_generated_dropped m s) as (Ho & Hs & _ & Hf).
    { intros a' c' task' Ha' Hc' Hget'. congruence. }
    cbv zeta. by rewrite Ho, Hs, Hf.
  - destruct (content_generated_dropped m s) as (Ho & Hs & _ & Hf).
    { intros a' c' task' Ha' Hc' Hget'. congruence. }
    cbv zeta. by rewrite Ho, Hs, Hf.
  - destruct (content_generated_dropped m s) as (Ho & Hs & _ & Hf).
    { intros a' c' task' Ha' Hc' Hget'. congruence. }
    cbv zeta. by rewrite Ho, Hs, Hf.
Qed.

Lemma coordinator_inv_init : coordinator_inv MotherAgent.__init__.
Proof.
  split; simpl.
  - apply NoDup_nil_2.
  - intros tid. rewrite lookup_empty, elem_of_nil. split; [by intros [? ?]|done].
  - intros tid results. by rewrite lookup_empty.
Qed.

Lemma coordinator_inv_assign (s : MotherAgent.t) tid task :
  coordinator_inv s →
  coordinator_inv (MotherAgent.mk (PyDict.set tid task (MotherAgent.active_tasks s))
                                  (<[tid := ∅]> (MotherAgent.results_buffer s))).
Proof.
  intros [Hnd Hkeys Hopen]. split; simpl.
  - by apply PyDict_NoDup_set.
  - intros t. rewrite lookup_insert_is_Some, PyDict_elem_of_keys_set, Hkeys.
    destruct (decide (tid = t)); naive_solver.
  - intros t results. rewrite lookup_insert_Some. intros [[_ <-]|[_ Hres]].
    + rewrite map_size_empty. simpl. lia.
    + by eapply Hopen.
Qed.

Lemma coordinator_inv_keys (s : MotherAgent.t) tasks :
  coordinator_inv s →
  PyDict.keys tasks = PyDict.keys (MotherAgent.active_tasks s) →
  coordinator_inv (MotherAgent.mk tasks (MotherAgent.results_buffer s)).
Proof.
  intros [Hnd Hkeys Hopen] Heq. split; simpl; rewrite ?Heq; done.
Qed.

Lemma coordinator_inv_record (s : MotherAgent.t) tid results :
  coordinator_inv s →
  tid ∈ PyDict.keys (MotherAgent.active_tasks s) →
  (size results < length MotherAgent.platform_agents)%nat →
  coordinator_inv (MotherAgent.set_results_buffer (<[tid := results]>) s).
Proof.
  intros [Hnd Hkeys Hopen] Hin Hlt. split; simpl.
  - done.
  - intros t. rewrite lookup_insert_is_Some, <- Hkeys.
    destruct (decide (tid = t)) as [<-|]; [|naive_solver].
    split; [intros _; by apply Hkeys | by left].
  - intros t res. rewrite lookup_insert_Some. intros [[_ <-]|[_ Hres]]; [done|].
    by eapply Hopen.
Qed.

Lemma coordinator_inv_close (s : MotherAgent.t) tid :
  coordinator_inv s →
  coordinator_inv (MotherAgent.mk (PyDict.del tid (MotherAgent.active_tasks s))
                                  (delete tid (MotherAgent.results_buffer s))).
Proof.
  intros [Hnd Hkeys Hopen]. split; simpl.
  - by apply PyDict_NoDup_del.
  - intros t. rewrite lookup_delete_is_Some, PyDict_elem_of_keys_del, Hkeys by done.
    naive_solver.
  - intros t res. rewrite lookup_delete_Some. intros [_ Hres]. by eapply Hopen.
Qed.

Lemma mother_handler_inv now m (s : MotherAgent.t) :
  coordinator_inv s →
  outcome (mother_handler now m s) = Ok tt ∧
  coordinator_inv (after (mother_handler now m s)).
Proof.
  intros Hinv. unfold mother_handler, MotherAgent._message_handlers.
  destruct (AgentMessage.msg_type m).
  - split; [done|]. exact Hinv.
  - destruct (Payload.announcement (AgentMessage.payload m)) as [a|] eqn:Ha.
    + rewrite (task_assignment_run now m s a Ha). split; [done|].
      by apply coordinator_inv_assign.
    + rewrite (task_assignment_invalid now m s Ha). by split.
  - destruct (content_generated_step m s) as (Ho & _ & Hk & Hr). split; [done|].
    destruct (after _) as [tasks buffer]. simpl in *. subst buffer.
    by apply coordinator_inv_keys.
  - split; [done|]. exact Hinv.
  - pose proof (post_result_step m s Hinv) as Hstep. cbv zeta in Hstep.
    destruct (attributed m s) as [[[tid platform] result]|] eqn:Hattr.
    + destruct Hstep as (results & task & Hres & Htask & Hle & Ho & Hstep).
      split; [done|].
      destruct (bool_decide _) eqn:Hfull.
      * destruct Hstep as (-> & _). by apply coordinator_inv_close.
      * destruct Hstep as (-> & _). apply bool_decide_eq_false in Hfull.
        apply coordinator_inv_record; [done| |lia].
        apply PyDict_get_Some. by rewrite Htask.
    + destruct Hstep as (Ho & -> & _). by split.
  - split; [done|]. exact Hinv.
Qed.

Lemma step_receive (s : MotherAgent.t) d :
  MotherAgent.step s d
  = (after (MotherAgent.receive d.1 d.2 s), effects (MotherAgent.receive d.1 d.2 s)).
Proof.
  unfold MotherAgent.step, after, effects.
  by destruct (MotherAgent.receive d.1 d.2 s) as [[r s'] effs].
Qed.

Lemma run_cons (s : MotherAgent.t) d ds :
  MotherAgent.run s (d :: ds)
  = ((MotherAgent.run (MotherAgent.step s d).1 ds).1,
     (MotherAgent.step s d).2 ++ (MotherAgent.run (MotherAgent.step s d).1 ds).2).
Proof.
  simpl. destruct (MotherAgent.step s d) as [s1 e1]. simpl.
  by destruct (MotherAgent.run s1 ds) as [s2 e2].
Qed.

Lemma step_inv (s : MotherAgent.t) d :
  coordinator_inv s →
  outcome (MotherAgent.receive d.1 d.2 s) = Ok tt ∧
  coordinator_inv (MotherAgent.step s d).1.
Proof.
  intros Hinv. rewrite step_receive. simpl.
  destruct (receive_handler d.1 d.2 s) as (-> & -> & _).
  by apply mother_handler_inv.
Qed.

Lemma run_inv (s : MotherAgent.t) ds :
  coordinator_inv s → coordinator_inv (MotherAgent.run s ds).1.
Proof.
  revert s. induction ds as [|d ds IH]; intros s Hinv; [done|].
  rewrite run_cons. simpl. apply IH. by apply step_inv.
Qed.

Lemma finalizations_app tid e1 e2 :
  finalizations tid (e1 ++ e2) = (finalizations tid e1 + finalizations tid e2)%nat.
Proof.
  unfold finalizations. by rewrite finalized_app, filter_app, length_app.
Qed.

Lemma step_count tid (s : MotherAgent.t) d :
  coordinator_inv s →
  (finalizations tid (MotherAgent.step s d).2 + is_open tid (MotherAgent.step s d).1
   ≤ (if assigns tid d then 1 else 0) + is_open tid s)%nat.
Proof.
  intros Hinv. rewrite step_receive. cbn [fst snd]. unfold finalizations.
  destruct (receive_handler d.1 d.2 s) as (_ & -> & _ & -> & _).
  destruct d as [now m]. cbn [fst snd].
  unfold mother_handler, MotherAgent._message_handlers, assigns. cbn [fst snd].
  destruct (AgentMessage.msg_type m) eqn:Hty;
    try (rewrite bool_decide_eq_false_2 by (by intros [? _]));
    try (unfold MotherAgent.handle_message; act_run; simpl; lia).
  - destruct (Payload.announcement (AgentMessage.payload m)) as [a|] eqn:Ha.
    + rewrite (task_assignment_run now m s a Ha). simpl. unfold is_open. simpl.
      destruct (decide (tid ∈ PyDict.keys (PyDict.set _ _ _))) as [Hin|];
        [|destruct (bool_decide _); lia].
      apply PyDict_elem_of_keys_set in Hin as [->|Hin].
      * rewrite bool_decide_eq_true_2 by done. lia.
      * rewrite decide_True by done. destruct (bool_decide _); lia.
    + rewrite (task_assignment_invalid now m s Ha). unfold after. simpl. lia.
  - destruct (content_generated_step m s) as (_ & -> & Hk & _). simpl.
    unfold is_open. rewrite Hk. lia.
  - pose proof (post_result_step m s Hinv) as Hstep. cbv zeta in Hstep.
    destruct (attributed m s) as [[[tid0 platform] result]|] eqn:Hattr.
    + destruct Hstep as (results & task & Hres & Htask & Hle & Ho & Hstep).
      destruct (bool_decide _) eqn:Hfull.
      * destruct Hstep as (-> & _ & ->). unfold is_open. simpl.
        assert (Hin0 : tid0 ∈ PyDict.keys (MotherAgent.active_tasks s))
          by (apply PyDict_get_Some; by rewrite Htask).
        rewrite filter_cons, filter_nil.
        destruct (decide (tid0 = tid)) as [->|Hne]; simpl.
        -- rewrite (decide_True (P := tid ∈ PyDict.keys (MotherAgent.active_tasks s)))
             by done.
           rewrite decide_False; [lia|].
           rewrite PyDict_elem_of_keys_del by apply Hinv. naive_solver.
        -- destruct (decide (tid ∈ PyDict.keys (PyDict.del _ _))) as [Hin|]; [|lia].
           apply PyDict_elem_of_keys_del in Hin as [_ Hin]; [|apply Hinv].
           rewrite decide_True by done. lia.
      * destruct Hstep as (-> & _ & ->). unfold is_open. simpl. lia.
    + destruct Hstep as (_ & -> & _ & ->). simpl. lia.
Qed.

Lemma run_count tid (s : MotherAgent.t) ds :
  coordinator_inv s →
  (finalizations tid (MotherAgent.run s ds).2 + is_open tid (MotherAgent.run s ds).1
   ≤ assignments tid ds + is_open tid s)%nat.
Proof.
  revert s. induction ds as [|d ds IH]; intros s Hinv.
  - simpl. unfold finalizations, assignments. simpl. lia.
  - rewrite run_cons. simpl. rewrite finalizations_app.
    pose proof (step_count tid s d Hinv) as Hstep.
    pose proof (IH _ (proj2 (step_inv s d Hinv))) as Hrest.
    unfold assignments in *. rewrite filter_cons.
    destruct (assigns tid d); [rewrite decide_True by done|rewrite decide_False by done];
      simpl; lia.
Qed.

(* ===================================================================== *)
(** ** Task coordinator: the properties *)
(* ===================================================================== *)

(** C1 (the code at a failing input). With tasks "A" and "B" both in the
    posting state, a POST_RESULT that carries task_id "B" is recorded under
    "A", the first posting task in insertion order, and "B" records nothing;
    the reply a platform agent builds for a request of "B" carries no
    task_id at all. *)
Theorem post_result_misattributed :
  let s := Scenario.two_posting in
  let d := Scenario.post_result "TwitterAgent" (Some "B") "twitter" in
  let x := MotherAgent.receive d.1 d.2 s in
  let request :=
    envelope "MotherAgent" Scenario.clock "0123456789ab" "TwitterAgent" POST_REQUEST
      (post_request_payload (Scenario.work_item "B")
         (Scenario.content (Scenario.work_item "B")) "TwitterAgent") in
  let reply :=
    PlatformAgent._handle_post_request "twitter" (fun _ => Scenario.posted "twitter")
      request tt in
  (Task.status <$> PyDict.get "A" (MotherAgent.active_tasks s)) = Some "posting" ∧
  (Task.status <$> PyDict.get "B" (MotherAgent.active_tasks s)) = Some "posting" ∧
  Payload.task_id (AgentMessage.payload d.2) = Some "B" ∧
  MotherAgent.results_buffer s !! "A" = Some ∅ ∧
  MotherAgent.results_buffer (after x) !! "A"
    = Some {[ "twitter" := Scenario.posted "twitter" ]} ∧
  MotherAgent.results_buffer (after x) !! "B" = Some ∅ ∧
  Payload.task_id (AgentMessage.payload request) = Some "B" ∧
  sends (effects reply)
    = [("MotherAgent", POST_RESULT,
        Payload.mk None None None None None None None None
          (Some "twitter") (Some (Scenario.posted "twitter")) None None None)].
Proof. vm_compute. split_and!; reflexivity. Qed.

(** C2 (counterexample). Task "a1" is in the posting state with one result
    recorded; a second TASK_ASSIGNMENT for "a1" is neither rejected nor
    merged: without any warning the record is replaced by a fresh one and
    the recorded result is discarded. *)
Lemma duplicate_assignment_overwrites :
  let s := Scenario.in_flight in
  let m := (Scenario.assignment "a1").2 in
  let x := MotherAgent.receive Scenario.later m s in
  PyDict.get "a1" (MotherAgent.active_tasks s)
    = Some (Task.mk (Scenario.work_item "a1") "posting" Scenario.clock
              (Some (Scenario.content (Scenario.work_item "a1"))) ∅) ∧
  MotherAgent.results_buffer s !! "a1"
    = Some {[ "twitter" := Scenario.posted "twitter" ]} ∧
  PyDict.get "a1" (MotherAgent.active_tasks (after x))
    = Some (Task.mk (Scenario.work_item "a1") "generating_content" Scenario.later None ∅) ∧
  MotherAgent.results_buffer (after x) !! "a1" = Some ∅ ∧
  warnings (effects x) = [] ∧
  ¬ (PyDict.get "a1" (MotherAgent.active_tasks (after x))
     = PyDict.get "a1" (MotherAgent.active_tasks s)).
Proof. vm_compute. split_and!; try reflexivity. discriminate. Qed.

(** C2 (amended). After any sequence of deliveries the task records have
    distinct ids.  A TASK_ASSIGNMENT for an announcement, whether or not its
    id already has a record, stores a fresh record in the
    generating_content state under that id, resets the results of that id
    to empty and logs no warning; a record that existed keeps its place
    among the keys, and the records and results of other ids are
    untouched. *)
Theorem assignment_replaces_record ds now m a :
  let self := (MotherAgent.run MotherAgent.__init__ ds).1 in
  let x := MotherAgent.receive now m self in
  let tid := AwardAnnouncement.id a in
  AgentMessage.msg_type m = TASK_ASSIGNMENT →
  Payload.announcement (AgentMessage.payload m) = Some a →
  NoDup (PyDict.keys (MotherAgent.active_tasks self)) ∧
  NoDup (PyDict.keys (MotherAgent.active_tasks (after x))) ∧
  outcome x = Ok tt ∧
  PyDict.get tid (MotherAgent.active_tasks (after x))
    = Some (Task.mk a "generating_content" now None ∅) ∧
  MotherAgent.results_buffer (after x) !! tid = Some ∅ ∧
  warnings (effects x) = [] ∧
  (tid ∈ PyDict.keys (MotherAgent.active_tasks self) →
   PyDict.keys (MotherAgent.active_tasks (after x))
   = PyDict.keys (MotherAgent.active_tasks self)) ∧
  (∀ tid', tid' ≠ tid →
     PyDict.get tid' (MotherAgent.active_tasks (after x))
     = PyDict.get tid' (MotherAgent.active_tasks self) ∧
     MotherAgent.results_buffer (after x) !! tid'
     = MotherAgent.results_buffer self !! tid').
Proof.
  intros self x tid Hty Ha.
  assert (Hinv : coordinator_inv self) by apply run_inv, coordinator_inv_init.
  destruct (receive_handler now m self) as (Ho & Hs & _ & _ & Hw).
  subst x. rewrite Ho, Hs, Hw. clear Ho Hs Hw.
  unfold mother_handler, MotherAgent._message_handlers. rewrite Hty.
  rewrite (task_assignment_run now m self a Ha). unfold outcome, after, effects. simpl.
  split_and!.
  - apply Hinv.
  - apply PyDict_NoDup_set, Hinv.
  - done.
  - apply PyDict_get_set_eq.
  - apply lookup_insert_eq.
  - done.
  - apply PyDict_keys_set_in.
  - intros tid' Hne. split.
    + by apply PyDict_get_set_ne.
    + by apply lookup_insert_ne.
Qed.

Lemma assignment_replaces_record_witness :
  let ds := [Scenario.assignment "a1"; Scenario.generated "a1";
             Scenario.post_result "TwitterAgent" None "twitter"] in
  let m := (Scenario.assignment "a1").2 in
  let x := MotherAgent.receive Scenario.later m (MotherAgent.run MotherAgent.__init__ ds).1 in
  PyDict.get "a1" (MotherAgent.active_tasks (after x))
    = Some (Task.mk (Scenario.work_item "a1") "generating_content" Scenario.later None ∅) ∧
  MotherAgent.results_buffer (after x) !! "a1" = Some ∅.
Proof.
  intros ds m x.
  destruct (assignment_replaces_record ds Scenario.later m (Scenario.work_item "a1")
              eq_refl eq_refl) as (_ & _ & _ & Hget & Hres & _).
  split; [exact Hget | exact Hres].
Defined.

Lemma report_only_from_post_result now m (s : MotherAgent.t) :
  AgentMessage.msg_type m ≠ POST_RESULT →
  MotherAgent.finalized (effects (mother_handler now m s)) = [].
Proof.
  intros Hty. unfold mother_handler, MotherAgent._message_handlers.
  destruct (AgentMessage.msg_type m); try done.
  - destruct (Payload.announcement (AgentMessage.payload m)) as [a|] eqn:Ha.
    + by rewrite (task_assignment_run now m s a Ha).
    + by rewrite (task_assignment_invalid now m s Ha).
  - by destruct (content_generated_step m s) as (_ & -> & _).
Qed.

(** The handler never reads the [task_id] of the payload. *)
Lemma post_result_ignores_task_id m m' (s : MotherAgent.t) :
  Payload.platform (AgentMessage.payload m) = Payload.platform (AgentMessage.payload m') →
  Payload.result (AgentMessage.payload m) = Payload.result (AgentMessage.payload m') →
  MotherAgent._handle_post_result m s = MotherAgent._handle_post_result m' s.
Proof.
  intros Hp Hr. unfold MotherAgent._handle_post_result. cbv zeta. by rewrite Hp, Hr.
Qed.

(** What a handler run that sends a completion report looks like. *)
Lemma report_sent now m (s : MotherAgent.t) tid :
  coordinator_inv s →
  tid ∈ MotherAgent.finalized (effects (mother_handler now m s)) →
  AgentMessage.msg_type m = POST_RESULT ∧
  ∃ platform result results,
    attributed m s = Some (tid, platform, result) ∧
    MotherAgent.results_buffer s !! tid = Some results ∧
    size (<[platform := result]> results) = length MotherAgent.platform_agents ∧
    tid ∈ PyDict.keys (MotherAgent.active_tasks s) ∧
    MotherAgent.finalized (effects (mother_handler now m s)) = [tid] ∧
    sends (effects (mother_handler now m s))
    = [("FatherAgent", STATUS_UPDATE,
        report_payload tid (<[platform := result]> results))] ∧
    after (mother_handler now m s)
    = MotherAgent.mk (PyDict.del tid (MotherAgent.active_tasks s))
                     (delete tid (MotherAgent.results_buffer s)).
Proof.
  intros Hinv Hin.
  destruct (decide (AgentMessage.msg_type m = POST_RESULT)) as [Hty|Hty];
    [|by rewrite report_only_from_post_result in Hin by done;
        apply elem_of_nil in Hin].
  split; [done|]. revert Hin.
  unfold mother_handler, MotherAgent._message_handlers. rewrite Hty.
  pose proof (post_result_step m s Hinv) as Hstep. cbv zeta in Hstep.
  destruct (attributed m s) as [[[tid0 platform] result]|] eqn:Hattr.
  - destruct Hstep as (results & task & Hres & Htask & Hle & Ho & Hstep).
    destruct (bool_decide _) eqn:Hfull.
    + destruct Hstep as (Hs & Hsends & Hf). rewrite Hf.
      intros ->%list_elem_of_singleton.
      apply bool_decide_eq_true in Hfull.
      exists platform, result, results. split_and!; try done.
      * lia.
      * apply PyDict_get_Some. by rewrite Htask.
    + destruct Hstep as (_ & _ & ->). by intros ?%elem_of_nil.
  - destruct Hstep as (_ & _ & _ & ->). by intros ?%elem_of_nil.
Qed.

(** C3. After any sequence of deliveries, a handler run sends the
    completion report of task [tid] exactly when it is the run of
    [_handle_post_result] that records, for [tid], the result that brings the
    number of its recorded results to the number of platform agents.  Such a
    run sends that single report, carrying as many results as there are
    platform agents, and deletes the record of [tid] together with its
    results; and over a whole sequence of deliveries there are at most as
    many reports for [tid] as there were assignments of [tid]. *)
Theorem finalization_exactly_once ds now m :
  let self := (MotherAgent.run MotherAgent.__init__ ds).1 in
  let x := MotherAgent.receive now m self in
  (∀ tid,
     tid ∈ MotherAgent.finalized (effects x) ↔
     AgentMessage.msg_type m = POST_RESULT ∧
     ∃ platform result results,
       Payload.platform (AgentMessage.payload m) = Some platform ∧ platform ≠ "" ∧
       Payload.result (AgentMessage.payload m) = Some result ∧
       MotherAgent.first_posting (MotherAgent.active_tasks self) = Some tid ∧
       tid ≠ "" ∧
       MotherAgent.results_buffer self !! tid = Some results ∧
       size (<[platform := result]> results) = length MotherAgent.platform_agents) ∧
  (∀ tid,
     tid ∈ MotherAgent.finalized (effects x) →
     MotherAgent.finalized (effects x) = [tid] ∧
     (∃ p, sends (effects x) = [("FatherAgent", STATUS_UPDATE, p)] ∧
           Payload.announcement_id p = Some tid ∧
           (size <$> Payload.results p) = Some (length MotherAgent.platform_agents)) ∧
     tid ∈ PyDict.keys (MotherAgent.active_tasks self) ∧
     (tid ∉ PyDict.keys (MotherAgent.active_tasks (after x))) ∧
     MotherAgent.results_buffer (after x) !! tid = None) ∧
  (∀ tid,
     (finalizations tid (MotherAgent.run MotherAgent.__init__ ds).2
      ≤ assignments tid ds)%nat).
Proof.
  intros self x.
  assert (Hinv : coordinator_inv self) by apply run_inv, coordinator_inv_init.
  destruct (receive_handler now m self) as (Ho & Hs & Hsends & Hf & _).
  subst x. rewrite Hs, Hsends, Hf. clear Ho Hs Hsends Hf.
  split_and!.
  - intros tid. split.
    + intros Hin. destruct (report_sent now m self tid Hinv Hin)
        as (Hty & platform & result & results & Hattr & Hres & Hsize & _).
      apply attributed_Some in Hattr as (? & ? & ? & ? & ?).
      split; [done|]. by exists platform, result, results.
    + intros (Hty & platform & result & results & Hp & Hpne & Hr & Hfirst & Htne
              & Hres & Hsize).
      unfold mother_handler, MotherAgent._message_handlers. rewrite Hty.
      pose proof (post_result_step m self Hinv) as Hstep. cbv zeta in Hstep.
      rewrite (proj2 (attributed_Some m self tid platform result)) in Hstep by done.
      destruct Hstep as (results' & task & Hres' & _ & _ & _ & Hstep).
      assert (results' = results) as -> by congruence.
      rewrite bool_decide_eq_true_2 in Hstep by lia.
      destruct Hstep as (_ & _ & ->). by apply list_elem_of_singleton.
  - intros tid Hin. destruct (report_sent now m self tid Hinv Hin)
      as (Hty & platform & result & results & Hattr & Hres & Hsize & Hkey & Hf
          & Hsends & Hs).
    rewrite Hf, Hsends, Hs. simpl. split_and!; try done.
    + eexists. split_and!; [done|done|]. simpl. by rewrite map_size_fmap, Hsize.
    + rewrite PyDict_elem_of_keys_del by apply Hinv. naive_solver.
    + apply lookup_delete_eq.
  - intros tid.
    pose proof (run_count tid MotherAgent.__init__ ds coordinator_inv_init) as Hcount.
    unfold is_open at 2 in Hcount. simpl in Hcount. lia.
Qed.

Lemma finalization_exactly_once_witness :
  let d := Scenario.post_result "RedditAgent" None "reddit" in
  let self := (MotherAgent.run MotherAgent.__init__ Scenario.four_results).1 in
  let x := MotherAgent.receive d.1 d.2 self in
  "a1" ∈ MotherAgent.finalized (effects x) ∧
  MotherAgent.finalized (effects x) = ["a1"] ∧
  MotherAgent.results_buffer (after x) !! "a1" = None.
Proof.
  intros d self x.
  assert (Hin : "a1" ∈ MotherAgent.finalized (effects x))
    by (vm_compute; apply list_elem_of_singleton; reflexivity).
  destruct (proj1 (proj2 (finalization_exactly_once Scenario.four_results d.1 d.2))
              "a1" Hin) as (Hf & _ & _ & _ & Hres).
  split_and!; [exact Hin | exact Hf | exact Hres].
Defined.

(** What one handler run does to the two dictionaries, from a state that
    satisfies the invariant: it opens the record and the empty results of one
    id, or it closes both for one id and reports it, or it leaves the keys
    of the records as they are and changes results of open ids only. *)
Lemma mother_handler_cases now m (s : MotherAgent.t) :
  coordinator_inv s →
  let x := mother_handler now m s in
  (∃ a, AgentMessage.msg_type m = TASK_ASSIGNMENT ∧
        Payload.announcement (AgentMessage.payload m) = Some a ∧
        MotherAgent.finalized (effects x) = [] ∧
        after x = MotherAgent.mk
                    (PyDict.set (AwardAnnouncement.id a)
                       (Task.mk a "generating_content" now None ∅)
                       (MotherAgent.active_tasks s))
                    (<[AwardAnnouncement.id a := ∅]> (MotherAgent.results_buffer s))) ∨
  (∃ tid, AgentMessage.msg_type m = POST_RESULT ∧
          tid ∈ PyDict.keys (MotherAgent.active_tasks s) ∧
          MotherAgent.finalized (effects x) = [tid] ∧
          after x = MotherAgent.mk (PyDict.del tid (MotherAgent.active_tasks s))
                                   (delete tid (MotherAgent.results_buffer s))) ∨
  ((AgentMessage.msg_type m = TASK_ASSIGNMENT →
    Payload.announcement (AgentMessage.payload m) = None) ∧
   MotherAgent.finalized (effects x) = [] ∧
   PyDict.keys (MotherAgent.active_tasks (after x))
   = PyDict.keys (MotherAgent.active_tasks s) ∧
   (∀ tid, MotherAgent.results_buffer (after x) !! tid
           ≠ MotherAgent.results_buffer s !! tid →
           tid ∈ PyDict.keys (MotherAgent.active_tasks s) ∧
           is_Some (MotherAgent.results_buffer (after x) !! tid))).
Proof.
  intros Hinv x. subst x. unfold mother_handler, MotherAgent._message_handlers.
  destruct (AgentMessage.msg_type m) eqn:Hty.
  - right; right. split_and!; try done.
  - destruct (Payload.announcement (AgentMessage.payload m)) as [a|] eqn:Ha.
    + left. exists a. rewrite (task_assignment_run now m s a Ha). by split_and!.
    + right; right. rewrite (task_assignment_invalid now m s Ha). by split_and!.
  - right; right. destruct (content_generated_step m s) as (_ & Hf & Hk & Hr).
    split_and!; try done. intros tid Hne. by rewrite Hr in Hne.
  - right; right. split_and!; try done.
  - pose proof (post_result_step m s Hinv) as Hstep. cbv zeta in Hstep.
    destruct (attributed m s) as [[[tid platform] result]|] eqn:Hattr.
    + destruct Hstep as (results & task & Hres & Htask & Hle & Ho & Hstep).
      assert (Hopen : tid ∈ PyDict.keys (MotherAgent.active_tasks s))
        by (apply PyDict_get_Some; by rewrite Htask).
      destruct (bool_decide _) eqn:Hfull.
      * right; left. exists tid. destruct Hstep as (-> & _ & ->). by split_and!.
      * right; right. destruct Hstep as (-> & _ & ->).
        split_and!; try done.
        intros tid'. unfold MotherAgent.set_results_buffer.
        cbn [MotherAgent.results_buffer].
        destruct (decide (tid = tid')) as [<-|Hne].
        -- rewrite lookup_insert_eq. intros _. by split.
        -- by rewrite lookup_insert_ne.
    + right; right. destruct Hstep as (_ & -> & _ & ->). split_and!; try done.
  - right; right. split_and!; try done.
Qed.

(** C8. After any sequence of deliveries to the task coordinator, hence
    after every complete handler run, [results_buffer] and [active_tasks]
    have the same keys; from such a state no handler run raises, and the
    state it leaves again has the same keys in both.  The two entries of an
    id come and go together: a run adds the record of an id exactly when it
    adds its results entry, and removes the one exactly when it removes the
    other.  A TASK_ASSIGNMENT that carries an announcement does create both,
    the record in state generating_content and an empty results entry, and
    no other message creates a record.  A POST_RESULT changes the results of
    no id that has no record.  Every id a run reports as finalized had a
    record and has neither entry afterwards, and a record disappears only by
    being finalized; [_finalize_task] on an open id does delete both entries
    and those of no other id. *)
Theorem results_buffer_keys_follow_active_tasks ds :
  let self := (MotherAgent.run MotherAgent.__init__ ds).1 in
  let records (s : MotherAgent.t) := PyDict.keys (MotherAgent.active_tasks s) in
  let results (s : MotherAgent.t) := MotherAgent.results_buffer s in
  (∀ tid, is_Some (results self !! tid) ↔ tid ∈ records self) ∧
  dom (results self) = list_to_set (records self) ∧
  (∀ now m,
     let x := MotherAgent.receive now m self in
     outcome x = Ok tt ∧
     dom (results (after x)) = list_to_set (records (after x)) ∧
     (∀ tid, ((tid ∉ records self) ∧ tid ∈ records (after x)) ↔
             (results self !! tid = None ∧ is_Some (results (after x) !! tid))) ∧
     (∀ tid, (tid ∈ records self ∧ (tid ∉ records (after x))) ↔
             (is_Some (results self !! tid) ∧ results (after x) !! tid = None)) ∧
     (∀ a, AgentMessage.msg_type m = TASK_ASSIGNMENT →
           Payload.announcement (AgentMessage.payload m) = Some a →
           PyDict.get (AwardAnnouncement.id a) (MotherAgent.active_tasks (after x))
           = Some (Task.mk a "generating_content" now None ∅) ∧
           results (after x) !! AwardAnnouncement.id a = Some ∅) ∧
     (∀ tid, tid ∉ records self → tid ∈ records (after x) →
             AgentMessage.msg_type m = TASK_ASSIGNMENT ∧
             ∃ a, Payload.announcement (AgentMessage.payload m) = Some a ∧
                  AwardAnnouncement.id a = tid) ∧
     (∀ tid, AgentMessage.msg_type m = POST_RESULT →
             results (after x) !! tid ≠ results self !! tid → tid ∈ records self) ∧
     (∀ tid, tid ∈ MotherAgent.finalized (effects x) →
             tid ∈ records self ∧ (tid ∉ records (after x)) ∧
             results (after x) !! tid = None) ∧
     (∀ tid, tid ∈ records self → tid ∉ records (after x) →
             tid ∈ MotherAgent.finalized (effects x))) ∧
  (∀ tid, tid ∈ records self →
     let y := MotherAgent._finalize_task tid self in
     outcome y = Ok tt ∧ MotherAgent.finalized (effects y) = [tid] ∧
     (tid ∉ records (after y)) ∧ results (after y) !! tid = None ∧
     (∀ other, other ≠ tid →
        (other ∈ records (after y) ↔ other ∈ records self) ∧
        results (after y) !! other = results self !! other)).
Proof.
  intros self records results.
  assert (Hdom : ∀ s : MotherAgent.t, coordinator_inv s →
            dom (MotherAgent.results_buffer s)
            = list_to_set (PyDict.keys (MotherAgent.active_tasks s))).
  { intros s Hs. apply set_eq. intros tid.
    rewrite elem_of_dom, elem_of_list_to_set. apply Hs. }
  assert (Hinv : coordinator_inv self) by apply run_inv, coordinator_inv_init.
  split_and!.
  - apply Hinv.
  - by apply Hdom.
  - intros now m x. destruct (step_inv self (now, m) Hinv) as [Ho Hstep].
    rewrite step_receive in Hstep. cbn [fst snd] in Ho, Hstep. fold x in Ho, Hstep.
    assert (Hk : ∀ tid, is_Some (results self !! tid) ↔ tid ∈ records self)
      by apply Hinv.
    assert (Hk' : ∀ tid, is_Some (results (after x) !! tid) ↔ tid ∈ records (after x))
      by apply Hstep.
    assert (HNone : ∀ (s : MotherAgent.t) tid,
              results s !! tid = None ↔ ¬ is_Some (results s !! tid)).
    { intros s tid. rewrite eq_None_not_Some. done. }
    pose proof (mother_handler_cases now m self Hinv) as Hcases. cbv zeta in Hcases.
    destruct (receive_handler now m self) as (_ & Hafter & _ & Hfin & _).
    fold x in Hafter, Hfin. rewrite <- Hafter, <- Hfin in Hcases.
    split_and!.
    + exact Ho.
    + by apply Hdom.
    + intros tid. rewrite HNone, Hk, Hk'. done.
    + intros tid. rewrite HNone, Hk, Hk'. done.
    + intros a Hty Ha.
      destruct Hcases as [(a' & _ & Ha' & _ & ->) | [(tid & Hty' & _) | (Hnone & _)]].
      * rewrite Ha in Ha'. injection Ha' as <-.
        unfold results. cbn [MotherAgent.active_tasks MotherAgent.results_buffer].
        split; [apply PyDict_get_set_eq | apply lookup_insert_eq].
      * congruence.
      * rewrite (Hnone Hty) in Ha. discriminate.
    + intros tid Hnew Hin.
      destruct Hcases as [(a & Hty & Ha & _ & Hx) | [(t & _ & _ & _ & Hx) | (_ & _ & Hkeys & _)]].
      * split; [done|]. exists a. split; [done|].
        unfold records in Hin. rewrite Hx in Hin. cbn [MotherAgent.active_tasks] in Hin.
        apply PyDict_elem_of_keys_set in Hin as [->|Hin]; [done|by destruct Hnew].
      * unfold records in Hin. rewrite Hx in Hin. cbn [MotherAgent.active_tasks] in Hin.
        apply PyDict_elem_of_keys_del in Hin as [_ Hin]; [|apply Hinv]. by destruct Hnew.
      * unfold records in Hin. rewrite Hkeys in Hin. by destruct Hnew.
    + intros tid Hty Hne.
      destruct Hcases as [(a & Hty' & _) | [(t & _ & Ht & _ & Hx) | (_ & _ & _ & Hch)]].
      * congruence.
      * unfold results in Hne. rewrite Hx in Hne. cbn [MotherAgent.results_buffer] in Hne.
        destruct (decide (t = tid)) as [<-|Hd]; [done|].
        by rewrite lookup_delete_ne in Hne.
      * by apply Hch.
    + intros tid Hin.
      destruct Hcases as [(a & _ & _ & Hf & _) | [(t & _ & Ht & Hf & Hx) | (_ & Hf & _)]].
      * rewrite Hf in Hin. by apply elem_of_nil in Hin.
      * rewrite Hf in Hin. apply list_elem_of_singleton in Hin as ->.
        unfold records, results. rewrite Hx.
        cbn [MotherAgent.active_tasks MotherAgent.results_buffer].
        split_and!; [done| |apply lookup_delete_eq].
        rewrite PyDict_elem_of_keys_del by apply Hinv. by intros [? _].
      * rewrite Hf in Hin. by apply elem_of_nil in Hin.
    + intros tid Hin Hout.
      destruct Hcases as [(a & _ & _ & _ & Hx) | [(t & _ & Ht & Hf & Hx) | (_ & _ & Hkeys & _)]].
      * destruct Hout. unfold records. rewrite Hx. cbn [MotherAgent.active_tasks].
        apply PyDict_elem_of_keys_set. by right.
      * rewrite Hf. apply list_elem_of_singleton.
        destruct (decide (tid = t)) as [->|Hd]; [done|].
        destruct Hout. unfold records. rewrite Hx. cbn [MotherAgent.active_tasks].
        rewrite PyDict_elem_of_keys_del by apply Hinv. done.
      * destruct Hout. unfold records. by rewrite Hkeys.
  - intros tid Hin y.
    apply PyDict_get_Some in Hin as [task Htask].
    destruct (finalize_task_run tid task self Htask) as (Ho & Hafter & _ & Hf & _).
    fold y in Ho, Hafter, Hf. unfold records, results. rewrite Hafter.
    cbn [MotherAgent.active_tasks MotherAgent.results_buffer].
    split_and!; [done|done| |apply lookup_delete_eq|].
    + rewrite PyDict_elem_of_keys_del by apply Hinv. by intros [? _].
    + intros other Hne. split.
      * rewrite PyDict_elem_of_keys_del by apply Hinv. naive_solver.
      * by apply lookup_delete_ne.
Qed.

Lemma results_buffer_keys_follow_active_tasks_witness :
  let opened := after (MotherAgent.receive (Scenario.assignment "a1").1
                         (Scenario.assignment "a1").2 MotherAgent.__init__) in
  let last := Scenario.post_result "RedditAgent" None "reddit" in
  let before := (MotherAgent.run MotherAgent.__init__ Scenario.four_results).1 in
  let closed := after (MotherAgent.receive last.1 last.2 before) in
  (MotherAgent.results_buffer opened !! "a1" = Some ∅ ∧
   is_Some (PyDict.get "a1" (MotherAgent.active_tasks opened))) ∧
  ("a1" ∈ PyDict.keys (MotherAgent.active_tasks before) ∧
   ("a1" ∉ PyDict.keys (MotherAgent.active_tasks closed)) ∧
   MotherAgent.results_buffer closed !! "a1" = None).
Proof.
  intros opened last before closed. split.
  - destruct (proj2 (proj2 (results_buffer_keys_follow_active_tasks [])))
      as [Hrun _].
    destruct (Hrun (Scenario.assignment "a1").1 (Scenario.assignment "a1").2)
      as (_ & _ & _ & _ & Hcreate & _).
    destruct (Hcreate (Scenario.work_item "a1") eq_refl eq_refl) as [Hrec Hres].
    split; [exact Hres|]. exact (ex_intro _ _ Hrec).
  - destruct (proj2 (proj2 (results_buffer_keys_follow_active_tasks Scenario.four_results)))
      as [Hrun _].
    destruct (Hrun last.1 last.2) as (_ & _ & _ & _ & _ & _ & _ & Hclose & _).
    apply Hclose. vm_compute. left.
Defined.

(** C10. A POST_RESULT whose payload has no platform or no result is dropped
    by the task coordinator: the handler returns at once, [active_tasks] and
    [results_buffer] are unchanged, nothing is sent and no task is
    finalized. *)
Theorem post_result_missing_field_dropped now m (self : MotherAgent.t) :
  AgentMessage.msg_type m = POST_RESULT →
  Payload.platform (AgentMessage.payload m) = None ∨
  Payload.result (AgentMessage.payload m) = None →
  MotherAgent._handle_post_result m self = (Ok tt, self, []) ∧
  outcome (MotherAgent.receive now m self) = Ok tt ∧
  after (MotherAgent.receive now m self) = self ∧
  sends (effects (MotherAgent.receive now m self)) = [] ∧
  MotherAgent.finalized (effects (MotherAgent.receive now m self)) = [].
Proof.
  intros Hty Hmissing.
  assert (Hrun : MotherAgent._handle_post_result m self = (Ok tt, self, [])).
  { unfold MotherAgent._handle_post_result. cbv zeta.
    destruct Hmissing as [-> | ->]; [done|].
    by destruct (Payload.platform _). }
  split; [exact Hrun|].
  destruct (receive_handler now m self) as (-> & -> & -> & -> & _).
  unfold mother_handler, MotherAgent._message_handlers. rewrite Hty, Hrun. done.
Qed.

Lemma post_result_missing_field_dropped_witness :
  let m := envelope "TwitterAgent" Scenario.clock "0123456789ab" "MotherAgent" POST_RESULT
             (Payload.mk None None None (Some "a1") None None None None
                (Some "twitter") None None None None) in
  after (MotherAgent.receive Scenario.later m Scenario.in_flight) = Scenario.in_flight.
Proof.
  intros m.
  exact (proj1 (proj2 (proj2 (post_result_missing_field_dropped Scenario.later m
                                Scenario.in_flight eq_refl (or_intror eq_refl))))).
Defined.

(* ===================================================================== *)
(** ** Message bus *)
(* ===================================================================== *)

Section BusFacts.
Context {W : Type}.
Implicit Types (bus : MessageBus.t W) (w : W).

Lemma run_callbacks_called callbacks message w :
  MessageBus.called (MessageBus.run_callbacks callbacks message w).2 = callbacks ∧
  MessageBus.logged_errors (MessageBus.run_callbacks callbacks message w).2
  = MessageBus.callback_errors (MessageBus.run_callbacks callbacks message w).2.
Proof.
  revert w. induction callbacks as [|callback rest IH]; intros w; simpl; [done|].
  destruct (callback message w) as [[u|e] w1];
    destruct (IH w1) as [Hc He];
    destruct (MessageBus.run_callbacks rest message w1) as [w2 evs];
    simpl in *; by rewrite Hc, He.
Qed.

Lemma subscribe_appends bus agent_name callback :
  MessageBus.subscribers (MessageBus.subscribe bus agent_name callback) !! agent_name
  = Some (default [] (MessageBus.subscribers bus !! agent_name) ++ [callback]).
Proof. unfold MessageBus.subscribe. simpl. apply lookup_insert_eq. Qed.

Lemma subscribe_other bus agent_name callback other :
  agent_name ≠ other →
  MessageBus.subscribers (MessageBus.subscribe bus agent_name callback) !! other
  = MessageBus.subscribers bus !! other.
Proof. intros Hne. unfold MessageBus.subscribe. simpl. by apply lookup_insert_ne. Qed.

(** C6 (amended). [subscribe] appends to the callbacks of a name.  When the
    bus handles a queued envelope and the delivery to the agent registered
    under the receiver's name, if there is one, returns, then every callback
    subscribed under that name is invoked, in registration order; each
    exception a callback raises is logged, none leaves [_process_message],
    and none keeps a later callback from being invoked. *)
Theorem callbacks_invoked_in_registration_order bus message w :
  (∀ agent, MessageBus.agents bus !! AgentMessage.receiver message = Some agent →
            (agent message w).1 = Ok tt) →
  let x := MessageBus._process_message bus message w in
  x.1.1 = Ok tt ∧
  MessageBus.called x.2
  = default [] (MessageBus.subscribers bus !! AgentMessage.receiver message) ∧
  MessageBus.logged_errors x.2 = MessageBus.callback_errors x.2 ∧
  (∀ callback,
     MessageBus.subscribers
       (MessageBus.subscribe bus (AgentMessage.receiver message) callback)
       !! AgentMessage.receiver message
     = Some (default [] (MessageBus.subscribers bus !! AgentMessage.receiver message)
             ++ [callback])).
Proof.
  intros Hagent x. subst x. unfold MessageBus._process_message.
  pose proof (run_callbacks_called
                (default [] (MessageBus.subscribers bus !! AgentMessage.receiver message))
                message) as Hcb.
  destruct (MessageBus.agents bus !! AgentMessage.receiver message) as [agent|] eqn:Hreg.
  - specialize (Hagent agent eq_refl).
    destruct (agent message w) as [[u|e] w1]; [|done].
    destruct (Hcb w1) as [Hc He].
    destruct (MessageBus.run_callbacks _ message w1) as [w2 evs]. simpl in *.
    split_and!; try done. intros callback. apply subscribe_appends.
  - destruct (Hcb w) as [Hc He].
    destruct (MessageBus.run_callbacks _ message w) as [w2 evs]. simpl in *.
    split_and!; try done. intros callback. apply subscribe_appends.
Qed.
End BusFacts.

Lemma callbacks_invoked_in_registration_order_witness :
  let first : MessageBus.Coroutine (list Effect) :=
    fun _ w => (Ok tt, w ++ [Log INFO "first"]) in
  let second : MessageBus.Coroutine (list Effect) :=
    fun _ w => (Raised (Exception "boom"), w ++ [Log INFO "second"]) in
  let third : MessageBus.Coroutine (list Effect) :=
    fun _ w => (Ok tt, w ++ [Log INFO "third"]) in
  let bus :=
    MessageBus.subscribe
      (MessageBus.subscribe
         (MessageBus.subscribe
            (MessageBus.register_agent MessageBus.__init__ "InstagramAgent"
               BusScenario.instagram_agent)
            "InstagramAgent" first)
         "InstagramAgent" second)
      "InstagramAgent" third in
  let x := MessageBus._process_message bus BusScenario.request [] in
  x.1.1 = Ok tt ∧
  MessageBus.called x.2 = [first; second; third] ∧
  MessageBus.logged_errors x.2 = ["回調執行錯誤: boom"].
Proof.
  intros first second third bus x.
  destruct (callbacks_invoked_in_registration_order bus BusScenario.request [])
    as (Ho & Hc & He & _).
  { intros agent Hreg. vm_compute in Hreg. injection Hreg as <-. reflexivity. }
  split_and!; [exact Ho | |].
  - fold x in Hc. rewrite Hc. reflexivity.
  - fold x in He. rewrite He. reflexivity.
Defined.

(** C6 (counterexample). An [InstagramAgent] with credentials is registered
    and a callback is subscribed under its name.  The envelope is a
    POST_REQUEST whose payload has no post and no image: [post] raises
    [AttributeError] before its [try], the exception leaves
    [receive_message] and [_process_message], and the callback is not
    invoked. *)
Lemma callbacks_skipped_when_delivery_raises :
  let x := MessageBus._process_message BusScenario.bus BusScenario.message [] in
  default [] (MessageBus.subscribers BusScenario.bus !! "InstagramAgent")
    = [BusScenario.callback] ∧
  MessageBus.called x.2 = [] ∧
  x.1.1 = Raised (AttributeError "'NoneType' object has no attribute 'image_url'") ∧
  ¬ (x.1.1 = Ok tt ∧
     MessageBus.called x.2
     = default [] (MessageBus.subscribers BusScenario.bus !! "InstagramAgent")).
Proof.
  vm_compute. split_and!; try reflexivity. intros [? _]. discriminate.
Qed.

(* ===================================================================== *)
(** ** Enrichment *)
(* ===================================================================== *)

Lemma sends_app e1 e2 : sends (e1 ++ e2) = sends e1 ++ sends e2.
Proof. unfold sends. by rewrite flat_map_app. Qed.

Lemma returns_ret {S A} (s : S) (v : A) : returns (ret v) s v.
Proof. by exists []. Qed.

Lemma returns_log {S} (s : S) level text : returns (emit (Log level text)) s tt.
Proof. by eexists. Qed.

Lemma returns_bind {S A B} (c : Act S A) (k : A → Act S B) s a b :
  returns c s a → returns (k a) s b → returns (bind c k) s b.
Proof.
  intros (e1 & Hc & Hs1) (e2 & Hk & Hs2). exists (e1 ++ e2).
  unfold bind. rewrite Hc, Hk. by rewrite sends_app, Hs1, Hs2.
Qed.

Lemma raises_bind_l {S A B} (c : Act S A) (k : A → Act S B) s :
  raises c s → raises (bind c k) s.
Proof.
  intros (e & e1 & Hc & Hs1). exists e, e1. unfold bind. by rewrite Hc.
Qed.

Lemma raises_bind_r {S A B} (c : Act S A) (k : A → Act S B) s a :
  returns c s a → raises (k a) s → raises (bind c k) s.
Proof.
  intros (e1 & Hc & Hs1) (e & e2 & Hk & Hs2). exists e, (e1 ++ e2).
  unfold bind. rewrite Hc, Hk. by rewrite sends_app, Hs1, Hs2.
Qed.

Lemma returns_try {S A} (c : Act S A) (h : Exn → Act S A) s v :
  returns c s v → returns (try_except c h) s v.
Proof.
  intros (e1 & Hc & Hs1). exists e1. unfold try_except. by rewrite Hc.
Qed.

Lemma returns_except {S A} (c : Act S A) (h : Exn → Act S A) s v :
  raises c s → (∀ e, returns (h e) s v) → returns (try_except c h) s v.
Proof.
  intros (e & e1 & Hc & Hs1) Hh. destruct (Hh e) as (e2 & Hk & Hs2).
  exists (e1 ++ e2). unfold try_except. rewrite Hc, Hk. by rewrite sends_app, Hs1, Hs2.
Qed.

Section ContentFacts.
Variable re_sub : string → string → bool → bool → string → string.
Variable re_findall : string → string → list string.
Variable str_strip : string → string.
Variable str_replace : string → string → string → string.





Lemma fallback_returns a s :
  returns (ContentAgent._fallback_generate a) s (ContentAgent.fallback a).
Proof. by eexists. Qed.

Lemma returns_get_self {S A} (k : S → Act S A) s v :
  returns (k s) s v → returns (bind get_self k) s v.
Proof.
  intros (effs & Hk & Hs). exists effs. unfold bind, get_self. by rewrite Hk.
Qed.


End ContentFacts.



(* ===================================================================== *)
(** ** Task coordinator: life cycle, results and rounds *)
(* ===================================================================== *)

Lemma PyDict_get_del_eq {K V} `{EqDecision K} (k : K) (d : list (K * V)) :
  NoDup (PyDict.keys d) → PyDict.get k (PyDict.del k d) = None.
Proof.
  intros Hnd. apply PyDict_get_None. rewrite PyDict_elem_of_keys_del by done.
  naive_solver.
Qed.

Lemma first_posting_status items tid :
  NoDup (PyDict.keys items) →
  MotherAgent.first_posting items = Some tid →
  ∃ task, PyDict.get tid items = Some task ∧ Task.status task = "posting".
Proof.
  induction items as [|[k task] items IH]; simpl; [done|].
  intros [Hnin Hnd]%NoDup_cons.
  destruct (decide (Task.status task = "posting")) as [Hs|Hs].
  - intros [= ->]. exists task. by rewrite decide_True.
  - intros Hf. destruct (IH Hnd Hf) as (task' & Hget & Hst).
    exists task'. rewrite decide_False; [done|].
    intros ->. apply Hnin. by apply first_posting_elem in Hf.
Qed.

Lemma lifecycle_step now m (s : MotherAgent.t) :
  coordinator_inv s → lifecycle_inv s →
  lifecycle_inv (after (mother_handler now m s)).
Proof.
  intros Hinv Hlife. unfold mother_handler, MotherAgent._message_handlers.
  destruct (AgentMessage.msg_type m); try exact Hlife.
  - destruct (Payload.announcement (AgentMessage.payload m)) as [a|] eqn:Ha.
    + rewrite (task_assignment_run now m s a Ha). mother_proj.
      intros tid task. destruct (decide (AwardAnnouncement.id a = tid)) as [<-|Hne].
      * rewrite PyDict_get_set_eq. intros [= <-]. left. mother_proj.
        by rewrite lookup_insert_eq.
      * rewrite PyDict_get_set_ne by done. intros Hget.
        destruct (Hlife tid task Hget) as [(? & ? & ?)|?]; [left|by right].
        by rewrite lookup_insert_ne.
    + by rewrite (task_assignment_invalid now m s Ha).
  - destruct (Payload.announcement (AgentMessage.payload m)) as [a|] eqn:Ha;
      [destruct (Payload.generated_content (AgentMessage.payload m)) as [c|] eqn:Hc;
       [destruct (PyDict.get (AwardAnnouncement.id a) (MotherAgent.active_tasks s))
          as [task0|] eqn:Hget0|]|].
    + destruct (content_generated_run m s a c task0 Ha Hc Hget0) as (_ & -> & _).
      mother_proj. intros tid task.
      destruct (decide (AwardAnnouncement.id a = tid)) as [<-|Hne].
      * rewrite PyDict_get_set_eq. intros [= <-]. right. mother_proj. by split.
      * rewrite PyDict_get_set_ne by done. apply Hlife.
    + destruct (content_generated_dropped m s) as (_ & -> & _); [|done].
      intros a' c' task' Ha' Hc' Hget'. congruence.
    + destruct (content_generated_dropped m s) as (_ & -> & _); [|done].
      intros a' c' task' Ha' Hc' Hget'. congruence.
    + destruct (content_generated_dropped m s) as (_ & -> & _); [|done].
      intros a' c' task' Ha' Hc' Hget'. congruence.
  - pose proof (post_result_step m s Hinv) as Hstep. cbv zeta in Hstep.
    destruct (attributed m s) as [[[tid0 platform] result]|] eqn:Hattr.
    + destruct Hstep as (results & task0 & Hres & Htask & Hle & Ho & Hstep).
      apply attributed_Some in Hattr as (_ & _ & _ & Hfirst & _).
      destruct (first_posting_status _ _ (inv_nodup _ Hinv) Hfirst) as (task1 & Hget1 & Hst1).
      destruct (bool_decide _).
      * destruct Hstep as (-> & _). mother_proj. intros tid task.
        destruct (decide (tid0 = tid)) as [<-|Hne].
        -- rewrite PyDict_get_del_eq by apply Hinv. done.
        -- rewrite PyDict_get_del_ne by done. intros Hget.
           destruct (Hlife tid task Hget) as [(? & ? & ?)|?]; [left|by right].
           by rewrite lookup_delete_ne.
      * destruct Hstep as (-> & _). mother_proj. intros tid task Hget.
        destruct (decide (tid0 = tid)) as [<-|Hne].
        -- right. assert (task = task1) as -> by congruence.
           destruct (Hlife tid0 task1 Hget) as [(Hgen & _)|?]; [congruence|done].
        -- destruct (Hlife tid task Hget) as [(? & ? & ?)|?]; [left|by right].
           by rewrite lookup_insert_ne.
    + by destruct Hstep as (_ & -> & _).
Qed.

Lemma lifecycle_run ds (s : MotherAgent.t) :
  coordinator_inv s → lifecycle_inv s →
  lifecycle_inv (MotherAgent.run s ds).1.
Proof.
  revert s. induction ds as [|d ds IH]; intros s Hinv Hlife; [done|].
  rewrite run_cons. simpl. apply IH.
  - by apply step_inv.
  - rewrite step_receive. simpl.
    destruct (receive_handler d.1 d.2 s) as (_ & -> & _).
    by apply lifecycle_step.
Qed.

(** X1. In every state the coordinator reaches, a task record is either
    waiting for its content, with no content and no recorded result, or
    posting, with its content. *)
Theorem task_records_follow_life_cycle ds tid task :
  let self := (MotherAgent.run MotherAgent.__init__ ds).1 in
  PyDict.get tid (MotherAgent.active_tasks self) = Some task →
  (Task.status task = "generating_content" ∧
   Task.generated_content task = None ∧
   MotherAgent.results_buffer self !! tid = Some ∅) ∨
  (Task.status task = "posting" ∧ is_Some (Task.generated_content task)).
Proof.
  intros self. apply lifecycle_run; [apply coordinator_inv_init|].
  intros t k. simpl. done.
Qed.

(** X2. A POST_RESULT changes the record and the results of no task other
    than the first posting one. *)
Theorem post_result_touches_only_first_posting ds now m tid :
  let self := (MotherAgent.run MotherAgent.__init__ ds).1 in
  let x := MotherAgent.receive now m self in
  AgentMessage.msg_type m = POST_RESULT →
  MotherAgent.first_posting (MotherAgent.active_tasks self) ≠ Some tid →
  PyDict.get tid (MotherAgent.active_tasks (after x))
  = PyDict.get tid (MotherAgent.active_tasks self) ∧
  MotherAgent.results_buffer (after x) !! tid = MotherAgent.results_buffer self !! tid.
Proof.
  intros self x Hty Hfirst.
  assert (Hinv : coordinator_inv self) by apply run_inv, coordinator_inv_init.
  subst x. destruct (receive_handler now m self) as (_ & -> & _).
  unfold mother_handler, MotherAgent._message_handlers. rewrite Hty.
  pose proof (post_result_step m self Hinv) as Hstep. cbv zeta in Hstep.
  destruct (attributed m self) as [[[tid0 platform] result]|] eqn:Hattr.
  - destruct Hstep as (results & task0 & Hres & Htask & Hle & Ho & Hstep).
    apply attributed_Some in Hattr as (_ & _ & _ & Hfirst0 & _).
    assert (Hne : tid0 ≠ tid) by congruence.
    destruct (bool_decide _).
    + destruct Hstep as (-> & _). mother_proj.
      by rewrite PyDict_get_del_ne, lookup_delete_ne.
    + destruct Hstep as (-> & _). mother_proj. by rewrite lookup_insert_ne.
  - by destruct Hstep as (_ & -> & _).
Qed.

(** X3. When the platform of a POST_RESULT already has a result recorded for
    the first posting task, the new result replaces it, the number of
    results stays the same and the task is not finalized. *)
Theorem repeated_platform_result_overwrites ds now m tid platform result results :
  let self := (MotherAgent.run MotherAgent.__init__ ds).1 in
  let x := MotherAgent.receive now m self in
  AgentMessage.msg_type m = POST_RESULT →
  Payload.platform (AgentMessage.payload m) = Some platform → platform ≠ "" →
  Payload.result (AgentMessage.payload m) = Some result →
  MotherAgent.first_posting (MotherAgent.active_tasks self) = Some tid → tid ≠ "" →
  MotherAgent.results_buffer self !! tid = Some results →
  is_Some (results !! platform) →
  MotherAgent.results_buffer (after x) !! tid = Some (<[platform := result]> results) ∧
  size (<[platform := result]> results) = size results ∧
  MotherAgent.active_tasks (after x) = MotherAgent.active_tasks self ∧
  MotherAgent.finalized (effects x) = [].
Proof.
  intros self x Hty Hp Hpne Hr Hfirst Htne Hres Hdup.
  assert (Hinv : coordinator_inv self) by apply run_inv, coordinator_inv_init.
  subst x. destruct (receive_handler now m self) as (_ & -> & _ & -> & _).
  unfold mother_handler, MotherAgent._message_handlers. rewrite Hty.
  pose proof (post_result_step m self Hinv) as Hstep. cbv zeta in Hstep.
  rewrite (proj2 (attributed_Some m self tid platform result)) in Hstep by done.
  destruct Hstep as (results' & task & Hres' & _ & _ & _ & Hstep).
  assert (results' = results) as -> by congruence.
  pose proof (map_size_insert_Some platform result results Hdup) as Hsize.
  pose proof (inv_open _ Hinv tid results Hres) as Hlt.
  rewrite bool_decide_eq_false_2 in Hstep by lia.
  destruct Hstep as (-> & _ & ->). mother_proj.
  by rewrite lookup_insert_eq.
Qed.

Lemma success_count_pos (results : gmap string PostResult.t) :
  0 < MotherAgent.success_count results ↔
  ∃ platform r, results !! platform = Some r ∧ PostResult.success r = true.
Proof.
  unfold MotherAgent.success_count. split.
  - intros Hpos.
    destruct (filter _ (map_to_list results)) as [|[platform r] l] eqn:Hf;
      [simpl in Hpos; lia|].
    assert (Hin : (platform, r) ∈ filter (fun kr => PostResult.success kr.2 = true)
                                         (map_to_list results))
      by (rewrite Hf; apply elem_of_cons; by left).
    apply list_elem_of_filter in Hin as [Hs Hin]. apply elem_of_map_to_list in Hin.
    by exists platform, r.
  - intros (platform & r & Hl & Hs).
    assert (Hin : (platform, r) ∈ filter (fun kr => PostResult.success kr.2 = true)
                                         (map_to_list results)).
    { apply list_elem_of_filter. split; [done|]. by apply elem_of_map_to_list. }
    destruct (filter _ (map_to_list results)); [by apply elem_of_nil in Hin|].
    simpl. lia.
Qed.

(** X4. The completion report of a task says "completed" exactly when some
    recorded result succeeded, and "failed" otherwise (also when nothing was
    recorded); its breakdown has one entry per recorded platform with the
    same success flag, url and error. *)
Theorem report_status_reflects_results tid task (self : MotherAgent.t) :
  PyDict.get tid (MotherAgent.active_tasks self) = Some task →
  let results := default ∅ (MotherAgent.results_buffer self !! tid) in
  ∃ p,
    sends (effects (MotherAgent._finalize_task tid self))
    = [("FatherAgent", STATUS_UPDATE, p)] ∧
    Payload.announcement_id p = Some tid ∧
    (Payload.status p = Some "completed" ↔
     ∃ platform r, results !! platform = Some r ∧ PostResult.success r = true) ∧
    (Payload.status p = Some "failed" ↔
     ∀ platform r, results !! platform = Some r → PostResult.success r = false) ∧
    ∃ breakdown,
      Payload.results p = Some breakdown ∧
      ∀ platform,
        breakdown !! platform
        = (fun r => ResultSummary.mk (PostResult.success r) (PostResult.url r)
                      (PostResult.error r)) <$> results !! platform.
Proof.
  intros Hget results.
  destruct (finalize_task_run tid task self Hget) as (_ & _ & Hsends & _).
  eexists. split; [exact Hsends|]. simpl. split; [done|].
  fold results. pose proof (success_count_pos results) as Hpos.
  destruct (0 <? MotherAgent.success_count results) eqn:Hlt.
  - apply Z.ltb_lt in Hlt. apply Hpos in Hlt as Hex. split_and!.
    + by split.
    + split; [done|]. intros Hall. destruct Hex as (pf & r & Hl & Hs).
      rewrite (Hall pf r Hl) in Hs. done.
    + eexists. split; [done|]. intros pf. by rewrite lookup_fmap.
  - apply Z.ltb_ge in Hlt. split_and!.
    + split; [done|]. intros Hex. apply Hpos in Hex. lia.
    + split; [|done]. intros _ pf r Hl.
      destruct (PostResult.success r) eqn:Hs; [|done].
      assert (0 < MotherAgent.success_count results) by (apply Hpos; by exists pf, r).
      lia.
    + eexists. split; [done|]. intros pf. by rewrite lookup_fmap.
Qed.

Lemma report_status_reflects_results_witness :
  let self := (MotherAgent.run MotherAgent.__init__ Scenario.four_results).1 in
  ∃ p,
    sends (effects (MotherAgent._finalize_task "a1" self))
    = [("FatherAgent", STATUS_UPDATE, p)] ∧
    Payload.status p = Some "completed".
Proof.
  intros self.
  destruct (report_status_reflects_results "a1"
              (Task.mk (Scenario.work_item "a1") "posting" Scenario.clock
                 (Some (Scenario.content (Scenario.work_item "a1"))) ∅)
              self eq_refl)
    as (p & Hsends & _ & Hcompleted & _).
  exists p. split; [exact Hsends|]. apply Hcompleted.
  exists "twitter", (Scenario.posted "twitter"). split; reflexivity.
Defined.

Lemma post_result_touches_only_first_posting_witness :
  let d := Scenario.post_result "TwitterAgent" None "twitter" in
  let x := MotherAgent.receive d.1 d.2 Scenario.two_posting in
  MotherAgent.results_buffer (after x) !! "B" = Some ∅.
Proof.
  intros d x.
  destruct (post_result_touches_only_first_posting
              [Scenario.assignment "A"; Scenario.generated "A";
               Scenario.assignment "B"; Scenario.generated "B"]
              d.1 d.2 "B" eq_refl) as [_ Hres].
  { vm_compute. discriminate. }
  exact (eq_trans Hres eq_refl).
Defined.

Lemma repeated_platform_result_overwrites_witness :
  let ds := [Scenario.assignment "a1"; Scenario.generated "a1";
             Scenario.post_result "TwitterAgent" None "twitter"] in
  let d := Scenario.post_result "TwitterAgent" None "twitter" in
  let x := MotherAgent.receive d.1 d.2 (MotherAgent.run MotherAgent.__init__ ds).1 in
  MotherAgent.finalized (effects x) = [] ∧
  size (<["twitter" := Scenario.posted "twitter"]>
          ({[ "twitter" := Scenario.posted "twitter" ]} : gmap string PostResult.t)) = 1%nat.
Proof.
  intros ds d x.
  destruct (repeated_platform_result_overwrites ds d.1 d.2 "a1" "twitter"
              (Scenario.posted "twitter") {[ "twitter" := Scenario.posted "twitter" ]}
              eq_refl eq_refl) as (_ & Hsize & _ & Hfin).
  - discriminate.
  - reflexivity.
  - reflexivity.
  - discriminate.
  - reflexivity.
  - by eexists.
  - split; [exact Hfin|]. rewrite Hsize. reflexivity.
Defined.

(** X5. A CONTENT_GENERATED whose announcement has no task record is dropped
    with a warning: nothing is dispatched and the state is unchanged. *)
Theorem content_for_unknown_task_dropped now m a c (self : MotherAgent.t) :
  AgentMessage.msg_type m = CONTENT_GENERATED →
  Payload.announcement (AgentMessage.payload m) = Some a →
  Payload.generated_content (AgentMessage.payload m) = Some c →
  PyDict.get (AwardAnnouncement.id a) (MotherAgent.active_tasks self) = None →
  let x := MotherAgent.receive now m self in
  outcome x = Ok tt ∧ after x = self ∧ sends (effects x) = [] ∧
  warnings (effects x) = ["[MotherAgent] 找不到任務: " +:+ AwardAnnouncement.id a].
Proof.
  intros Hty Ha Hc Hget x. subst x.
  unfold MotherAgent.receive, receive_message, MotherAgent._message_handlers.
  rewrite Hty. unfold MotherAgent._handle_content_generated. rewrite Ha, Hc.
  act_run. by rewrite Hget.
Qed.

Lemma content_for_unknown_task_dropped_witness :
  let d := Scenario.generated "zz" in
  after (MotherAgent.receive d.1 d.2 Scenario.in_flight) = Scenario.in_flight.
Proof.
  intros d.
  exact (proj1 (proj2 (content_for_unknown_task_dropped d.1 d.2 (Scenario.work_item "zz")
                         (Scenario.content (Scenario.work_item "zz"))
                         Scenario.in_flight eq_refl eq_refl eq_refl eq_refl))).
Defined.

(** X6. A CONTENT_GENERATED for an open task, whatever the state of the
    task, marks it posting with the new content and sends one POST_REQUEST to
    each platform agent in the order of [platform_agents]; every request
    carries the task id, the post and the image of the announcement, only
    the request to RedditAgent names a subreddit; the handler sleeps one
    second per request, and the recorded results are left as they are. *)
Theorem content_generated_dispatches now m a c task (self : MotherAgent.t) :
  AgentMessage.msg_type m = CONTENT_GENERATED →
  Payload.announcement (AgentMessage.payload m) = Some a →
  Payload.generated_content (AgentMessage.payload m) = Some c →
  PyDict.get (AwardAnnouncement.id a) (MotherAgent.active_tasks self) = Some task →
  let x := MotherAgent.receive now m self in
  map (fun s => (s.1.1, s.1.2)) (sends (effects x))
  = map (fun agent_name => (agent_name, POST_REQUEST)) MotherAgent.platform_agents ∧
  (∀ receiver ty p, (receiver, ty, p) ∈ sends (effects x) →
     Payload.task_id p = Some (AwardAnnouncement.id a) ∧
     Payload.post p = Some (MotherAgent._create_social_post a c) ∧
     Payload.image_url p = AwardAnnouncement.image_url a ∧
     (Payload.subreddit p = Some "nycu" ↔ receiver = "RedditAgent") ∧
     (Payload.subreddit p = None ↔ receiver ≠ "RedditAgent")) ∧
  slept (effects x) = Z.of_nat (length MotherAgent.platform_agents) ∧
  MotherAgent.results_buffer (after x) = MotherAgent.results_buffer self ∧
  PyDict.get (AwardAnnouncement.id a) (MotherAgent.active_tasks (after x))
  = Some (Task.mk (Task.announcement task) "posting" (Task.started_at task) (Some c)
            (Task.post_results task)) ∧
  PyDict.keys (MotherAgent.active_tasks (after x))
  = PyDict.keys (MotherAgent.active_tasks self).
Proof.
  intros Hty Ha Hc Hget x. subst x.
  unfold MotherAgent.receive, receive_message, MotherAgent._message_handlers.
  rewrite Hty. unfold MotherAgent._handle_content_generated. rewrite Ha, Hc.
  act_run. rewrite Hget. mother_proj. split_and!.
  - reflexivity.
  - intros receiver ty p Hin. simpl in Hin.
    repeat (apply elem_of_cons in Hin as [Hin|Hin];
            [injection Hin as -> -> ->; simpl;
             split_and!; try done; split; (done || congruence)|]).
    by apply elem_of_nil in Hin.
  - reflexivity.
  - reflexivity.
  - apply PyDict_get_set_eq.
  - apply PyDict_keys_set_in, PyDict_get_Some. by rewrite Hget.
Qed.

Lemma content_generated_dispatches_witness :
  let d := Scenario.generated "a1" in
  let x := MotherAgent.receive d.1 d.2 Scenario.in_flight in
  slept (effects x) = 5 ∧
  MotherAgent.results_buffer (after x) = MotherAgent.results_buffer Scenario.in_flight.
Proof.
  intros d x.
  destruct (content_generated_dispatches d.1 d.2 (Scenario.work_item "a1")
              (Scenario.content (Scenario.work_item "a1"))
              (Task.mk (Scenario.work_item "a1") "posting" Scenario.clock
                 (Some (Scenario.content (Scenario.work_item "a1"))) ∅)
              Scenario.in_flight eq_refl eq_refl eq_refl eq_refl)
    as (_ & _ & Hslept & Hres & _).
  split; [exact Hslept | exact Hres].
Defined.

(** X7. A POST_RESULT with a platform and a result is dropped with a warning
    when no task is posting, and also when the first posting task has the
    empty id: nothing is recorded, nothing is sent. *)
Theorem post_result_without_posting_task_dropped now m platform result
    (self : MotherAgent.t) :
  AgentMessage.msg_type m = POST_RESULT →
  Payload.platform (AgentMessage.payload m) = Some platform → platform ≠ "" →
  Payload.result (AgentMessage.payload m) = Some result →
  MotherAgent.first_posting (MotherAgent.active_tasks self) = None ∨
  MotherAgent.first_posting (MotherAgent.active_tasks self) = Some "" →
  let x := MotherAgent.receive now m self in
  outcome x = Ok tt ∧ after x = self ∧ sends (effects x) = [] ∧
  warnings (effects x)
  = ["[MotherAgent] 找不到對應的任務 (platform: " +:+ platform +:+ ")"].
Proof.
  intros Hty Hp Hpne Hr Hfirst x. subst x.
  unfold MotherAgent.receive, receive_message, MotherAgent._message_handlers.
  rewrite Hty. unfold MotherAgent._handle_post_result. rewrite Hp, Hr.
  rewrite (proj2 (truthy_true platform) Hpne). cbn [negb].
  act_run. unfold PyDict.items. by destruct Hfirst as [-> | ->].
Qed.

Lemma post_result_without_posting_task_dropped_witness :
  let d := Scenario.post_result "TwitterAgent" None "twitter" in
  let self := (MotherAgent.run MotherAgent.__init__ [Scenario.assignment "a1"]).1 in
  after (MotherAgent.receive d.1 d.2 self) = self.
Proof.
  intros d self.
  refine (proj1 (proj2 (post_result_without_posting_task_dropped d.1 d.2 "twitter"
                          (Scenario.posted "twitter") self eq_refl eq_refl _ eq_refl
                          (or_introl eq_refl)))).
  discriminate.
Defined.

Lemma PyDict_set_fresh {K V} `{EqDecision K} (k : K) (v : V) (d : list (K * V)) :
  k ∉ PyDict.keys d → PyDict.set k v d = d ++ [(k, v)].
Proof.
  induction d as [|[k' v'] d IH]; simpl; [done|].
  rewrite not_elem_of_cons. intros [Hne Hnin]. rewrite decide_False by done.
  by rewrite IH.
Qed.

Lemma PyDict_set_last {K V} `{EqDecision K} (k : K) (v v' : V) (d : list (K * V)) :
  k ∉ PyDict.keys d → PyDict.set k v' (d ++ [(k, v)]) = d ++ [(k, v')].
Proof.
  induction d as [|[k1 v1] d IH]; simpl.
  - intros _. by rewrite decide_True.
  - rewrite not_elem_of_cons. intros [Hne Hnin]. rewrite decide_False by done.
    by rewrite IH.
Qed.

Lemma PyDict_del_last {K V} `{EqDecision K} (k : K) (v : V) (d : list (K * V)) :
  k ∉ PyDict.keys d → PyDict.del k (d ++ [(k, v)]) = d.
Proof.
  induction d as [|[k1 v1] d IH]; simpl.
  - intros _. by rewrite decide_True.
  - rewrite not_elem_of_cons. intros [Hne Hnin]. rewrite decide_False by done.
    by rewrite IH.
Qed.

Lemma first_posting_last items tid task :
  MotherAgent.first_posting items = None →
  Task.status task = "posting" →
  MotherAgent.first_posting (items ++ [(tid, task)]) = Some tid.
Proof.
  intros Hnone Hst. induction items as [|[k t] items IH]; simpl in *.
  - by rewrite decide_True.
  - destruct (decide (Task.status t = "posting")); [done|]. by apply IH.
Qed.

(** The results of one task arriving until the last expected one. *)
Lemma results_complete_task now mid sender (rs : list (string * PostResult.t)) :
  ∀ (s : MotherAgent.t) tid results,
    coordinator_inv s →
    MotherAgent.first_posting (MotherAgent.active_tasks s) = Some tid → tid ≠ "" →
    MotherAgent.results_buffer s !! tid = Some results →
    NoDup rs.*1 → Forall (fun p => p ≠ "" ∧ results !! p = None) rs.*1 →
    rs ≠ [] →
    (size results + length rs = length MotherAgent.platform_agents)%nat →
    let x := MotherAgent.run s (map (result_of now mid sender) rs) in
    x.1 = MotherAgent.mk (PyDict.del tid (MotherAgent.active_tasks s))
                         (delete tid (MotherAgent.results_buffer s)) ∧
    sends x.2 = [("FatherAgent", STATUS_UPDATE, report_payload tid (record_all rs results))].
Proof.
  induction rs as [|[p r] rs IH]; intros s tid results Hinv Hfirst Htne Hres Hnd Hfresh
    Hne Hsize; [done|].
  cbn [map]. rewrite run_cons.
  apply NoDup_cons in Hnd as [Hnin Hnd]. apply Forall_cons in Hfresh as [[Hpne Hpfresh] Hfresh].
  rewrite step_receive. cbn [fst snd]. rewrite sends_app.
  destruct (receive_handler now (result_of now mid sender (p, r)).2 s)
    as (_ & Hs & Hsends & _).
  cbn [result_of fst snd] in *. rewrite Hs, Hsends. clear Hs Hsends.
  unfold mother_handler, MotherAgent._message_handlers.
  cbn [envelope AgentMessage.msg_type].
  pose proof (post_result_step
                (envelope sender now mid "MotherAgent" POST_RESULT
                   (Payload.mk None None None None None None None None
                      (Some p) (Some r) None None None)) s Hinv) as Hstep.
  cbv zeta in Hstep.
  rewrite (proj2 (attributed_Some _ s tid p r)) in Hstep by done.
  destruct Hstep as (results' & task & Hres' & Htask & _ & _ & Hstep).
  assert (results' = results) as -> by congruence.
  pose proof (map_size_insert_None p r results Hpfresh) as Hins.
  change (length MotherAgent.platform_agents) with 5%nat in *.
  simpl in Hsize.
  destruct rs as [|pr rs]; simpl in Hsize.
  - rewrite bool_decide_eq_true_2 in Hstep by lia.
    destruct Hstep as (-> & -> & _). simpl. done.
  - rewrite bool_decide_eq_false_2 in Hstep by lia.
    destruct Hstep as (Hs' & -> & _).
    set (s' := MotherAgent.set_results_buffer (<[tid := <[p := r]> results]>) s) in *.
    rewrite Hs'.
    destruct (IH s' tid (<[p := r]> results)) as [Hfinal Hrep].
    + apply coordinator_inv_record;
        [done| |change (length MotherAgent.platform_agents) with 5%nat; lia].
      apply PyDict_get_Some. by rewrite Htask.
    + done.
    + done.
    + subst s'. mother_proj. apply lookup_insert_eq.
    + done.
    + apply Forall_forall. intros q Hq.
      rewrite Forall_forall in Hfresh. destruct (Hfresh q Hq) as [Hqne Hqfresh].
      split; [done|]. rewrite lookup_insert_ne; [done|]. intros ->. done.
    + done.
    + simpl in *. lia.
    + cbv zeta in Hfinal, Hrep. rewrite Hfinal, Hrep. subst s'. mother_proj.
      rewrite delete_insert_eq. done.
Qed.

(** X8. A full round.  From a reachable state in which no task is posting,
    the assignment of a new announcement with a non-empty id, its content
    and the results of as many distinct, named platforms as there are
    platform agents bring the coordinator back to exactly the state it was
    in: the record and its results are gone, and the messages sent are the
    enrichment request, the five POST_REQUESTs and one completion report
    carrying all the results. *)
Theorem full_round_leaves_no_residue ds now mid sender a priority c
    (rs : list (string * PostResult.t)) :
  let self := (MotherAgent.run MotherAgent.__init__ ds).1 in
  let x := MotherAgent.run self
             (assignment_of now mid a priority :: content_of now mid a c
              :: map (result_of now mid sender) rs) in
  MotherAgent.first_posting (MotherAgent.active_tasks self) = None →
  AwardAnnouncement.id a ∉ PyDict.keys (MotherAgent.active_tasks self) →
  AwardAnnouncement.id a ≠ "" →
  length rs = length MotherAgent.platform_agents →
  NoDup rs.*1 → Forall (fun p => p ≠ "") rs.*1 →
  x.1 = self ∧
  sends x.2
  = [("ContentAgent", TASK_ASSIGNMENT,
      Payload.mk (Some a) None None (Some (AwardAnnouncement.id a))
        None None None None None None None None None)] ++
    map (fun agent_name => (agent_name, POST_REQUEST, post_request_payload a c agent_name))
        MotherAgent.platform_agents ++
    [("FatherAgent", STATUS_UPDATE,
      report_payload (AwardAnnouncement.id a) (record_all rs ∅))].
Proof.
  intros self x Hidle Hfresh Hidne Hlen Hnd Hnamed. subst x.
  assert (Hinv : coordinator_inv self) by apply run_inv, coordinator_inv_init.
  set (tid := AwardAnnouncement.id a) in *.
  set (t1 := Task.mk a "generating_content" now None ∅).
  set (t2 := Task.mk a "posting" now (Some c) ∅).
  set (s1 := MotherAgent.mk (MotherAgent.active_tasks self ++ [(tid, t1)])
                            (<[tid := ∅]> (MotherAgent.results_buffer self))).
  set (s2 := MotherAgent.mk (MotherAgent.active_tasks self ++ [(tid, t2)])
                            (<[tid := ∅]> (MotherAgent.results_buffer self))).
  (* the assignment *)
  assert (H1 : MotherAgent.step self (assignment_of now mid a priority)
               = (s1, effects (MotherAgent.receive now (assignment_of now mid a priority).2 self))
               ∧ sends (effects (MotherAgent.receive now (assignment_of now mid a priority).2 self))
                 = [("ContentAgent", TASK_ASSIGNMENT,
                     Payload.mk (Some a) None None (Some tid)
                       None None None None None None None None None)]).
  { rewrite step_receive. cbn [assignment_of fst snd].
    destruct (receive_handler now (assignment_of now mid a priority).2 self)
      as (_ & Hs & Hsends & _).
    cbn [assignment_of fst snd] in *. rewrite Hs, Hsends.
    unfold mother_handler, MotherAgent._message_handlers. cbn [envelope AgentMessage.msg_type].
    rewrite (task_assignment_run now
               (envelope "FatherAgent" now mid "MotherAgent" TASK_ASSIGNMENT
                  (Payload.mk (Some a) (Some priority) (Some (datetime.isoformat now))
                     None None None None None None None None None None))
               self a eq_refl). mother_proj.
    fold tid. rewrite PyDict_set_fresh by done. done. }
  destruct H1 as [Hstep1 Hsends1].
  assert (Hinv1 : coordinator_inv s1).
  { pose proof (proj2 (step_inv self (assignment_of now mid a priority) Hinv)) as H.
    by rewrite Hstep1 in H. }
  (* the content *)
  assert (H2 : MotherAgent.step s1 (content_of now mid a c)
               = (s2, effects (MotherAgent.receive now (content_of now mid a c).2 s1))
               ∧ sends (effects (MotherAgent.receive now (content_of now mid a c).2 s1))
                 = map (fun agent_name =>
                          (agent_name, POST_REQUEST, post_request_payload a c agent_name))
                       MotherAgent.platform_agents).
  { rewrite step_receive. cbn [content_of fst snd].
    destruct (receive_handler now (content_of now mid a c).2 s1) as (_ & Hs & Hsends & _).
    cbn [content_of fst snd] in *. rewrite Hs, Hsends.
    unfold mother_handler, MotherAgent._message_handlers. cbn [envelope AgentMessage.msg_type].
    destruct (content_generated_run
                (envelope "ContentAgent" now mid "MotherAgent" CONTENT_GENERATED
                   (Payload.mk (Some a) None None None (Some c)
                      None None None None None None None None))
                s1 a c t1 eq_refl eq_refl) as (_ & Hs2 & Hsends2 & _).
    { subst s1. mother_proj. fold tid. rewrite <- (PyDict_set_fresh tid t1) by done.
      apply PyDict_get_set_eq. }
    rewrite Hs2, Hsends2. subst s1. mother_proj. fold tid.
    rewrite PyDict_set_last by done. done. }
  destruct H2 as [Hstep2 Hsends2].
  assert (Hinv2 : coordinator_inv s2).
  { pose proof (proj2 (step_inv s1 (content_of now mid a c) Hinv1)) as H.
    by rewrite Hstep2 in H. }
  (* the results *)
  destruct (results_complete_task now mid sender rs s2 tid ∅ Hinv2) as [Hfinal Hreport].
  { subst s2. mother_proj. by apply first_posting_last. }
  { done. }
  { subst s2. mother_proj. apply lookup_insert_eq. }
  { done. }
  { apply Forall_forall. intros p Hp. rewrite Forall_forall in Hnamed.
    split; [by apply Hnamed | apply lookup_empty]. }
  { intros ->. discriminate. }
  { rewrite map_size_empty. simpl. done. }
  cbv zeta in Hfinal, Hreport.
  rewrite run_cons, Hstep1. cbn [fst snd]. rewrite run_cons, Hstep2. cbn [fst snd].
  rewrite !sends_app, Hsends1, Hsends2, Hreport, Hfinal. split; [|done].
  subst s2. mother_proj. rewrite PyDict_del_last by done. rewrite delete_insert_eq.
  rewrite delete_id.
  - by destruct self.
  - apply eq_None_not_Some. intros Hsome. apply Hfresh. by apply Hinv.
Qed.

Lemma full_round_leaves_no_residue_witness :
  let rs := [("twitter", Scenario.posted "twitter");
             ("facebook", PostResult.mk false "facebook" None None (Some "憑證不完整"));
             ("instagram", Scenario.posted "instagram");
             ("linkedin", Scenario.posted "linkedin");
             ("reddit", Scenario.posted "reddit")] in
  let x := MotherAgent.run MotherAgent.__init__
             (assignment_of Scenario.clock "0123456789ab" (Scenario.work_item "a1") 5
              :: content_of Scenario.clock "0123456789ab" (Scenario.work_item "a1")
                   (Scenario.content (Scenario.work_item "a1"))
              :: map (result_of Scenario.clock "0123456789ab" "PlatformAgent") rs) in
  x.1 = MotherAgent.__init__.
Proof.
  intros rs x.
  refine (proj1 (full_round_leaves_no_residue [] Scenario.clock "0123456789ab"
                   "PlatformAgent" (Scenario.work_item "a1") 5
                   (Scenario.content (Scenario.work_item "a1")) rs
                   eq_refl _ _ eq_refl _ _)).
  - apply not_elem_of_nil.
  - discriminate.
  - vm_compute. repeat constructor; set_solver.
  - repeat constructor; discriminate.
Defined.

Lemma task_records_follow_life_cycle_witness :
  ∃ task,
    PyDict.get "a1" (MotherAgent.active_tasks Scenario.in_flight) = Some task ∧
    Task.status task = "posting".
Proof.
  destruct (PyDict.get "a1" (MotherAgent.active_tasks Scenario.in_flight))
    as [task|] eqn:Hget; [|vm_compute in Hget; discriminate Hget].
  exists task. split; [reflexivity|].
  destruct (task_records_follow_life_cycle
              [Scenario.assignment "a1"; Scenario.generated "a1";
               Scenario.post_result "TwitterAgent" None "twitter"] "a1" task Hget)
    as [(_ & _ & Hbuf) | (Hposting & _)]; [|exact Hposting].
  vm_compute in Hbuf. discriminate Hbuf.
Defined.

(* ===================================================================== *)
(** ** Intake coordinator: the ledger *)
(* ===================================================================== *)

Lemma father_new_announcement now m a (self : FatherAgent.t) :
  AgentMessage.msg_type m = NEW_ANNOUNCEMENT →
  Payload.announcement (AgentMessage.payload m) = Some a →
  let x := FatherAgent.receive now m self in
  let st := FatherAgent.processing_stats self in
  outcome x = Ok tt ∧
  after x = FatherAgent.mk
              (<[AwardAnnouncement.id a := a]> (FatherAgent.pending_announcements self))
              (FatherAgent.mkStats (FatherAgent.received st + 1)
                 (FatherAgent.forwarded st + 1) (FatherAgent.completed st)
                 (FatherAgent.failed st)) ∧
  sends (effects x)
  = [("MotherAgent", TASK_ASSIGNMENT,
      Payload.mk (Some a) (Some (FatherAgent._calculate_priority a))
        (Some (datetime.isoformat now))
        None None None None None None None None None None)].
Proof.
  intros Hty Ha x st. subst x st.
  unfold FatherAgent.receive, receive_message, FatherAgent._message_handlers.
  rewrite Hty. unfold FatherAgent._handle_new_announcement. rewrite Ha.
  act_run. father_proj. done.
Qed.

Lemma father_invalid_announcement now m (self : FatherAgent.t) :
  AgentMessage.msg_type m = NEW_ANNOUNCEMENT →
  Payload.announcement (AgentMessage.payload m) = None →
  let x := FatherAgent.receive now m self in
  outcome x = Ok tt ∧ after x = self ∧ sends (effects x) = [].
Proof.
  intros Hty Ha x. subst x.
  unfold FatherAgent.receive, receive_message, FatherAgent._message_handlers.
  rewrite Hty. unfold FatherAgent._handle_new_announcement. rewrite Ha.
  act_run. done.
Qed.

Lemma father_status_update now m (self : FatherAgent.t) :
  AgentMessage.msg_type m = STATUS_UPDATE →
  let x := FatherAgent.receive now m self in
  let st := FatherAgent.processing_stats self in
  let status := Payload.status (AgentMessage.payload m) in
  outcome x = Ok tt ∧ sends (effects x) = [] ∧
  after x =
    if decide (status = Some "completed") then
      FatherAgent.mk
        (match Payload.announcement_id (AgentMessage.payload m) with
         | Some aid => delete aid (FatherAgent.pending_announcements self)
         | None => FatherAgent.pending_announcements self
         end)
        (FatherAgent.mkStats (FatherAgent.received st) (FatherAgent.forwarded st)
           (FatherAgent.completed st + 1) (FatherAgent.failed st))
    else if decide (status = Some "failed") then
      FatherAgent.mk (FatherAgent.pending_announcements self)
        (FatherAgent.mkStats (FatherAgent.received st) (FatherAgent.forwarded st)
           (FatherAgent.completed st) (FatherAgent.failed st + 1))
    else self.
Proof.
  intros Hty x st status. subst x st status.
  unfold FatherAgent.receive, receive_message, FatherAgent._message_handlers.
  rewrite Hty. unfold FatherAgent._handle_status_update, FatherAgent._print_stats.
  cbv zeta.
  destruct (decide (Payload.status (AgentMessage.payload m) = Some "completed")).
  - destruct (Payload.announcement_id (AgentMessage.payload m)); act_run; father_proj; done.
  - destruct (decide (Payload.status (AgentMessage.payload m) = Some "failed"));
      act_run; father_proj; done.
Qed.

Lemma father_other_type now m (self : FatherAgent.t) :
  AgentMessage.msg_type m ≠ NEW_ANNOUNCEMENT →
  AgentMessage.msg_type m ≠ STATUS_UPDATE →
  let x := FatherAgent.receive now m self in
  outcome x = Ok tt ∧ after x = self ∧ sends (effects x) = [].
Proof.
  intros H1 H2 x. subst x.
  unfold FatherAgent.receive, receive_message, FatherAgent._message_handlers.
  destruct (AgentMessage.msg_type m); try done; act_run; done.
Qed.

Lemma count_of_cons f d ds :
  count_of f (d :: ds) = (if f d then 1 else 0) + count_of f ds.
Proof.
  unfold count_of. rewrite filter_cons.
  destruct (f d); [rewrite decide_True by done|rewrite decide_False by done];
    simpl length; lia.
Qed.

Lemma father_step_ledger (self : FatherAgent.t) d :
  ledger_from self (father_step self d).1 (father_step self d).2 [d] ∧
  (pending_keyed self → pending_keyed (father_step self d).1).
Proof.
  destruct d as [now m]. unfold father_step, ledger_from. cbn [fst snd].
  rewrite !count_of_cons. change (count_of _ []) with 0.
  unfold announces, reports. cbn [fst snd].
  destruct (decide (AgentMessage.msg_type m = NEW_ANNOUNCEMENT)) as [Hty|Hty].
  - rewrite !(bool_decide_eq_false_2 (AgentMessage.msg_type m = STATUS_UPDATE ∧ _))
      by (rewrite Hty; by intros [? _]).
    destruct (Payload.announcement (AgentMessage.payload m)) as [a|] eqn:Ha.
    + destruct (father_new_announcement now m a self Hty Ha) as (_ & -> & ->).
      rewrite bool_decide_eq_true_2 by (split; [done|by eexists]).
      father_proj. split.
      * split_and!; try (simpl; lia).
        rewrite map_size_insert.
        destruct (FatherAgent.pending_announcements self !! AwardAnnouncement.id a);
          unfold id; lia.
      * intros Hkeyed k a'. cbn [FatherAgent.pending_announcements].
        rewrite lookup_insert_Some.
        intros [[<- <-]|[_ Hl]]; [done|by apply Hkeyed].
    + destruct (father_invalid_announcement now m self Hty Ha) as (_ & -> & ->).
      rewrite bool_decide_eq_false_2 by (intros [_ [? ?]]; done).
      split; [simpl; lia|done].
  - rewrite (bool_decide_eq_false_2 (AgentMessage.msg_type m = NEW_ANNOUNCEMENT ∧ _))
      by (by intros [? _]).
    destruct (decide (AgentMessage.msg_type m = STATUS_UPDATE)) as [Hst|Hst].
    + destruct (father_status_update now m self Hst) as (_ & -> & ->).
      destruct (decide (Payload.status (AgentMessage.payload m) = Some "completed"))
        as [Hc|Hc].
      * rewrite (bool_decide_eq_true_2 (_ ∧ _ = Some "completed")) by done.
        rewrite bool_decide_eq_false_2 by (rewrite Hc; by intros [_ ?]).
        father_proj. split.
        -- split_and!; try (simpl; lia).
           destruct (Payload.announcement_id (AgentMessage.payload m)) as [aid|]; [|lia].
           rewrite map_size_delete.
           destruct (FatherAgent.pending_announcements self !! aid); unfold id; simpl; lia.
        -- intros Hkeyed k a'.
           destruct (Payload.announcement_id (AgentMessage.payload m)) as [aid|];
             [|by apply Hkeyed].
           cbn [FatherAgent.pending_announcements]. rewrite lookup_delete_Some. intros [_ Hl]. by apply Hkeyed.
      * rewrite (bool_decide_eq_false_2 (_ ∧ _ = Some "completed")) by (by intros [_ ?]).
        destruct (decide (Payload.status (AgentMessage.payload m) = Some "failed"))
          as [Hf|Hf].
        -- rewrite bool_decide_eq_true_2 by done. father_proj.
           split; [simpl; lia|done].
        -- rewrite bool_decide_eq_false_2 by (by intros [_ ?]).
           split; [simpl; lia|done].
    + destruct (father_other_type now m self Hty Hst) as (_ & -> & ->).
      rewrite !bool_decide_eq_false_2 by (by intros [? _]).
      split; [simpl; lia|done].
Qed.

Lemma father_run_cons (self : FatherAgent.t) d ds :
  father_run self (d :: ds)
  = ((father_run (father_step self d).1 ds).1,
     (father_step self d).2 ++ (father_run (father_step self d).1 ds).2).
Proof.
  cbn [father_run]. destruct (father_step self d) as [s1 e1]. cbn [fst snd].
  by destruct (father_run s1 ds) as [s2 e2].
Qed.

Lemma father_run_ledger ds (self : FatherAgent.t) :
  ledger_from self (father_run self ds).1 (father_run self ds).2 ds ∧
  (pending_keyed self → pending_keyed (father_run self ds).1).
Proof.
  revert self. induction ds as [|d ds IH]; intros self.
  - unfold ledger_from. simpl. change (count_of _ []) with 0. split; [lia|done].
  - rewrite father_run_cons. cbn [fst snd].
    destruct (father_step_ledger self d) as [Hstep Hk1].
    destruct (IH (father_step self d).1) as [Hrest Hk2].
    split; [|by intros ?; apply Hk2, Hk1].
    unfold ledger_from in *. rewrite sends_app, length_app.
    rewrite !(count_of_cons _ d ds). rewrite !count_of_cons in Hstep.
    change (count_of _ []) with 0 in Hstep. lia.
Qed.

Lemma father_step_sends (self : FatherAgent.t) d :
  sends (father_step self d).2 = from_option (fun s => [s]) [] (forwarding d).
Proof.
  destruct d as [now m]. unfold father_step, forwarding. cbn [fst snd].
  destruct (decide (AgentMessage.msg_type m = NEW_ANNOUNCEMENT)) as [Hty|Hty].
  - destruct (Payload.announcement (AgentMessage.payload m)) as [a|] eqn:Ha.
    + by destruct (father_new_announcement now m a self Hty Ha) as (_ & _ & ->).
    + by destruct (father_invalid_announcement now m self Hty Ha) as (_ & _ & ->).
  - destruct (decide (AgentMessage.msg_type m = STATUS_UPDATE)) as [Hst|Hst].
    + by destruct (father_status_update now m self Hst) as (_ & -> & _).
    + by destruct (father_other_type now m self Hty Hst) as (_ & _ & ->).
Qed.

(** X9. The ledger of the intake coordinator is exact.  After any sequence
    of deliveries to a fresh coordinator, received and forwarded both equal
    the number of NEW_ANNOUNCEMENT messages that carried an announcement;
    completed and failed equal the numbers of STATUS_UPDATE messages with
    those statuses; the pending set holds at most as many announcements as
    were received, each stored under its own id. *)
Theorem intake_ledger_is_exact ds :
  let self := (father_run FatherAgent.__init__ ds).1 in
  let st := FatherAgent.processing_stats self in
  FatherAgent.received st = count_of announces ds ∧
  FatherAgent.forwarded st = count_of announces ds ∧
  FatherAgent.completed st = count_of (reports "completed") ds ∧
  FatherAgent.failed st = count_of (reports "failed") ds ∧
  Z.of_nat (size (FatherAgent.pending_announcements self)) ≤ FatherAgent.received st ∧
  (∀ k a, FatherAgent.pending_announcements self !! k = Some a →
          AwardAnnouncement.id a = k).
Proof.
  intros self st.
  destruct (father_run_ledger ds FatherAgent.__init__) as [Hl Hk].
  unfold ledger_from in Hl. fold self in Hl, Hk. fold st in Hl.
  destruct Hl as (Hr & Hf & Hc & Hfa & Hs & Hp).
  cbn [FatherAgent.__init__ FatherAgent.processing_stats
       FatherAgent.pending_announcements FatherAgent.received FatherAgent.forwarded
       FatherAgent.completed FatherAgent.failed] in *.
  rewrite map_size_empty in Hp.
  split_and!; try lia.
  apply Hk. intros k a. unfold FatherAgent.__init__.
  cbn [FatherAgent.pending_announcements]. by rewrite lookup_empty.
Qed.

(** X10. The intake coordinator forwards every announcement it is handed,
    once and in order of arrival.  Whatever its state, the messages it sends
    over a sequence of deliveries are exactly one TASK_ASSIGNMENT to
    MotherAgent per NEW_ANNOUNCEMENT that carries an announcement, with the
    priority computed from the title and the time of that delivery; no other
    delivery makes it send anything, and a repeated announcement is forwarded
    again. *)
Theorem intake_forwards_each_announcement_in_order ds (self : FatherAgent.t) :
  sends (father_run self ds).2 = omap forwarding ds.
Proof.
  revert self. induction ds as [|d ds IH]; intros self; [done|].
  rewrite father_run_cons. cbn [fst snd]. rewrite sends_app, father_step_sends, IH.
  cbn [omap list_omap]. by destruct (forwarding d).
Qed.

(* ===================================================================== *)
(** ** Tweets and generated content *)
(* ===================================================================== *)

Lemma str_len_app (a b : string) : str_len (a +:+ b) = (str_len a + str_len b)%nat.
Proof.
  induction a as [|x a IH]; [done|].
  change (String x a +:+ b) with (String x (a +:+ b)). cbn [str_len].
  destruct (PyStr.is_continuation x); lia.
Qed.

Lemma str_len_slice_to n s : (str_len (PyStr.slice_to n s) ≤ n)%nat.
Proof.
  revert n. induction s as [|x s IH]; intros n; cbn [PyStr.slice_to str_len]; [lia|].
  destruct (PyStr.is_continuation x) eqn:Hx.
  - cbn [str_len]. rewrite Hx. apply IH.
  - destruct n as [|n]; cbn [str_len]; [lia|]. rewrite Hx. specialize (IH n). lia.
Qed.

Lemma str_len_slice_le n s : (str_len (PyStr.slice_to n s) ≤ str_len s)%nat.
Proof.
  revert n. induction s as [|x s IH]; intros n; cbn [PyStr.slice_to str_len]; [lia|].
  destruct (PyStr.is_continuation x) eqn:Hx.
  - cbn [str_len]. rewrite Hx. apply IH.
  - destruct n as [|n]; cbn [str_len]; [lia|]. rewrite Hx. specialize (IH n). lia.
Qed.

Lemma slice_to_all n s : (str_len s ≤ n)%nat → PyStr.slice_to n s = s.
Proof.
  revert n. induction s as [|x s IH]; intros n; cbn [PyStr.slice_to str_len]; [done|].
  destruct (PyStr.is_continuation x) eqn:Hx.
  - intros H. by rewrite IH.
  - destruct n as [|n]; [lia|]. intros H. rewrite IH; [done|lia].
Qed.

(** X11. A tweet never exceeds 280 code points. *)
Theorem tweet_within_limit (post : SocialPost.t) :
  (str_len (TwitterAgent._format_tweet post) ≤ 280)%nat.
Proof.
  unfold TwitterAgent._format_tweet.
  destruct (_ ≫= _) as [tw|]; apply str_len_slice_to.
Qed.

(** X12. When a tweet is built from the English title and body, the body is
    cut so that the whole fits: the final truncation removes nothing, the
    tweet has at most 274 code points and ends with the hashtags. *)
Theorem tweet_body_leaves_room_for_hashtags (post : SocialPost.t) c :
  SocialPost.generated_content post = Some c →
  GeneratedContent.platform_specific c !! "twitter" = None ∨
  GeneratedContent.platform_specific c !! "twitter" = Some "" →
  GeneratedContent.title_en c ≠ "" →
  GeneratedContent.content_en c ≠ "" →
  let hashtags := String.concat " " (take 3 (SocialPost.hashtags post)) in
  let text := "🎉 " +:+ GeneratedContent.title_en c in
  let available := 280 - Z.of_nat (str_len hashtags) - Z.of_nat (str_len text) - 10 in
  50 < available →
  TwitterAgent._format_tweet post
  = (text +:+ TwitterAgent.nl +:+ TwitterAgent.nl +:+
     PyStr.slice_to (Z.to_nat available) (GeneratedContent.content_en c)) +:+
    TwitterAgent.nl +:+ TwitterAgent.nl +:+ hashtags ∧
  (str_len (TwitterAgent._format_tweet post) ≤ 274)%nat.
Proof.
  intros Hc Htw Hte Hce hashtags text available Hav.
  assert (Heq : TwitterAgent._format_tweet post
    = PyStr.slice_to 280
        ((text +:+ TwitterAgent.nl +:+ TwitterAgent.nl +:+
          PyStr.slice_to (Z.to_nat available) (GeneratedContent.content_en c)) +:+
         TwitterAgent.nl +:+ TwitterAgent.nl +:+ hashtags)).
  { unfold TwitterAgent._format_tweet. rewrite Hc. cbn [mbind option_bind].
    assert (Hnone : (GeneratedContent.platform_specific c !! "twitter" ≫=
                       λ tw, if PyStr.truthy tw then Some tw else None) = None)
      by (destruct Htw as [-> | ->]; reflexivity).
    rewrite Hnone.
    rewrite (proj2 (truthy_true _) Hte), (proj2 (truthy_true _) Hce).
    fold hashtags. fold text. fold available.
    by rewrite (proj2 (Z.ltb_lt _ _) Hav). }
  assert (Hlen : (str_len
        ((text +:+ TwitterAgent.nl +:+ TwitterAgent.nl +:+
          PyStr.slice_to (Z.to_nat available) (GeneratedContent.content_en c)) +:+
         TwitterAgent.nl +:+ TwitterAgent.nl +:+ hashtags) ≤ 274)%nat).
  { rewrite !str_len_app.
    pose proof (str_len_slice_to (Z.to_nat available) (GeneratedContent.content_en c)).
    change (str_len TwitterAgent.nl) with 1%nat.
    subst available. lia. }
  rewrite Heq. rewrite slice_to_all by lia. done.
Qed.

Lemma tweet_body_leaves_room_for_hashtags_witness :
  let c := GeneratedContent.mk "賀 獲獎" "Best Paper Award" "內文"
             "Our team received the best paper award." [] ["#NYCU"] ∅ in
  let post := SocialPost.mk "賀 獲獎" "內文" ["#NYCU"; "#AI"] "all" None None (Some c) in
  TwitterAgent._format_tweet post
  = "🎉 Best Paper Award" +:+ TwitterAgent.nl +:+ TwitterAgent.nl +:+
    "Our team received the best paper award." +:+ TwitterAgent.nl +:+ TwitterAgent.nl +:+
    "#NYCU #AI".
Proof.
  intros c post.
  refine (eq_trans (proj1 (tweet_body_leaves_room_for_hashtags post c eq_refl
                             (or_introl eq_refl) _ _ _)) _).
  - discriminate.
  - discriminate.
  - vm_compute. reflexivity.
  - vm_compute. reflexivity.
Defined.

Section ContentShape.
Variable re_sub : string → string → bool → bool → string → string.
Variable re_findall : string → string → list string.
Variable str_strip : string → string.
Variable str_replace : string → string → string → string.

Lemma parse_hashtags_bounds lines zh en :
  (1 ≤ length zh ≤ 5)%nat → (1 ≤ length en ≤ 5)%nat →
  let r := ContentAgent.parse_hashtags re_findall lines zh en in
  (1 ≤ length r.1 ≤ 5)%nat ∧ (1 ≤ length r.2 ≤ 5)%nat.
Proof.
  revert zh en. induction lines as [|line lines IH]; intros zh en Hzh Hen; [done|].
  cbn [ContentAgent.parse_hashtags].
  destruct (String.prefix "ZH:" line).
  - destruct (re_findall _ line) as [|t tags]; [by apply IH|].
    apply IH; [|done]. rewrite length_take. simpl length. lia.
  - destruct (String.prefix "EN:" line); [|by apply IH].
    destruct (re_findall _ line) as [|t tags]; [by apply IH|].
    apply IH; [done|]. rewrite length_take. simpl length. lia.
Qed.

Lemma chinese_post model a :
  generator_post ContentAgent.ChinesePrompt
    (ContentAgent._generate_chinese_content re_sub str_strip model a)
    (fun _ => True) model.
Proof.
  intros s. unfold ContentAgent._generate_chinese_content, ContentAgent.build_chain.
  destruct (ContentAgent.chain_build model _) as [e|]; [by eexists _, _|].
  act_run.
  destruct (ContentAgent.chain_invoke model _ _ _) as [text| |e];
    eexists; (split; [by eexists|done]).
Qed.

Lemma english_post model a :
  generator_post ContentAgent.EnglishPrompt
    (ContentAgent._generate_english_content re_sub str_strip str_replace model a)
    (fun _ => True) model.
Proof.
  intros s. unfold ContentAgent._generate_english_content, ContentAgent.build_chain.
  destruct (ContentAgent.chain_build model _) as [e|]; [by eexists _, _|].
  act_run.
  destruct (ContentAgent.chain_invoke model _ _ _) as [text| |e].
  - destruct (ContentAgent.parse_english _ _ _ _) as [title_en content_en].
    eexists. split; [by eexists|done].
  - eexists. split; [by eexists|done].
  - eexists. split; [by eexists|done].
Qed.

Lemma hashtags_post model a :
  generator_post ContentAgent.HashtagPrompt
    (ContentAgent._generate_hashtags re_sub re_findall str_strip model a)
    (fun v => (1 ≤ length v.1 ≤ 5)%nat ∧ (1 ≤ length v.2 ≤ 5)%nat) model.
Proof.
  intros s. unfold ContentAgent._generate_hashtags, ContentAgent.build_chain.
  destruct (ContentAgent.chain_build model _) as [e|]; [by eexists _, _|].
  act_run.
  destruct (ContentAgent.chain_invoke model _ _ _) as [text| |e];
    eexists; (split; [by eexists|]).
  - apply parse_hashtags_bounds; simpl; lia.
  - simpl; lia.
  - simpl; lia.
Qed.

Lemma platform_specific_post model a content_zh content_en :
  generator_post ContentAgent.TweetPrompt
    (ContentAgent._generate_platform_specific re_sub str_strip model a content_zh content_en)
    (fun v => ∃ tw, v = {[ "twitter" := tw ]} ∧ (str_len tw ≤ 280)%nat) model.
Proof.
  intros s. unfold ContentAgent._generate_platform_specific, ContentAgent.build_chain.
  destruct content_en as [title_en body_en].
  destruct (ContentAgent.chain_build model _) as [e|]; [by eexists _, _|].
  act_run.
  destruct (ContentAgent.chain_invoke model _ _ _) as [text| |e];
    eexists; (split; [by eexists|]); eexists; (split; [reflexivity|]).
  - apply str_len_slice_to.
  - rewrite str_len_app. pose proof (str_len_slice_to 200 title_en).
    change (str_len "🎉 ") with 2%nat. lia.
  - rewrite str_len_app. pose proof (str_len_slice_to 200 title_en).
    change (str_len "🎉 ") with 2%nat. lia.
Qed.

Lemma fallback_well_formed a : well_formed a (ContentAgent.fallback a).
Proof.
  unfold well_formed, ContentAgent.fallback.
  cbn [GeneratedContent.title_zh GeneratedContent.hashtags_zh
       GeneratedContent.hashtags_en GeneratedContent.platform_specific].
  split_and!; try done; try (simpl; lia).
  eexists. split; [reflexivity|].
  rewrite !str_len_app. pose proof (str_len_slice_to 200 (AwardAnnouncement.title a)).
  change (str_len "🎉 ") with 2%nat. change (str_len " #NYCU #AI #Award") with 17%nat. lia.
Qed.

Lemma generate_content_shape a (self : ContentAgent.t) :
  ∃ c,
    returns (ContentAgent.generate_content re_sub re_findall str_strip str_replace a)
            self (Some c) ∧
    well_formed a c.
Proof.
  unfold ContentAgent.generate_content, mbind, Act_bind, mret, Act_ret.
  assert (Hfb : ∀ text,
            returns (bind (log_error ContentAgent.name text) (fun _ =>
                       bind (ContentAgent._fallback_generate a) (fun c => ret (Some c))))
                    self (Some (ContentAgent.fallback a))).
  { intros text. eapply returns_bind; [apply returns_log|].
    eapply returns_bind; [apply fallback_returns | apply returns_ret]. }
  destruct (ContentAgent.llm self) as [model|] eqn:Hllm.
  - pose proof (chinese_post model a self) as H1.
    pose proof (english_post model a self) as H2.
    pose proof (hashtags_post model a self) as H3.
    destruct (ContentAgent.chain_build model ContentAgent.ChinesePrompt) eqn:B1.
    { exists (ContentAgent.fallback a). split; [|apply fallback_well_formed].
      apply returns_get_self. rewrite Hllm. apply returns_except; [|intros e; apply Hfb].
      by apply raises_bind_l. }
    destruct H1 as (v1 & Hr1 & _).
    destruct (ContentAgent.chain_build model ContentAgent.EnglishPrompt) eqn:B2.
    { exists (ContentAgent.fallback a). split; [|apply fallback_well_formed].
      apply returns_get_self. rewrite Hllm. apply returns_except; [|intros e; apply Hfb].
      eapply raises_bind_r; [exact Hr1|]. by apply raises_bind_l. }
    destruct H2 as (v2 & Hr2 & _).
    destruct (ContentAgent.chain_build model ContentAgent.HashtagPrompt) eqn:B3.
    { exists (ContentAgent.fallback a). split; [|apply fallback_well_formed].
      apply returns_get_self. rewrite Hllm. apply returns_except; [|intros e; apply Hfb].
      eapply raises_bind_r; [exact Hr1|]. eapply raises_bind_r; [exact Hr2|].
      by apply raises_bind_l. }
    destruct H3 as (v3 & Hr3 & Hq3).
    pose proof (platform_specific_post model a v1 v2 self) as H4.
    destruct (ContentAgent.chain_build model ContentAgent.TweetPrompt) eqn:B4.
    { exists (ContentAgent.fallback a). split; [|apply fallback_well_formed].
      apply returns_get_self. rewrite Hllm. apply returns_except; [|intros e; apply Hfb].
      eapply raises_bind_r; [exact Hr1|]. eapply raises_bind_r; [exact Hr2|].
      eapply raises_bind_r; [exact Hr3|]. by apply raises_bind_l. }
    destruct H4 as (v4 & Hr4 & Hq4).
    exists (GeneratedContent.mk (AwardAnnouncement.title a) v2.1 v1 v2.2 v3.1 v3.2 v4).
    split.
    + apply returns_get_self. rewrite Hllm. apply returns_try.
      eapply returns_bind; [exact Hr1|]. eapply returns_bind; [exact Hr2|].
      eapply returns_bind; [exact Hr3|]. eapply returns_bind; [exact Hr4|].
      eapply returns_bind; [apply returns_log | apply returns_ret].
    + unfold well_formed.
      cbn [GeneratedContent.title_zh GeneratedContent.hashtags_zh
           GeneratedContent.hashtags_en GeneratedContent.platform_specific].
      destruct Hq3. done.
  - exists (ContentAgent.fallback a). split; [|apply fallback_well_formed].
    apply returns_get_self. rewrite Hllm. apply Hfb.
Qed.

(** X13. Whatever the model replies, an assignment that carries an
    announcement is answered with one CONTENT_GENERATED whose content is
    well formed: its Chinese title is the title of the announcement, each
    language has between one and five hashtags, and its only
    platform-specific text is a tweet of at most 280 code points. *)
Theorem generated_content_is_well_formed m a (self : ContentAgent.t) :
  AgentMessage.msg_type m = TASK_ASSIGNMENT →
  Payload.announcement (AgentMessage.payload m) = Some a →
  let x := ContentAgent.receive re_sub re_findall str_strip str_replace m self in
  ∃ c,
    outcome x = Ok tt ∧ after x = self ∧
    sends (effects x)
    = [("MotherAgent", CONTENT_GENERATED,
        Payload.mk (Some a) None None None (Some c) None None None None None None None None)] ∧
    well_formed a c.
Proof.
  intros Hty Ha x. subst x.
  destruct (generate_content_shape a self) as (c & (effs & Hgc & Hsends) & Hc).
  exists c.
  unfold ContentAgent.receive, receive_message, ContentAgent._message_handlers.
  rewrite Hty. unfold ContentAgent._handle_task_assignment. rewrite Ha.
  act_run. rewrite Hgc. simpl. rewrite sends_app, Hsends. done.
Qed.

(** X14. The tweet the content agent writes reaches Twitter verbatim.  For
    the content of any reply of the content agent and the post the task
    coordinator builds from it, the text of the tweet is the
    platform-specific text of the content, uncut, as soon as that text is
    not empty. *)
Theorem generated_tweet_posted_verbatim m a (self : ContentAgent.t) c tw :
  AgentMessage.msg_type m = TASK_ASSIGNMENT →
  Payload.announcement (AgentMessage.payload m) = Some a →
  let x := ContentAgent.receive re_sub re_findall str_strip str_replace m self in
  (("MotherAgent", CONTENT_GENERATED,
    Payload.mk (Some a) None None None (Some c) None None None None None None None None)
   ∈ sends (effects x)) →
  GeneratedContent.platform_specific c !! "twitter" = Some tw → tw ≠ "" →
  TwitterAgent._format_tweet (MotherAgent._create_social_post a c) = tw.
Proof.
  intros Hty Ha x Hin Htw Hne. subst x.
  destruct (generate_content_shape a self) as (c' & (effs & Hgc & Hsends) & Hc).
  revert Hin.
  unfold ContentAgent.receive, receive_message, ContentAgent._message_handlers.
  rewrite Hty. unfold ContentAgent._handle_task_assignment. rewrite Ha.
  act_run. rewrite Hgc. simpl. rewrite sends_app, Hsends. simpl.
  intros Hin. apply list_elem_of_singleton in Hin. injection Hin as <-.
  destruct Hc as (_ & _ & _ & tw' & Hps & Hlen).
  rewrite Hps, lookup_singleton_eq in Htw. injection Htw as ->.
  unfold TwitterAgent._format_tweet, MotherAgent._create_social_post.
  cbn [SocialPost.generated_content mbind option_bind].
  rewrite Hps, lookup_singleton_eq. cbn [mbind option_bind].
  rewrite (proj2 (truthy_true _) Hne). by apply slice_to_all.
Qed.
End ContentShape.

Lemma generated_content_is_well_formed_witness :
  let re_sub := fun (_ _ : string) (_ _ : bool) (text : string) => text in
  let re_findall := fun (_ _ : string) => @nil string in
  let str_strip := fun text : string => text in
  let str_replace := fun (_ _ text : string) => text in
  let m := (Scenario.assignment "a1").2 in
  let x := ContentAgent.receive re_sub re_findall str_strip str_replace m
             (ContentAgent.mk None) in
  ∃ c, sends (effects x)
       = [("MotherAgent", CONTENT_GENERATED,
           Payload.mk (Some (Scenario.work_item "a1")) None None None (Some c)
             None None None None None None None None)] ∧
       (1 ≤ length (GeneratedContent.hashtags_zh c) ≤ 5)%nat.
Proof.
  intros re_sub re_findall str_strip str_replace m x.
  destruct (generated_content_is_well_formed re_sub re_findall str_strip str_replace
              m (Scenario.work_item "a1") (ContentAgent.mk None) eq_refl eq_refl)
    as (c & _ & _ & Hsends & Hwf).
  exists c. split; [exact Hsends|]. exact (proj1 (proj2 Hwf)).
Defined.

Lemma generated_tweet_posted_verbatim_witness :
  let a := Scenario.work_item "a1" in
  let c := ContentAgent.fallback a in
  TwitterAgent._format_tweet (MotherAgent._create_social_post a c)
  = "🎉 " +:+ AwardAnnouncement.title a +:+ " #NYCU #AI #Award".
Proof.
  intros a c.
  refine (generated_tweet_posted_verbatim
            (fun (_ _ : string) (_ _ : bool) (text : string) => text)
            (fun (_ _ : string) => @nil string) (fun text : string => text)
            (fun (_ _ text : string) => text)
            (Scenario.assignment "a1").2 a (ContentAgent.mk None) c _ eq_refl eq_refl _ _ _).
  - vm_compute. constructor.
  - vm_compute. reflexivity.
  - discriminate.
Defined.

(* ===================================================================== *)
(** ** Information agent: filter, scan and notification *)
(* ===================================================================== *)

Lemma prefix_sep k a b :
  no_space k = true →
  String.prefix k (a +:+ " " +:+ b) = String.prefix k a.
Proof.
  intros Hk. revert a. induction k as [|x k IH]; intros a; [by destruct a|].
  cbn [no_space] in Hk. apply andb_true_iff in Hk as [Hx Hk].
  destruct a as [|y a].
  - change ("" +:+ " " +:+ b) with (String " "%char b). cbn [String.prefix].
    destruct (ascii_dec x " "%char) as [->|]; [|done].
    by rewrite Ascii.eqb_refl in Hx.
  - change (String y a +:+ " " +:+ b) with (String y (a +:+ " " +:+ b)).
    cbn [String.prefix]. destruct (ascii_dec x y); [by apply IH|done].
Qed.

Lemma contains_sep k a b :
  no_space k = true →
  PyStr.contains k (a +:+ " " +:+ b) = PyStr.contains k a || PyStr.contains k b.
Proof.
  intros Hk. induction a as [|y a IH].
  - change ("" +:+ " " +:+ b) with (String " "%char b).
    cbn [PyStr.contains]. destruct k as [|x k]; [done|].
    cbn [no_space] in Hk. apply andb_true_iff in Hk as [Hx Hk].
    cbn [String.prefix]. destruct (ascii_dec x " "%char) as [->|]; [|done].
    by rewrite Ascii.eqb_refl in Hx.
  - change (String y a +:+ " " +:+ b) with (String y (a +:+ " " +:+ b)).
    cbn [PyStr.contains]. rewrite IH.
    change (String y (a +:+ " " +:+ b)) with (String y a +:+ " " +:+ b).
    rewrite (prefix_sep k (String y a) b Hk). by rewrite orb_assoc.
Qed.

(** X15. The separator between title and summary never makes a match: an
    article passes the award filter exactly when one of the keywords occurs
    in its title or occurs in its summary. *)
Theorem award_filter_reads_title_or_summary (title content : string) :
  InformationAgent._is_award_announcement title content
  = existsb (fun keyword => PyStr.contains keyword title) InformationAgent.award_keywords
    || existsb (fun keyword => PyStr.contains keyword content)
               InformationAgent.award_keywords.
Proof.
  unfold InformationAgent._is_award_announcement.
  assert (Hks : Forall (fun k => no_space k = true) InformationAgent.award_keywords)
    by (repeat constructor).
  induction Hks as [|k ks Hk _ IH]; [done|].
  cbn [existsb]. rewrite IH, (contains_sep k title content Hk).
  destruct (PyStr.contains k title), (PyStr.contains k content),
    (existsb _ ks), (existsb _ ks); done.
Qed.

Section ScanFacts.
Variable md5_hexdigest : string → string.
Variable _fetch_full_content : string → string.
Variable _fetch_image_from_page : string → option string.

Lemma scan_article_run d (s : InformationAgent.t) :
  returns (InformationAgent.scan_article md5_hexdigest _fetch_full_content
             _fetch_image_from_page d) s
    (c ← candidate md5_hexdigest _fetch_full_content _fetch_image_from_page d;
     if ProcessedTracker.is_processed (InformationAgent.tracker s) (AwardAnnouncement.id c)
     then None else Some c).
Proof.
  destruct d as [now article]. unfold candidate, InformationAgent.scan_article, returns.
  destruct (InformationAgent.entry_title article) as [[title url]|]; [|by eexists].
  destruct (InformationAgent._is_award_announcement _ _); cbn [negb]; [|by eexists].
  destruct (_fetch_image_from_page url) as [u|]; [destruct (PyStr.truthy u)|];
    act_run; unfold outcome; cbn [fst snd mbind option_bind];
    change (ProcessedTracker.is_processed
              (InformationAgent.tracker (InformationAgent.__init__ None)) ?x) with false;
    cbn [fst snd mbind option_bind AwardAnnouncement.id];
    destruct (ProcessedTracker.is_processed (InformationAgent.tracker s) _);
    by eexists.
Qed.

Lemma scan_articles_run ds (s : InformationAgent.t) :
  returns (InformationAgent.scan_articles md5_hexdigest _fetch_full_content
             _fetch_image_from_page ds) s
    (unseen md5_hexdigest _fetch_full_content _fetch_image_from_page s ds).
Proof.
  induction ds as [|d ds IH]; [apply returns_ret|].
  cbn [InformationAgent.scan_articles]. unfold mbind, Act_bind, mret, Act_ret.
  eapply returns_bind; [apply scan_article_run|].
  eapply returns_bind; [apply IH|].
  unfold unseen. cbn [omap list_omap].
  destruct (candidate _ _ _ d ≫= _); apply returns_ret.
Qed.

Lemma scan_run response (s : InformationAgent.t) :
  returns (InformationAgent.scan_for_announcements md5_hexdigest _fetch_full_content
             _fetch_image_from_page response) s
    (listed md5_hexdigest _fetch_full_content _fetch_image_from_page s response).
Proof.
  unfold InformationAgent.scan_for_announcements, mbind, Act_bind, mret, Act_ret, listed.
  eapply returns_bind; [apply returns_log|].
  destruct response as [status articles|e].
  - destruct (status =? 200); cbn [negb].
    + eapply returns_bind; [apply returns_log|].
      eapply returns_bind; [apply scan_articles_run|].
      eapply returns_bind; [apply returns_log|apply returns_ret].
    + eapply returns_bind; [apply returns_log|apply returns_ret].
  - eapply returns_bind; [apply returns_log|apply returns_ret].
Qed.
End ScanFacts.

Lemma slept_app e1 e2 : slept (e1 ++ e2) = slept e1 + slept e2.
Proof.
  unfold slept. induction e1 as [|eff e1 IH]; [simpl; lia|].
  simpl. destruct eff; lia.
Qed.

Lemma notify_loop (timestamps : nat → datetime.t) (g : nat → nat)
    (L : list AwardAnnouncement.t) (s : InformationAgent.t) :
  let x :=
    for_each (imap (fun i announcement => (g i, announcement)) L)
      (fun '(i, announcement) =>
         log_info InformationAgent.name
           ("📤 通知 FatherAgent: " +:+
            PyStr.slice_to 40 (AwardAnnouncement.title announcement) +:+ "...");;
         send_message "FatherAgent" NEW_ANNOUNCEMENT
           (Payload.mk (Some announcement) None
              (Some (datetime.isoformat (timestamps i)))
              None None None None None None None None None None);;
         modify (fun self =>
           let '(tracker, file) :=
             ProcessedTracker.mark_processed (InformationAgent.tracker self)
               (AwardAnnouncement.id announcement) in
           InformationAgent.mk tracker file);;
         emit (Sleep 1)) s in
  outcome x = Ok tt ∧
  ProcessedTracker.processed_ids (InformationAgent.tracker (after x))
  = list_to_set (AwardAnnouncement.id <$> L)
    ∪ ProcessedTracker.processed_ids (InformationAgent.tracker s) ∧
  InformationAgent.processed_awards_json (after x)
  = (match L with
     | [] => InformationAgent.processed_awards_json s
     | _ => Some (elements (ProcessedTracker.processed_ids
                              (InformationAgent.tracker (after x))))
     end) ∧
  sends (effects x) = imap (fun i a => notification timestamps (g i) a) L ∧
  slept (effects x) = Z.of_nat (length L).
Proof.
  revert g s. induction L as [|a L IH]; intros g s.
  - cbn. split_and!; try done. set_solver.
  - rewrite !imap_cons. cbn [for_each].
    specialize (IH (g ∘ S)).
    change (imap ((fun i announcement => (g i, announcement)) ∘ S) L)
      with (imap (fun i announcement => ((g ∘ S) i, announcement)) L).
    change (imap ((fun i a => notification timestamps (g i) a) ∘ S) L)
      with (imap (fun i a => notification timestamps ((g ∘ S) i) a) L).
    set (rest := for_each _ _) in *.
    act_run. cbn [fst snd].
    match goal with
    | |- context [rest ?s1] => specialize (IH s1); set (s' := s1) in *
    end.
    cbv zeta in IH. unfold outcome, after, effects in IH.
    destruct (rest s') as [[r s2] e2] eqn:Hrun. cbn [fst snd] in IH |- *.
    destruct IH as (-> & Hids & Hfile & Hsends & Hslept).
    split_and!.
    + done.
    + rewrite Hids. subst s'. info_proj. rewrite fmap_cons, list_to_set_cons. set_solver.
    + rewrite Hfile. destruct L as [|b L]; [|done].
      rewrite Hids. subst s'. info_proj.
      rewrite fmap_nil, list_to_set_nil. do 2 f_equal. set_solver.
    + rewrite !sends_app, Hsends. reflexivity.
    + rewrite !slept_app, Hslept. cbn [length].
      change (slept [Log INFO _]) with 0. change (slept [Send _ _ _]) with 0.
      change (slept []) with 0. change (slept [Sleep 1]) with (1 + 0). lia.
Qed.

Section NotifyFacts.
Variable md5_hexdigest : string → string.
Variable _fetch_full_content : string → string.
Variable _fetch_image_from_page : string → option string.

Lemma candidate_id d c :
  candidate md5_hexdigest _fetch_full_content _fetch_image_from_page d = Some c →
  AwardAnnouncement.id c = AwardAnnouncement.generate_id md5_hexdigest c.
Proof.
  destruct d as [now article]. unfold candidate, InformationAgent.scan_article.
  destruct (InformationAgent.entry_title article) as [[title url]|]; [|done].
  destruct (InformationAgent._is_award_announcement _ _); cbn [negb]; [|done].
  destruct (_fetch_image_from_page url) as [u|]; [destruct (PyStr.truthy u)|];
    act_run; unfold outcome; cbn [fst snd];
    change (ProcessedTracker.is_processed
              (InformationAgent.tracker (InformationAgent.__init__ None)) ?x) with false;
    cbn [fst snd]; intros [= <-]; reflexivity.
Qed.

Lemma unseen_spec (s : InformationAgent.t) ds c :
  c ∈ unseen md5_hexdigest _fetch_full_content _fetch_image_from_page s ds ↔
  ∃ d, d ∈ ds ∧
       candidate md5_hexdigest _fetch_full_content _fetch_image_from_page d = Some c ∧
       AwardAnnouncement.id c
       ∉ ProcessedTracker.processed_ids (InformationAgent.tracker s).
Proof.
  unfold unseen. rewrite list_elem_of_omap. split.
  - intros (d & Hd & Hc). exists d. split; [done|].
    destruct (candidate _ _ _ d) as [c'|]; [|done]. cbn [mbind option_bind] in Hc.
    unfold ProcessedTracker.is_processed in Hc.
    destruct (bool_decide_reflect
                (AwardAnnouncement.id c'
                 ∈ ProcessedTracker.processed_ids (InformationAgent.tracker s)));
      [done|]. by injection Hc as ->.
  - intros (d & Hd & Hc & Hn). exists d. split; [done|]. rewrite Hc.
    cbn [mbind option_bind]. unfold ProcessedTracker.is_processed.
    by rewrite bool_decide_eq_false_2.
Qed.

Lemma unseen_length (s : InformationAgent.t) ds :
  (length (unseen md5_hexdigest _fetch_full_content _fetch_image_from_page s ds)
   ≤ length ds)%nat.
Proof.
  unfold unseen. induction ds as [|d ds IH]; [done|]. cbn [omap list_omap].
  destruct (_ ≫= _); simpl; lia.
Qed.

(** X16. A scan only reads.  It leaves the tracker and its file as they
    are and sends nothing; it returns at most ten announcements, in the order
    of the page, none of which the tracker has seen, each carrying the id
    computed from its own title, content and date; a response that is not a
    200 page yields nothing. *)
Theorem scan_lists_only_unprocessed response (s : InformationAgent.t) :
  let x := InformationAgent.scan_for_announcements md5_hexdigest _fetch_full_content
             _fetch_image_from_page response s in
  ∃ L,
    outcome x = Ok L ∧ after x = s ∧ sends (effects x) = [] ∧
    (length L ≤ 10)%nat ∧
    (∀ a, a ∈ L →
       (AwardAnnouncement.id a
        ∉ ProcessedTracker.processed_ids (InformationAgent.tracker s)) ∧
       AwardAnnouncement.id a = AwardAnnouncement.generate_id md5_hexdigest a) ∧
    ((∀ articles, response ≠ InformationAgent.Page 200 articles) → L = []).
Proof.
  intros x. subst x.
  destruct (scan_run md5_hexdigest _fetch_full_content _fetch_image_from_page response s)
    as (effs & Hrun & Hsends).
  eexists. rewrite Hrun. unfold outcome, after, effects. cbn [fst snd].
  split_and!; try done.
  - unfold listed. destruct response as [status articles|e]; [|simpl; lia].
    destruct (status =? 200); [|simpl; lia].
    etrans; [apply unseen_length|]. rewrite length_take. lia.
  - intros a Ha. unfold listed in Ha.
    destruct response as [status articles|e]; [|by apply elem_of_nil in Ha].
    destruct (status =? 200); [|by apply elem_of_nil in Ha].
    apply unseen_spec in Ha as (d & _ & Hc & Hn). split; [done|].
    by eapply candidate_id.
  - intros Hne. unfold listed. destruct response as [status articles|e]; [|done].
    destruct (Z.eqb_spec status 200) as [->|]; [|done]. by destruct (Hne articles).
Qed.

Lemma check_and_notify_run response timestamps (s : InformationAgent.t) :
  let L := listed md5_hexdigest _fetch_full_content _fetch_image_from_page s response in
  let x := InformationAgent.check_and_notify md5_hexdigest _fetch_full_content
             _fetch_image_from_page response timestamps s in
  outcome x = Ok tt ∧
  sends (effects x) = imap (notification timestamps) L ∧
  ProcessedTracker.processed_ids (InformationAgent.tracker (after x))
  = list_to_set (AwardAnnouncement.id <$> L)
    ∪ ProcessedTracker.processed_ids (InformationAgent.tracker s) ∧
  InformationAgent.processed_awards_json (after x)
  = (match L with
     | [] => InformationAgent.processed_awards_json s
     | _ => Some (elements (ProcessedTracker.processed_ids
                              (InformationAgent.tracker (after x))))
     end) ∧
  (L = [] → after x = s).
Proof.
  intros L x.
  destruct (scan_run md5_hexdigest _fetch_full_content _fetch_image_from_page response s)
    as (effs & Hrun & Hsends).
  fold L in Hrun.
  pose proof (eq_refl x) as Hx. unfold x at 2 in Hx. clearbody x.
  unfold InformationAgent.check_and_notify, mbind at 1, Act_bind, bind in Hx.
  rewrite Hrun in Hx.
  destruct L as [|a L'] eqn:HL.
  - unfold log_info, emit in Hx. subst x. unfold outcome, after, effects. cbn [fst snd].
    rewrite sends_app, Hsends.
    split_and!; try done. set_solver.
  - pose proof (notify_loop timestamps (fun i => i) (a :: L') s) as Hloop.
    cbv beta zeta in Hloop. unfold outcome, after, effects in *.
    destruct (for_each _ _ s) as [[r s2] e2]. cbn [fst snd] in *.
    destruct Hloop as (-> & Hids & Hfile & Hs & Hsl).
    subst x. cbn [fst snd]. rewrite sends_app, Hsends, Hs.
    split_and!; done.
Qed.

(** X17. One round of the intake.  [check_and_notify] sends one
    NEW_ANNOUNCEMENT to FatherAgent for each announcement its scan returned,
    in the order of the page and with the reading of the clock of that
    notification, and adds exactly their ids to the tracker; the file then
    holds the ids of the tracker.  When the scan returns nothing, nothing is
    sent and neither the tracker nor the file is touched. *)
Theorem listed_announcements_notified_and_recorded response timestamps
    (s : InformationAgent.t) :
  let x := InformationAgent.check_and_notify md5_hexdigest _fetch_full_content
             _fetch_image_from_page response timestamps s in
  ∃ L,
    outcome (InformationAgent.scan_for_announcements md5_hexdigest _fetch_full_content
               _fetch_image_from_page response s) = Ok L ∧
    outcome x = Ok tt ∧
    sends (effects x) = imap (notification timestamps) L ∧
    ProcessedTracker.processed_ids (InformationAgent.tracker (after x))
    = list_to_set (AwardAnnouncement.id <$> L)
      ∪ ProcessedTracker.processed_ids (InformationAgent.tracker s) ∧
    (L ≠ [] →
     InformationAgent.processed_awards_json (after x)
     = Some (elements (ProcessedTracker.processed_ids
                         (InformationAgent.tracker (after x))))) ∧
    (L = [] → after x = s).
Proof.
  intros x. subst x.
  destruct (scan_run md5_hexdigest _fetch_full_content _fetch_image_from_page response s)
    as (effs & Hrun & _).
  destruct (check_and_notify_run response timestamps s)
    as (Ho & Hs & Hids & Hfile & Hnil).
  eexists. split; [by rewrite Hrun|].
  split_and!; try done.
  intros Hne. rewrite Hfile. by destruct (listed _ _ _ s response).
Qed.

Lemma unseen_none (s s' : InformationAgent.t) ds :
  (∀ c, c ∈ unseen md5_hexdigest _fetch_full_content _fetch_image_from_page s ds →
        AwardAnnouncement.id c
        ∈ ProcessedTracker.processed_ids (InformationAgent.tracker s')) →
  ProcessedTracker.processed_ids (InformationAgent.tracker s)
  ⊆ ProcessedTracker.processed_ids (InformationAgent.tracker s') →
  unseen md5_hexdigest _fetch_full_content _fetch_image_from_page s' ds = [].
Proof.
  intros Hnew Hold.
  destruct (unseen _ _ _ s' ds) as [|c l] eqn:Hu; [done|].
  assert (Hc : c ∈ unseen md5_hexdigest _fetch_full_content _fetch_image_from_page s' ds)
    by (rewrite Hu; left).
  apply unseen_spec in Hc as (d & Hd & Hc & Hn). destruct Hn.
  destruct (decide (AwardAnnouncement.id c
                    ∈ ProcessedTracker.processed_ids (InformationAgent.tracker s)))
    as [Hin|Hnin]; [by apply Hold|].
  apply Hnew. apply unseen_spec. by exists d.
Qed.

(** X18. Nothing is announced twice.  After a round that started from the
    tracker file, an agent restarted from the file the round left has the
    tracker the round left, a scan of the same listing returns no
    announcement, and a second round sends nothing. *)
Theorem notified_announcements_not_listed_again file response timestamps timestamps' :
  let x := InformationAgent.check_and_notify md5_hexdigest _fetch_full_content
             _fetch_image_from_page response timestamps
             (InformationAgent.__init__ file) in
  let restarted :=
    InformationAgent.__init__ (InformationAgent.processed_awards_json (after x)) in
  restarted = after x ∧
  outcome (InformationAgent.scan_for_announcements md5_hexdigest _fetch_full_content
             _fetch_image_from_page response restarted) = Ok [] ∧
  sends (effects (InformationAgent.check_and_notify md5_hexdigest _fetch_full_content
                    _fetch_image_from_page response timestamps' restarted)) = [].
Proof.
  intros x restarted.
  destruct (check_and_notify_run response timestamps (InformationAgent.__init__ file))
    as (_ & _ & Hids & Hfile & Hnil).
  fold x in Hids, Hfile, Hnil.
  set (L := listed md5_hexdigest _fetch_full_content _fetch_image_from_page
              (InformationAgent.__init__ file) response) in *.
  assert (Hre : restarted = after x).
  { subst restarted. destruct L as [|a L'] eqn:HL.
    - by rewrite (Hnil eq_refl).
    - rewrite Hfile. unfold InformationAgent.__init__, ProcessedTracker.__init__,
        ProcessedTracker._load.
      rewrite list_to_set_elements_L.
      destruct (after x) as [[ids] f]. cbn in Hfile |- *. by rewrite Hfile. }
  assert (Hnone : listed md5_hexdigest _fetch_full_content _fetch_image_from_page
                    restarted response = []).
  { rewrite Hre. unfold listed in *. destruct response as [status articles|e]; [|done].
    destruct (status =? 200); [|done].
    apply (unseen_none (InformationAgent.__init__ file)).
    - intros c Hc. rewrite Hids. apply elem_of_union_l, elem_of_list_to_set.
      apply list_elem_of_fmap. by exists c.
    - rewrite Hids. apply union_subseteq_r. }
  split; [exact Hre|]. split.
  - destruct (scan_run md5_hexdigest _fetch_full_content _fetch_image_from_page
                response restarted) as (effs & Hrun & _).
    rewrite Hrun. unfold outcome. cbn [fst snd]. by rewrite Hnone.
  - destruct (check_and_notify_run response timestamps' restarted) as (_ & Hs & _).
    by rewrite Hs, Hnone.
Qed.
End NotifyFacts.

(** X19. The tracker survives a restart.  A tracker reloaded from the file
    that [mark_processed] wrote is the tracker that wrote it: it knows the
    new id and, of the other ids, exactly those known before; reloaded from
    the file that [clear] wrote, it knows none. *)
Theorem tracker_survives_restart (self : ProcessedTracker.t) (announcement_id : string) :
  let marked := ProcessedTracker.mark_processed self announcement_id in
  ProcessedTracker.__init__ marked.2 = marked.1 ∧
  ProcessedTracker.is_processed (ProcessedTracker.__init__ marked.2) announcement_id = true ∧
  (∀ other, other ≠ announcement_id →
     ProcessedTracker.is_processed (ProcessedTracker.__init__ marked.2) other
     = ProcessedTracker.is_processed self other) ∧
  (∀ any, ProcessedTracker.is_processed
            (ProcessedTracker.__init__ (ProcessedTracker.clear marked.1).2) any = false).
Proof.
  intros marked. subst marked.
  unfold ProcessedTracker.mark_processed, ProcessedTracker.clear, ProcessedTracker.__init__,
    ProcessedTracker._save, ProcessedTracker._load, ProcessedTracker.is_processed.
  cbn [fst snd ProcessedTracker.processed_ids].
  rewrite !list_to_set_elements_L.
  split_and!; [done| | |].
  - apply bool_decide_eq_true_2. set_solver.
  - intros other Hne. apply bool_decide_ext. set_solver.
  - intros any. apply bool_decide_eq_false_2. set_solver.
Qed.

(* ===================================================================== *)
(** ** Message bus: the loop *)
(* ===================================================================== *)

Section LoopFacts.
Context {W : Type}.
Implicit Types (bus : MessageBus.t W) (w : W).

Lemma process_message_registry bus bus' message w :
  MessageBus.subscribers bus = MessageBus.subscribers bus' →
  MessageBus.agents bus = MessageBus.agents bus' →
  MessageBus._process_message bus message w = MessageBus._process_message bus' message w.
Proof. intros Hs Ha. unfold MessageBus._process_message. by rewrite Hs, Ha. Qed.

Lemma loop_idle turns bus w :
  MessageBus.message_queue bus = [] →
  MessageBusLoop.loop turns bus w = (bus, w, []).
Proof.
  intros Hq. revert w. induction turns as [|turns IH]; intros w; [done|].
  cbn [MessageBusLoop.loop]. destruct (MessageBus._running bus); [|done].
  unfold MessageBus.start_iteration. rewrite Hq. by rewrite IH.
Qed.

Lemma loop_drains messages : ∀ turns subs agents w,
  (length messages ≤ turns)%nat →
  MessageBusLoop.loop turns (MessageBus.mk subs messages agents true) w
  = (MessageBus.mk subs [] agents true,
     (handled_in_turn (MessageBus.mk subs [] agents true) messages w).1,
     (handled_in_turn (MessageBus.mk subs [] agents true) messages w).2).
Proof.
  induction messages as [|message rest IH]; intros turns subs agents w Hlen.
  - by rewrite loop_idle.
  - destruct turns as [|turns]; [simpl in Hlen; lia|].
    cbn [MessageBusLoop.loop MessageBus._running].
    unfold MessageBus.start_iteration.
    cbn [MessageBus.message_queue MessageBus.subscribers MessageBus.agents
         MessageBus._running handled_in_turn].
    rewrite (process_message_registry (MessageBus.mk subs rest agents true)
               (MessageBus.mk subs [] agents true) message w eq_refl eq_refl).
    destruct (MessageBus._process_message _ message w) as [[[u|e] w1] evs1];
      [|destruct e];
      rewrite IH by (simpl in Hlen; lia);
      destruct (handled_in_turn _ rest w1) as [w2 evs2]; cbn [fst snd loop_log app];
      by rewrite <- ?app_assoc.
Qed.

(** X20. The bus delivers what was published, once and in order.  On a bus
    whose queue is empty, publishing some messages and then running the loop
    for at least as many turns handles the messages one after the other in
    the order of publication, each with the registry of the bus.  An
    exception that leaves the handling of one message does not keep the next
    from being handled: it is logged as an error, unless it is an
    [asyncio.TimeoutError], which the loop takes for the timeout of its own
    wait and passes over without a log.  The queue is empty again, and
    further turns do nothing. *)
Theorem published_messages_handled_in_order bus messages turns w :
  MessageBus.message_queue bus = [] →
  (length messages ≤ turns)%nat →
  let x := MessageBusLoop.start turns (foldl MessageBus.publish bus messages) w in
  x.1.1 = MessageBus.mk (MessageBus.subscribers bus) [] (MessageBus.agents bus) true ∧
  x.1.2 = (handled_in_turn bus messages w).1 ∧
  x.2 = MessageBus.Logged INFO "🚀 訊息匯流排已啟動" :: (handled_in_turn bus messages w).2.
Proof.
  intros Hq Hlen x. subst x.
  assert (Hpub : ∀ ms (b : MessageBus.t W),
            foldl MessageBus.publish b ms
            = MessageBus.mk (MessageBus.subscribers b) (MessageBus.message_queue b ++ ms)
                (MessageBus.agents b) (MessageBus._running b)).
  { induction ms as [|m ms IH]; intros b.
    - rewrite app_nil_r. by destruct b.
    - cbn [foldl]. rewrite IH. unfold MessageBus.publish.
      cbn [MessageBus.subscribers MessageBus.message_queue MessageBus.agents
           MessageBus._running]. by rewrite <- app_assoc. }
  unfold MessageBusLoop.start. rewrite Hpub, Hq.
  cbn [MessageBus.subscribers MessageBus.message_queue MessageBus.agents app].
  rewrite loop_drains by done.
  assert (Hsame : ∀ ms w0,
            handled_in_turn
              (MessageBus.mk (MessageBus.subscribers bus) [] (MessageBus.agents bus) true)
              ms w0
            = handled_in_turn bus ms w0).
  { induction ms as [|m ms IH]; intros w0; [done|]. cbn [handled_in_turn].
    rewrite (process_message_registry
               (MessageBus.mk (MessageBus.subscribers bus) [] (MessageBus.agents bus) true)
               bus m w0 eq_refl eq_refl).
    destruct (MessageBus._process_message bus m w0) as [[r w1] evs1].
    by rewrite IH. }
  rewrite Hsame. done.
Qed.

(** X21. A direct delivery never reaches the subscribers.  [send_direct]
    invokes no callback, whatever is subscribed under the receiver's name;
    for an unknown receiver it returns, leaves the world as it is and logs
    one warning. *)
Theorem direct_delivery_bypasses_subscribers bus message w :
  let x := MessageBus.send_direct bus message w in
  MessageBus.called x.2 = [] ∧
  (MessageBus.agents bus !! AgentMessage.receiver message = None →
   x.1.1 = Ok tt ∧ x.1.2 = w ∧
   x.2 = [MessageBus.Logged WARNING
            ("⚠️ 找不到目標代理: " +:+ AgentMessage.receiver message)]).
Proof.
  intros x. subst x. unfold MessageBus.send_direct.
  destruct (MessageBus.agents bus !! AgentMessage.receiver message) as [agent|].
  - destruct (agent message w) as [[u|e] w1]; done.
  - done.
Qed.
End LoopFacts.

Lemma published_messages_handled_in_order_witness :
  let run (bus : MessageBus.t (list Effect)) :=
    MessageBusLoop.start 3 (foldl MessageBus.publish bus [BusScenario.message]) [] in
  let waiting : MessageBus.t (list Effect) :=
    MessageBus.register_agent MessageBus.__init__ "InstagramAgent"
      (fun _ w => (Raised (TimeoutError ""), w)) in
  MessageBus.message_queue (run BusScenario.bus).1.1 = [] ∧
  MessageBus.logged_errors (run BusScenario.bus).2
  = ["❌ 訊息處理錯誤: 'NoneType' object has no attribute 'image_url'"] ∧
  MessageBus.logged_errors (run waiting).2 = [].
Proof.
  intros run waiting.
  assert (Hturns : (length [BusScenario.message] ≤ 3)%nat) by (simpl; lia).
  destruct (published_messages_handled_in_order BusScenario.bus [BusScenario.message]
              3 [] eq_refl Hturns) as (Hbus & _ & Hevs).
  destruct (published_messages_handled_in_order waiting [BusScenario.message]
              3 [] eq_refl Hturns) as (_ & _ & Hevs').
  split_and!.
  - unfold run. by rewrite Hbus.
  - unfold run. rewrite Hevs. vm_compute. reflexivity.
  - unfold run. rewrite Hevs'. vm_compute. reflexivity.
Defined.

(* ===================================================================== *)
(** ** Instagram agent *)
(* ===================================================================== *)

(** X22. When the Instagram agent answers and when it does not.  Handling a
    POST_REQUEST leaves the agent as it is.  Without credentials it reports
    the failure "憑證不完整" whatever the request holds.  With credentials it
    raises, and reports nothing, exactly when the request has neither an
    image of its own nor a post; otherwise it sends one POST_RESULT for
    platform instagram: the answer of the Graph API for the image of the
    request, or else of the post, and the failure "Instagram 需要圖片" when
    neither has one, in which case the Graph API is not consulted. *)
Theorem instagram_answers_unless_request_is_empty
    (graph_api : option SocialPost.t → string → PostResult.t)
    m (self : InstagramAgent.t) :
  AgentMessage.msg_type m = POST_REQUEST →
  let x := InstagramAgent.receive graph_api m self in
  let post := Payload.post (AgentMessage.payload m) in
  let image_url := Payload.image_url (AgentMessage.payload m) in
  let no_image := PostResult.mk false "instagram" None None (Some "Instagram 需要圖片") in
  after x = self ∧
  (InstagramAgent.has_credentials self = false →
   outcome x = Ok tt ∧
   sends (effects x)
   = [instagram_report (PostResult.mk false "instagram" None None (Some "憑證不完整"))]) ∧
  (InstagramAgent.has_credentials self = true → given image_url = true →
   outcome x = Ok tt ∧
   sends (effects x) = [instagram_report (graph_api post (default "" image_url))]) ∧
  (InstagramAgent.has_credentials self = true → given image_url = false →
   post = None →
   outcome x = Raised (AttributeError "'NoneType' object has no attribute 'image_url'") ∧
   sends (effects x) = []) ∧
  (∀ p, InstagramAgent.has_credentials self = true → given image_url = false →
        post = Some p →
        outcome x = Ok tt ∧
        sends (effects x)
        = [instagram_report
             (if given (SocialPost.image_url p)
              then graph_api post (default "" (SocialPost.image_url p))
              else no_image)]).
Proof.
  intros Hty x post image_url no_image. subst x post image_url no_image.
  unfold InstagramAgent.receive, receive_message, InstagramAgent._message_handlers.
  rewrite Hty. unfold InstagramAgent._handle_post_request, InstagramAgent.post, given.
  destruct self as [creds]. cbn [InstagramAgent.has_credentials].
  destruct creds; cbn [negb].
  - destruct (Payload.image_url _) as [u|]; [destruct (PyStr.truthy u) eqn:Hu|];
      (destruct (Payload.post _) as [p|];
       [destruct (SocialPost.image_url p) as [v|] eqn:Hp;
          [destruct (PyStr.truthy v) eqn:Hv|] |]);
      act_run; rewrite ?Hu, ?Hp; act_run; rewrite ?Hv;
      (split_and!; [done|done|try done|try done|]);
      try (intros p' _ _ [= <-]; by rewrite Hp, ?Hv);
      try (by intros p' _ ?).
  - act_run. split_and!; try done.
Qed.

Lemma instagram_answers_unless_request_is_empty_witness :
  let x := InstagramAgent.receive BusScenario.graph_api BusScenario.request
             (InstagramAgent.mk true) in
  outcome x = Ok tt ∧
  sends (effects x)
  = [instagram_report (PostResult.mk false "instagram" None None (Some "Instagram 需要圖片"))].
Proof.
  intros x.
  exact (proj2 (proj2 (proj2 (proj2
           (instagram_answers_unless_request_is_empty BusScenario.graph_api
              BusScenario.request (InstagramAgent.mk true) eq_refl))))
           _ eq_refl eq_refl eq_refl).
Defined.

(* ===================================================================== *)
(** ** Work item ids: the day *)
(* ===================================================================== *)

Lemma string_length_append (a b : string) :
  String.length (a +:+ b) = (String.length a + String.length b)%nat.
Proof. induction a as [|x a IH]; [done|]. simpl. by rewrite IH. Qed.

Lemma length_zfill w n : String.length (PyStr.zfill w n) = w.
Proof.
  revert n. induction w as [|w IH]; intros n; [done|].
  cbn [PyStr.zfill]. rewrite string_length_append, IH. simpl. lia.
Qed.

Lemma append_inj_length (a b c d : string) :
  String.length a = String.length b → a +:+ c = b +:+ d → a = b ∧ c = d.
Proof.
  revert b. induction a as [|x a IH]; intros [|y b] Hlen Heq; try done.
  simpl in Hlen, Heq. injection Heq as -> Heq.
  destruct (IH b) as [-> ->]; [lia|done|done].
Qed.

Lemma append_inj_r (a b c d : string) :
  String.length c = String.length d → a +:+ c = b +:+ d → a = b ∧ c = d.
Proof.
  intros Hlen Heq.
  assert (Hl : String.length a = String.length b).
  { apply (f_equal String.length) in Heq. rewrite !string_length_append in Heq. lia. }
  by apply append_inj_length.
Qed.

Lemma digit_inj n m : PyStr.digit n = PyStr.digit m → (n mod 10 = m mod 10)%N.
Proof.
  unfold PyStr.digit. intros H. apply (f_equal N_of_ascii) in H.
  rewrite !N_ascii_embedding in H.
  - lia.
  - pose proof (N.mod_upper_bound m 10). lia.
  - pose proof (N.mod_upper_bound n 10). lia.
Qed.

Lemma zfill_inj w n m :
  (n < 10 ^ N.of_nat w)%N → (m < 10 ^ N.of_nat w)%N →
  PyStr.zfill w n = PyStr.zfill w m → n = m.
Proof.
  revert n m. induction w as [|w IH]; intros n m Hn Hm Heq.
  - simpl in Hn, Hm. lia.
  - cbn [PyStr.zfill] in Heq.
    apply append_inj_r in Heq as [Hhi Hlo]; [|done].
    injection Hlo as Hlo. apply digit_inj in Hlo.
    rewrite Nat2N.inj_succ, N.pow_succ_r' in Hn, Hm.
    assert (Hq : (n / 10 = m / 10)%N).
    { apply IH; [| |done].
      - apply N.Div0.div_lt_upper_bound. lia.
      - apply N.Div0.div_lt_upper_bound. lia. }
    rewrite (N.div_mod n 10), (N.div_mod m 10) by lia. lia.
Qed.

(** X23. The publish date enters the id through its day only.  Two
    announcements with the same title and body have the same id exactly when
    their dates fall on the same day: the time of day is ignored, and a
    different day gives a different id. *)
Theorem generate_id_separates_days (md5_hexdigest : string → string) a b :
  AwardAnnouncement.title a = AwardAnnouncement.title b →
  AwardAnnouncement.content a = AwardAnnouncement.content b →
  calendar_date (AwardAnnouncement.date a) →
  calendar_date (AwardAnnouncement.date b) →
  AwardAnnouncement.generate_id md5_hexdigest a
  = AwardAnnouncement.generate_id md5_hexdigest b ↔
  same_day (AwardAnnouncement.date a) (AwardAnnouncement.date b).
Proof.
  intros Ht Hc (Hya & Hma & Hda) (Hyb & Hmb & Hdb).
  unfold AwardAnnouncement.generate_id, datetime.strftime_Ymd, same_day.
  rewrite Ht, Hc. split.
  - intros Heq.
    apply append_inj_length in Heq as [_ Heq]; [|done].
    apply append_inj_length in Heq as [Heq _];
      [|by rewrite !string_length_append, !length_zfill].
    apply append_inj_length in Heq as [Hy Heq]; [|by rewrite !length_zfill].
    apply append_inj_length in Heq as [Hm Hd]; [|by rewrite !length_zfill].
    split_and!; eapply zfill_inj; try eassumption; simpl; lia.
  - intros (-> & -> & ->). done.
Qed.

Lemma generate_id_separates_days_witness :
  let md5 := fun s : string => "9e107d9d372bb6826bd81d3542a419d6" +:+ s in
  let a := AwardAnnouncement.mk "" "賀 獲獎" "內文" "u" (datetime.mk 2024 5 17 9 30 0 0) None in
  let b := AwardAnnouncement.mk "" "賀 獲獎" "內文" "u" (datetime.mk 2024 5 18 9 30 0 0) None in
  AwardAnnouncement.generate_id md5 a ≠ AwardAnnouncement.generate_id md5 b.
Proof.
  intros md5 a b Heq.
  assert (Ha : calendar_date (AwardAnnouncement.date a)) by (vm_compute; intuition discriminate).
  assert (Hb : calendar_date (AwardAnnouncement.date b)) by (vm_compute; intuition discriminate).
  destruct (proj1 (generate_id_separates_days md5 a b eq_refl eq_refl Ha Hb) Heq)
    as (_ & _ & Hd).
  discriminate Hd.
Defined.

(* ===================================================================== *)
(** ** Agents in sequence *)
(* ===================================================================== *)

(** X24. The completion report settles the announcement at the intake
    coordinator.  The STATUS_UPDATE that finalizing a task sends is always
    counted by FatherAgent, once: as completed, and the announcement leaves
    the pending set, when some recorded result succeeded; as failed, and the
    pending set keeps the announcement, otherwise.  FatherAgent sends
    nothing in return. *)
Theorem completion_report_settles_announcement tid task (mother : MotherAgent.t)
    (father : FatherAgent.t) now mid :
  PyDict.get tid (MotherAgent.active_tasks mother) = Some task →
  let results := default ∅ (MotherAgent.results_buffer mother !! tid) in
  let succeeded := ∃ platform r, results !! platform = Some r ∧
                                 PostResult.success r = true in
  ∃ p,
    sends (effects (MotherAgent._finalize_task tid mother))
    = [("FatherAgent", STATUS_UPDATE, p)] ∧
    let y := FatherAgent.receive now
               (envelope "MotherAgent" now mid "FatherAgent" STATUS_UPDATE p) father in
    let st := FatherAgent.processing_stats father in
    let st' := FatherAgent.processing_stats (after y) in
    outcome y = Ok tt ∧ sends (effects y) = [] ∧
    FatherAgent.received st' = FatherAgent.received st ∧
    FatherAgent.forwarded st' = FatherAgent.forwarded st ∧
    (succeeded →
     FatherAgent.completed st' = FatherAgent.completed st + 1 ∧
     FatherAgent.failed st' = FatherAgent.failed st ∧
     FatherAgent.pending_announcements (after y)
     = delete tid (FatherAgent.pending_announcements father)) ∧
    (¬ succeeded →
     FatherAgent.completed st' = FatherAgent.completed st ∧
     FatherAgent.failed st' = FatherAgent.failed st + 1 ∧
     FatherAgent.pending_announcements (after y)
     = FatherAgent.pending_announcements father).
Proof.
  intros Hget results succeeded.
  destruct (finalize_task_run tid task mother Hget) as (_ & _ & Hsends & _).
  eexists. split; [exact Hsends|]. fold results.
  intros y st st'. subst y st st'.
  match goal with
  | |- context [FatherAgent.receive now ?m father] =>
      destruct (father_status_update now m father eq_refl) as (Ho & Hs & Hafter)
  end.
  cbv zeta in Hafter. rewrite Ho, Hs, Hafter.
  cbn [AgentMessage.payload envelope Payload.status Payload.announcement_id].
  destruct (Z.ltb_spec 0 (MotherAgent.success_count results)) as [Hpos|Hzero].
  - rewrite decide_True by done. father_proj.
    split_and!; try done.
    intros Hnone. destruct Hnone. by apply success_count_pos.
  - rewrite decide_False by done. rewrite decide_True by done. father_proj.
    split_and!; try done.
    intros Hsome. apply success_count_pos in Hsome. lia.
Qed.

Lemma completion_report_settles_announcement_witness :
  ∃ p,
    sends (effects (MotherAgent._finalize_task "A" Scenario.two_posting))
    = [("FatherAgent", STATUS_UPDATE, p)] ∧
    FatherAgent.failed
      (FatherAgent.processing_stats
         (after (FatherAgent.receive Scenario.later
                   (envelope "MotherAgent" Scenario.later "0123456789ab" "FatherAgent"
                      STATUS_UPDATE p) FatherAgent.__init__))) = 1.
Proof.
  destruct (PyDict.get "A" (MotherAgent.active_tasks Scenario.two_posting))
    as [task|] eqn:Hget; [|vm_compute in Hget; discriminate Hget].
  destruct (completion_report_settles_announcement "A" task Scenario.two_posting
              FatherAgent.__init__ Scenario.later "0123456789ab" Hget)
    as (p & Hsends & _ & _ & _ & _ & _ & Hfailed).
  exists p. split; [exact Hsends|].
  refine (proj1 (proj2 (Hfailed _))).
  intros (platform & r & Hl & _). vm_compute in Hl. discriminate Hl.
Defined.

(** X25. A notified announcement reaches the content agent.  Handling the
    NEW_ANNOUNCEMENT that the information agent sends for an announcement,
    FatherAgent keeps the announcement pending under its id and sends one
    TASK_ASSIGNMENT; handling that, MotherAgent, whatever its state, opens
    (or reopens) the record of the announcement in state generating_content
    with no result, and sends the announcement to ContentAgent. *)
Theorem notified_announcement_reaches_content_agent timestamps i a
    (father : FatherAgent.t) (mother : MotherAgent.t) now mid now' mid' :
  let n := notification timestamps i a in
  let x := FatherAgent.receive now
             (envelope "InformationAgent" now mid n.1.1 n.1.2 n.2) father in
  ∃ p,
    sends (effects x) = [("MotherAgent", TASK_ASSIGNMENT, p)] ∧
    FatherAgent.pending_announcements (after x) !! AwardAnnouncement.id a = Some a ∧
    let y := MotherAgent.receive now'
               (envelope "FatherAgent" now' mid' "MotherAgent" TASK_ASSIGNMENT p)
               mother in
    outcome y = Ok tt ∧
    PyDict.get (AwardAnnouncement.id a) (MotherAgent.active_tasks (after y))
    = Some (Task.mk a "generating_content" now' None ∅) ∧
    MotherAgent.results_buffer (after y) !! AwardAnnouncement.id a = Some ∅ ∧
    sends (effects y)
    = [("ContentAgent", TASK_ASSIGNMENT,
        Payload.mk (Some a) None None (Some (AwardAnnouncement.id a))
          None None None None None None None None None)].
Proof.
  intros n x. subst n x.
  match goal with
  | |- context [FatherAgent.receive now ?m father] =>
      destruct (father_new_announcement now m a father eq_refl eq_refl)
        as (_ & Hafter & Hsends)
  end.
  cbv zeta in Hafter.
  eexists. split; [exact Hsends|]. rewrite Hafter.
  cbn [FatherAgent.pending_announcements].
  split; [apply lookup_insert_eq|].
  cbv zeta.
  match goal with
  | |- context [MotherAgent.receive now' ?m mother] =>
      destruct (receive_handler now' m mother) as (-> & -> & -> & _);
      unfold mother_handler, MotherAgent._message_handlers;
      change (AgentMessage.msg_type m) with TASK_ASSIGNMENT; cbv iota;
      rewrite (task_assignment_run now' m mother a eq_refl)
  end.
  unfold outcome, after, effects.
  cbn [fst snd MotherAgent.active_tasks MotherAgent.results_buffer].
  split_and!; try done.
  - apply PyDict_get_set_eq.
  - apply lookup_insert_eq.
Qed.
